(** * NightModeBot: scheduling, rescheduling and cancellation

    A shallow embedding of the bot's six Python modules ([config],
    [db_manager], [utils], [jobs], [handlers], [main]) and the properties
    of its scheduling subsystem.

    Modelling conventions.
    - Every [def] is modelled as a function of its arguments and of the
      state it reads and writes; module initialisation and the dispatcher's
      routing of updates to handlers are not modelled.
    - The Python language, its builtins and its standard library ([str.split],
      [int], [datetime.strptime], [datetime + timedelta], argument binding,
      name lookup, [try]/[except]) are modelled as CPython behaves.  Text is a
      sequence of code points below 256.
    - The third-party collaborators (the document store client, the job
      scheduler, the chat transport) are modelled through the interface the
      source uses, as the libraries behave: a reference is checked when it
      is built, a document is encoded before it is sent, [add] answers with
      a pair, and the scheduler of handlers.py, which is never started,
      keeps the jobs it is given on its pending list.  What the store and
      the transport answer over the network is an input of the model. *)

From stdpp Require Import gmap strings list fin_maps.
From Stdlib Require Import ZArith Ascii String DecimalString DecimalZ DecimalPos Lia.

Open Scope Z_scope.

(** ** Python values, exceptions and results *)

(** The values that cross the interfaces of the bot: document fields, job
    arguments and conversational data. *)
Inductive pyval : Type :=
| VNone
| VInt (z : Z)
| VStr (s : string)
| VBot                 (* the aiogram [Bot] instance *)
| VServerTimestamp     (* [firestore.SERVER_TIMESTAMP] *)
| VTimestamp (t : Z).  (* a time read from a document *)

Global Instance pyval_eq_dec : EqDecision pyval.
Proof. solve_decision. Defined.

Inductive exn_class : Type :=
| ValueError | NameError | TypeError | AttributeError | OverflowError
| IndexError | ConflictingIdError | JobLookupError
| StoreError           (* whatever a store call raises *)
| TransportError.      (* whatever a transport call raises *)

Global Instance exn_class_eq_dec : EqDecision exn_class.
Proof. solve_decision. Defined.

(** An exception: its class and [str(e)]. *)
Record exn : Type := Exn { exn_cls : exn_class; exn_msg : string }.

Global Instance exn_eq_dec : EqDecision exn.
Proof. solve_decision. Defined.

(** The outcome of evaluating Python code: a value, or a raised exception. *)
Inductive Res (A : Type) : Type :=
| Ret (a : A)
| Raise (e : exn).
Arguments Ret {A} a.
Arguments Raise {A} e.

Definition is_ret {A} (r : Res A) : bool :=
  match r with Ret _ => true | Raise _ => false end.

(** One evaluation after another: the second is not reached when the first
    raises. *)
Definition and_then {A B} (r : Res A) (f : A -> Res B) : Res B :=
  match r with Ret a => f a | Raise e => Raise e end.

(** ** Python text primitives *)

Module Py.

Definition code (c : ascii) : N := N_of_ascii c.

(** [str.isspace] on one code point below 256. *)
Definition is_space (c : ascii) : bool :=
  let n := code c in
  (((9 <=? n) && (n <=? 13)) || ((28 <=? n) && (n <=? 32))
   || (n =? 133) || (n =? 160))%N.

(** A decimal digit (Unicode category Nd below 256: ASCII 0 to 9). *)
Definition is_digit (c : ascii) : bool :=
  let n := code c in ((48 <=? n) && (n <=? 57))%N.

Definition digit_val (c : ascii) : Z := Z.of_N (code c) - 48.

Definition in_range (lo hi : N) (c : ascii) : bool :=
  let n := code c in ((lo <=? n) && (n <=? hi))%N.

Fixpoint drop_spaces (s : string) : string :=
  match s with
  | EmptyString => EmptyString
  | String c t => if is_space c then drop_spaces t else s
  end.

(** The maximal prefix without whitespace, and what follows it. *)
Fixpoint take_word (s : string) : string * string :=
  match s with
  | EmptyString => (EmptyString, EmptyString)
  | String c t =>
      if is_space c then (EmptyString, s)
      else let '(w, r) := take_word t in (String c w, r)
  end.

(** [s.split(maxsplit=1)]: leading whitespace is skipped, the first word is
    cut, and the remainder keeps its trailing whitespace. *)
Definition split_maxsplit1 (s : string) : list string :=
  match drop_spaces s with
  | EmptyString => []
  | s1 =>
      let '(w, r) := take_word s1 in
      match drop_spaces r with
      | EmptyString => [w]
      | r1 => [w; r1]
      end
  end.

(** [s.split(sep)] for a one-character separator. *)
Fixpoint split_on (sep : ascii) (s : string) : list string :=
  match s with
  | EmptyString => [EmptyString]
  | String c t =>
      if Ascii.eqb c sep then EmptyString :: split_on sep t
      else match split_on sep t with
           | h :: r => String c h :: r
           | [] => [String c EmptyString]
           end
  end.

Fixpoint rev_string (acc s : string) : string :=
  match s with
  | EmptyString => acc
  | String c t => rev_string (String c acc) t
  end.

(** The code points that [int] skips at both ends of its text: the ASCII
    whitespace, and the two code points from 128 to 255 that Unicode counts
    as whitespace, which are turned into blanks first.  The separators
    U+001C to U+001F are whitespace for [str.split], but [int] does not
    skip them. *)
Definition is_int_space (c : ascii) : bool :=
  let n := code c in
  (((9 <=? n) && (n <=? 13)) || (n =? 32) || (n =? 133) || (n =? 160))%N.

Fixpoint drop_int_spaces (s : string) : string :=
  match s with
  | EmptyString => EmptyString
  | String c t => if is_int_space c then drop_int_spaces t else s
  end.

Definition int_strip (s : string) : string :=
  rev_string EmptyString
    (drop_int_spaces (rev_string EmptyString (drop_int_spaces s))).

(** The digits of an integer literal after its first digit: single
    underscores are allowed between digits. *)
Fixpoint int_digits (acc : Z) (s : string) : option Z :=
  match s with
  | EmptyString => Some acc
  | String c t =>
      if is_digit c then int_digits (10 * acc + digit_val c) t
      else if Ascii.eqb c "_" then
        match t with
        | String d t' =>
            if is_digit d then int_digits (10 * acc + digit_val d) t'
            else None
        | EmptyString => None
        end
      else None
  end.

Definition int_body (s : string) : option Z :=
  match s with
  | String c t => if is_digit c then int_digits (digit_val c) t else None
  | EmptyString => None
  end.

Fixpoint count_digits (s : string) : nat :=
  match s with
  | EmptyString => O
  | String c t => if is_digit c then S (count_digits t) else count_digits t
  end.

(** [sys.int_info.default_max_str_digits]. *)
Definition max_str_digits : nat := 4300.

(** [int(s)] in base 10; [None] stands for [ValueError]. *)
Definition int (s : string) : option Z :=
  let s1 := int_strip s in
  if Nat.ltb max_str_digits (count_digits s1) then None
  else match s1 with
       | String c t =>
           if Ascii.eqb c "+" then int_body t
           else if Ascii.eqb c "-" then Z.opp <$> int_body t
           else int_body s1
       | EmptyString => None
       end.

(** [str(z)] for an integer of at most 4300 digits, as the identifiers of
    the chat service and the counts that [int] has read are. *)
Definition str (z : Z) : string := NilZero.string_of_int (Z.to_int z).

(** The regular expression that [_strptime] compiles ["%H:%M"] to,
    [(2[0-3]|[0-1]\d|\d):([0-5]\d|\d)], matched at the start of the text with
    the alternatives tried in order.  Each function lists the ways its group
    can match, first alternative first, with the text left over. *)
Definition match_H (s : string) : list (Z * string) :=
  (match s with
   | String c (String d r) =>
       if Ascii.eqb c "2" && in_range 48 51 d
       then [(20 + digit_val d, r)] else []
   | _ => []
   end) ++
  (match s with
   | String c (String d r) =>
       if in_range 48 49 c && is_digit d
       then [(10 * digit_val c + digit_val d, r)] else []
   | _ => []
   end) ++
  (match s with
   | String c r => if is_digit c then [(digit_val c, r)] else []
   | _ => []
   end).

Definition match_M (s : string) : list (Z * string) :=
  (match s with
   | String c (String d r) =>
       if in_range 48 53 c && is_digit d
       then [(10 * digit_val c + digit_val d, r)] else []
   | _ => []
   end) ++
  (match s with
   | String c r => if is_digit c then [(digit_val c, r)] else []
   | _ => []
   end).

(** The first way to match the whole pattern, in backtracking order. *)
Definition regex_HM (s : string) : option (Z * Z * string) :=
  head (flat_map
          (fun '(h, r) =>
             match r with
             | String c r1 =>
                 if Ascii.eqb c ":"
                 then List.map (fun '(m, r2) => (h, m, r2)) (match_M r1)
                 else []
             | EmptyString => []
             end)
          (match_H s)).

(** [datetime.strptime(s, "%H:%M")]: the pattern must match and consume the
    whole text ("unconverted data remains" otherwise); [None] stands for
    [ValueError]. *)
Definition strptime_HM (s : string) : option (Z * Z) :=
  match regex_HM s with
  | Some (h, m, EmptyString) => Some (h, m)
  | _ => None
  end.

(** [datetime] values are counted in microseconds from [datetime.min]; the
    type holds the instants up to [datetime.max]. *)
Definition datetime_max : Z := 3652059 * 86400 * 1000000 - 1.

(** [timedelta] holds at most 999999999 days in either direction. *)
Definition timedelta_max : Z := 1000000000 * 86400 * 1000000 - 1.
Definition timedelta_min : Z := - 999999999 * 86400 * 1000000.

Definition overflow (msg : string) : exn := Exn OverflowError msg.

(** [timedelta(minutes=m)], in microseconds. *)
Definition timedelta_minutes (m : Z) : Res Z :=
  let us := m * 60 * 1000000 in
  if (timedelta_min <=? us) && (us <=? timedelta_max) then Ret us
  else Raise (overflow "days must have magnitude <= 999999999").

(** [d + delta] on a [datetime]. *)
Definition datetime_add (d delta : Z) : Res Z :=
  let r := d + delta in
  if (0 <=? r) && (r <=? datetime_max) then Ret r
  else Raise (overflow "date value out of range").

End Py.

(** ** The state the bot runs in *)

(** *** The document store (Firestore), as the adapter uses it *)

(** A value of a document field, as the store holds it. *)
Inductive fsval : Type :=
| FNull
| FInt (z : Z)
| FStr (s : string)
| FTime (t : Z).

Global Instance fsval_eq_dec : EqDecision fsval.
Proof. solve_decision. Defined.

(** What a read returns for a stored value ([doc.to_dict()]). *)
Definition to_py (f : fsval) : pyval :=
  match f with
  | FNull => VNone
  | FInt z => VInt z
  | FStr s => VStr s
  | FTime t => VTimestamp t
  end.

(** [doc.to_dict()]. *)
Definition to_dict (fields : gmap string fsval) : gmap string pyval :=
  to_py <$> fields.

(** What the client sends for a field: a value, or the request to put the
    server's time of the write there. *)
Inductive wval : Type :=
| WVal (f : fsval)
| WServerTime.

(** The integers of a document are 64-bit. *)
Definition int64 (z : Z) : bool := (- 2 ^ 63 <=? z) && (z <? 2 ^ 63).

(** [_helpers.encode_value]: the client encodes a value before it sends it,
    and raises for what a document cannot hold. *)
Definition encode_value (v : pyval) : Res wval :=
  match v with
  | VNone => Ret (WVal FNull)
  | VInt z =>
      if int64 z then Ret (WVal (FInt z))
      else Raise (Exn ValueError "Value out of range")
  | VStr s => Ret (WVal (FStr s))
  | VTimestamp t => Ret (WVal (FTime t))
  | VServerTimestamp => Ret WServerTime
  | VBot => Raise (Exn TypeError "Cannot convert to a Firestore Value")
  end.

Definition encoded (v : pyval) : option wval :=
  match encode_value v with Ret x => Some x | Raise _ => None end.

(** A field that the client refuses: an empty name, or a value it cannot
    encode. *)
Definition refused (kv : string * pyval) : bool :=
  bool_decide (kv.1 = EmptyString) || negb (is_ret (encode_value kv.2)).

(** The fields of a dict, encoded.  Which refused field the exception
    names is seen in the log only. *)
Definition encode_dict (data : gmap string pyval) : Res (gmap string wval) :=
  match List.find refused (map_to_list data) with
  | None => Ret (omap encoded data)
  | Some (k, v) =>
      if bool_decide (k = EmptyString)
      then Raise (Exn ValueError "One or more components is not a string or is empty.")
      else match encode_value v with
           | Raise e => Raise e
           | Ret _ => Ret (omap encoded data)
           end
  end.

(** What the store keeps for a field sent at server time [now]. *)
Definition committed (now : Z) (x : wval) : fsval :=
  match x with
  | WVal f => f
  | WServerTime => FTime now
  end.

(** A reference: the segments of a path. *)
Definition Reference : Type := list string.

(** [_helpers.verify_path]: a collection has an odd number of segments and
    a document an even number. *)
Definition verify_path (path : Reference) (is_collection : bool) : Res Reference :=
  if is_collection then
    if Nat.odd (List.length path) then Ret path
    else Raise (Exn ValueError "A collection must have an odd number of path elements")
  else
    if Nat.even (List.length path) && negb (bool_decide (path = []))
    then Ret path
    else Raise (Exn ValueError "A document must have an even number of path elements").

(** [client.collection(path)]: the text is split at its slashes. *)
Definition client_collection (path : string) : Res Reference :=
  verify_path (Py.split_on "/" path) true.

(** [collection.document(document_id)]: the segments are joined with the id
    and split again, so that an id with a slash gives several segments. *)
Definition collection_document (c : Reference) (document_id : string) : Res Reference :=
  verify_path (c ++ Py.split_on "/" document_id) false.

(** [document.collection(collection_id)]. *)
Definition document_collection (d : Reference) (collection_id : string) : Res Reference :=
  verify_path (d ++ [collection_id]) true.

(** A document of a [scheduled_media] collection: the path of the users
    collection it lives under, the id of the user document that owns the
    collection, its own id and its fields. *)
Record MediaDoc : Type := {
  md_users_path : string;
  md_user : string;
  md_id : string;
  md_fields : gmap string fsval
}.

Record Firestore : Type := {
  (* (users collection path, user document id) to the fields of the
     document [settings/night_mode] under it *)
  fs_settings : gmap (string * string) (gmap string fsval);
  fs_media : list MediaDoc;
  (* what the coming network calls do: [Some msg] raises with that text *)
  fs_faults : list (option string);
  (* the ids drawn for added documents *)
  fs_auto_id : nat -> string;
  fs_added : nat;
  (* the server's time at each write, and the writes so far *)
  fs_time : nat -> Z;
  fs_writes : nat
}.

Definition fs_with_faults (fl : list (option string)) (fs : Firestore) : Firestore :=
  {| fs_settings := fs_settings fs; fs_media := fs_media fs; fs_faults := fl;
     fs_auto_id := fs_auto_id fs; fs_added := fs_added fs;
     fs_time := fs_time fs; fs_writes := fs_writes fs |}.

(** A write: the documents after it, one more write on the count. *)
Definition fs_write (s : gmap (string * string) (gmap string fsval))
    (l : list MediaDoc) (added : nat) (fs : Firestore) : Firestore :=
  {| fs_settings := s; fs_media := l; fs_faults := fs_faults fs;
     fs_auto_id := fs_auto_id fs; fs_added := added;
     fs_time := fs_time fs; fs_writes := S (fs_writes fs) |}.

Definition in_collection (path user : string) (d : MediaDoc) : bool :=
  bool_decide (md_users_path d = path) && bool_decide (md_user d = user).

(** [doc_ref.get()]: the stored fields, if the document exists. *)
Definition doc_get (path user : string) (fs : Firestore)
  : option (gmap string fsval) * Firestore :=
  (fs_settings fs !! (path, user), fs).

(** [doc_ref.set(data, merge=True)]: the fields of [data] are written, the
    other fields of an existing document are kept. *)
Definition doc_set_merge (path user : string) (data : gmap string wval)
    (fs : Firestore) : unit * Firestore :=
  let old := default ∅ (fs_settings fs !! (path, user)) in
  let now := fs_time fs (fs_writes fs) in
  (tt, fs_write (<[(path, user) := (committed now <$> data) ∪ old]> (fs_settings fs))
                (fs_media fs) (fs_added fs) fs).

(** [collection_ref.add(data)]: a document is created under a drawn id, and
    the call returns the pair of the write's time and the new reference,
    here its id. *)
Definition collection_add (path user : string) (data : gmap string wval)
    (fs : Firestore) : (Z * string) * Firestore :=
  let id := fs_auto_id fs (fs_added fs) in
  let now := fs_time fs (fs_writes fs) in
  ((now, id),
   fs_write (fs_settings fs)
     (fs_media fs ++
        [{| md_users_path := path; md_user := user; md_id := id;
            md_fields := committed now <$> data |}])
     (S (fs_added fs)) fs).

(** [collection_ref.get()]. *)
Definition collection_get (path user : string) (fs : Firestore)
  : list MediaDoc * Firestore :=
  (List.filter (in_collection path user) (fs_media fs), fs).

(** [doc_ref.delete()]. *)
Definition doc_delete (path user id : string) (fs : Firestore)
  : unit * Firestore :=
  (tt,
   fs_write (fs_settings fs)
     (List.filter
        (fun d => negb (in_collection path user d && bool_decide (md_id d = id)))
        (fs_media fs))
     (fs_added fs) fs).

(** [collection_group("scheduled_media").stream()]. *)
Definition collection_group_stream (fs : Firestore) : list MediaDoc * Firestore :=
  (fs_media fs, fs).

(** *** The job scheduler (APScheduler), as the bot uses it *)

Inductive callback : Type :=
| cb_delete_message_job
| cb_send_scheduled_media_job.

Inductive trigger : Type :=
| DateTrigger (run_date : Z)
| CronTrigger (hour minute second : Z).   (* daily, timezone UTC *)

Record Job : Type := {
  job_func : callback;
  job_trigger : trigger;
  job_args : list pyval
}.

Global Instance callback_eq_dec : EqDecision callback.
Proof. solve_decision. Defined.
Global Instance trigger_eq_dec : EqDecision trigger.
Proof. solve_decision. Defined.
Global Instance Job_eq_dec : EqDecision Job.
Proof. solve_decision. Defined.

(** A job table: the jobs in the order they were added, each under its id.
    For the scheduler of handlers.py, which is created and never started,
    it is the pending list; for the scheduler that [main] starts and hands
    to the reconciliation it is the job store. *)
Abbreviation Scheduler := (list (string * Job)).

Module Sched.

Definition job_ids (s : Scheduler) : list string := s.*1.

(** [scheduler.get_job(id)]. *)
Definition get_job (s : Scheduler) (id : string) : option Job :=
  snd <$> List.find (fun p => bool_decide (p.1 = id)) s.

Definition replace_job (id : string) (j : Job) (s : Scheduler) : Scheduler :=
  List.map (fun p => if bool_decide (p.1 = id) then (id, j) else p) s.

(** [scheduler.add_job(..., id=id, replace_existing=r)] on a scheduler that
    was not started: the job joins the pending list, whatever the list
    holds; [r] would be looked at when the scheduler starts. *)
Definition add_pending_job (s : Scheduler) (id : string) (j : Job) : Scheduler :=
  s ++ [(id, j)].

(** [scheduler.add_job(..., id=id, replace_existing=r)] on a running
    scheduler: a job under a taken id is replaced when [r] holds, and
    refused otherwise. *)
Definition add_job (s : Scheduler) (id : string) (j : Job)
    (replace_existing : bool) : Res Scheduler :=
  match get_job s id with
  | None => Ret (s ++ [(id, j)])
  | Some _ =>
      if replace_existing then Ret (replace_job id j s)
      else Raise (Exn ConflictingIdError
                      ("Job identifier (" +:+ id +:+ ") conflicts with an existing job"))
  end.

(** [scheduler.remove_job(id)]: the job under the id leaves the table.  A
    pending list to which two jobs were added under one id would give up
    the first only; the handlers remove send jobs only and add none, so
    that their runs bring no such list about. *)
Definition remove_job (s : Scheduler) (id : string) : Res Scheduler :=
  match get_job s id with
  | None => Raise (Exn JobLookupError ("No job by the id of " +:+ id +:+ " was found"))
  | Some _ => Ret (List.filter (fun p => negb (bool_decide (p.1 = id))) s)
  end.

(** The cron trigger accepts an hour of the day and a minute of the hour. *)
Definition cron_trigger (hour minute second : Z) : Res trigger :=
  if (0 <=? hour) && (hour <=? 23) && (0 <=? minute) && (minute <=? 59)
     && (0 <=? second) && (second <=? 59)
  then Ret (CronTrigger hour minute second)
  else Raise (Exn ValueError "cron field out of range").

End Sched.

(** *** The chat transport *)

Record Transport : Type := {
  (* the send calls carried out: method, chat id, file id *)
  tr_sent : list (string * pyval * pyval);
  (* the messages deleted: chat id, message id *)
  tr_deleted : list (pyval * pyval);
  tr_faults : list (option string)
}.

(** *** Conversational state (aiogram's [FSMContext]) *)

Inductive NightModeStates : Type :=
| waiting_for_delete_duration
| waiting_for_scheduled_media
| waiting_for_schedule_time.

Global Instance NightModeStates_eq_dec : EqDecision NightModeStates.
Proof. solve_decision. Defined.

Record FSMContext : Type := {
  fsm_state : option NightModeStates;
  fsm_data : gmap string pyval
}.

(** *** The world *)

Inductive level : Type := INFO | WARNING | ERROR.

Global Instance level_eq_dec : EqDecision level.
Proof. solve_decision. Defined.

Record World : Type := {
  w_db : option Firestore;          (* [config._firestore_db_instance] *)
  w_app_id : option string;         (* [config._app_id_instance] *)
  w_sched : Scheduler;              (* the module-level [handlers.scheduler] *)
  w_fsm : FSMContext;               (* the [state] of the update handled *)
  w_bot : Transport;
  w_out : list string;              (* texts sent with [message.reply] *)
  w_log : list (level * string);
  (* [datetime.now()]: the instant of each reading and the text of its
     POSIX timestamp *)
  w_clock : nat -> Z * string;
  w_ticks : nat
}.

Definition set_db (d : option Firestore) (w : World) : World :=
  {| w_db := d; w_app_id := w_app_id w; w_sched := w_sched w; w_fsm := w_fsm w;
     w_bot := w_bot w; w_out := w_out w; w_log := w_log w;
     w_clock := w_clock w; w_ticks := w_ticks w |}.

Definition set_sched (s : Scheduler) (w : World) : World :=
  {| w_db := w_db w; w_app_id := w_app_id w; w_sched := s; w_fsm := w_fsm w;
     w_bot := w_bot w; w_out := w_out w; w_log := w_log w;
     w_clock := w_clock w; w_ticks := w_ticks w |}.

Definition set_fsm (f : FSMContext) (w : World) : World :=
  {| w_db := w_db w; w_app_id := w_app_id w; w_sched := w_sched w; w_fsm := f;
     w_bot := w_bot w; w_out := w_out w; w_log := w_log w;
     w_clock := w_clock w; w_ticks := w_ticks w |}.

Definition set_bot (b : Transport) (w : World) : World :=
  {| w_db := w_db w; w_app_id := w_app_id w; w_sched := w_sched w; w_fsm := w_fsm w;
     w_bot := b; w_out := w_out w; w_log := w_log w;
     w_clock := w_clock w; w_ticks := w_ticks w |}.

Definition set_out (o : list string) (w : World) : World :=
  {| w_db := w_db w; w_app_id := w_app_id w; w_sched := w_sched w; w_fsm := w_fsm w;
     w_bot := w_bot w; w_out := o; w_log := w_log w;
     w_clock := w_clock w; w_ticks := w_ticks w |}.

Definition set_log (l : list (level * string)) (w : World) : World :=
  {| w_db := w_db w; w_app_id := w_app_id w; w_sched := w_sched w; w_fsm := w_fsm w;
     w_bot := w_bot w; w_out := w_out w; w_log := l;
     w_clock := w_clock w; w_ticks := w_ticks w |}.

Definition set_ticks (n : nat) (w : World) : World :=
  {| w_db := w_db w; w_app_id := w_app_id w; w_sched := w_sched w; w_fsm := w_fsm w;
     w_bot := w_bot w; w_out := w_out w; w_log := w_log w;
     w_clock := w_clock w; w_ticks := n |}.

(** ** Python code as state passing with exceptions *)

Definition M (A : Type) : Type := World -> Res A * World.

Global Instance M_ret : MRet M := fun A a w => (Ret a, w).

Global Instance M_bind : MBind M := fun A B f m w =>
  match m w with
  | (Ret a, w') => f a w'
  | (Raise e, w') => (Raise e, w')
  end.

Definition raise {A} (e : exn) : M A := fun w => (Raise e, w).

Definition lift_res {A} (r : Res A) : M A := fun w => (r, w).

(** [try: body / except cls as e: handler e]; [catches] says which
    exceptions the clauses take, the others propagate. *)
Definition try_except {A} (body : M A) (catches : exn -> bool)
    (handler : exn -> M A) : M A := fun w =>
  match body w with
  | (Ret a, w') => (Ret a, w')
  | (Raise e, w') => if catches e then handler e w' else (Raise e, w')
  end.

Definition any_exception (e : exn) : bool := true.
Definition only (c : exn_class) (e : exn) : bool := bool_decide (exn_cls e = c).

Definition log (l : level) (msg : string) : M unit := fun w =>
  (Ret tt, set_log (w_log w ++ [(l, msg)]) w).

(** [message.reply(text)] and [message.answer(text)]. *)
Definition reply (text : string) : M unit := fun w =>
  (Ret tt, set_out (w_out w ++ [text]) w).

(** [datetime.now()]. *)
Definition now : M (Z * string) := fun w =>
  (Ret (w_clock w (w_ticks w)), set_ticks (S (w_ticks w)) w).

(** What the coming network call does, and the store once it is consumed. *)
Definition pop_fault (fs : Firestore) : option string * Firestore :=
  match fs_faults fs with
  | [] => (None, fs)
  | f :: rest => (f, fs_with_faults rest fs)
  end.

(** [await asyncio.to_thread(op)] on the store client: the call raises when
    the store says so, and acts on the documents otherwise. *)
Definition store_call {A} (op : Firestore -> A * Firestore) : M A := fun w =>
  match w_db w with
  | None => (Raise (Exn AttributeError "'NoneType' object has no attribute"), w)
  | Some fs =>
      match pop_fault fs with
      | (Some msg, fs1) => (Raise (Exn StoreError msg), set_db (Some fs1) w)
      | (None, fs1) => let '(a, fs2) := op fs1 in (Ret a, set_db (Some fs2) w)
      end
  end.

(** A call on the transport. *)
Definition transport_call (op : Transport -> Transport) : M unit := fun w =>
  let b := w_bot w in
  match tr_faults b with
  | Some msg :: rest =>
      (Raise (Exn TransportError msg),
       set_bot {| tr_sent := tr_sent b; tr_deleted := tr_deleted b;
                  tr_faults := rest |} w)
  | None :: rest =>
      (Ret tt, set_bot (op {| tr_sent := tr_sent b; tr_deleted := tr_deleted b;
                              tr_faults := rest |}) w)
  | [] => (Ret tt, set_bot (op b) w)
  end.

(** Conversational state. *)
Definition state_clear : M unit := fun w =>
  (Ret tt, set_fsm {| fsm_state := None; fsm_data := ∅ |} w).

Definition state_set_state (s : NightModeStates) : M unit := fun w =>
  (Ret tt, set_fsm {| fsm_state := Some s; fsm_data := fsm_data (w_fsm w) |} w).

Definition state_update_data (k : string) (v : pyval) : M unit := fun w =>
  (Ret tt, set_fsm {| fsm_state := fsm_state (w_fsm w);
                      fsm_data := <[k := v]> (fsm_data (w_fsm w)) |} w).

Definition state_get_data : M (gmap string pyval) := fun w =>
  (Ret (fsm_data (w_fsm w)), w).

(** Truth value of a Python object ([if x], [not x]). *)
Definition truthy (v : option pyval) : bool :=
  match v with
  | None | Some VNone => false
  | Some (VInt z) => negb (z =? 0)
  | Some (VStr s) => negb (bool_decide (s = EmptyString))
  | Some _ => true
  end.

(** Text of a value inside an f-string. *)
Definition fmt (v : pyval) : string :=
  match v with
  | VNone => "None"
  | VInt z => Py.str z
  | VStr s => s
  | VBot => "<Bot>"
  | VServerTimestamp => "<Sentinel>"
  | VTimestamp _ => "<datetime>"
  end.

Definition nl : string := String (ascii_of_nat 10) EmptyString.

(** ** config.py *)

Module config.

Definition DEFAULT_APP_ID : string := "default-night-mode-bot".

Definition get_firestore_db : M (option Firestore) := fun w =>
  match w_db w with
  | None =>
      (Ret None,
       set_log (w_log w ++ [(WARNING, "Firestore DB instance not yet initialized.")]) w)
  | Some fs => (Ret (Some fs), w)
  end.

Definition get_app_id : M (option string) := fun w =>
  match w_app_id w with
  | None =>
      (Ret None,
       set_log (w_log w ++ [(WARNING, "App ID instance not yet initialized.")]) w)
  | Some a => (Ret (Some a), w)
  end.

(** [USERS_COLLECTION.format(app_id=app_id, userId=...)] with
    [USERS_COLLECTION = "artifacts/{app_id}/users"]. *)
Definition USERS_COLLECTION (app_id : option string) : string :=
  "artifacts/" +:+ default "None" app_id +:+ "/users".

End config.

(** ** db_manager.py *)

(** Every operation reads the client and the application id from [config],
    gives up when there is no client, builds the document or collection
    reference, which the client checks and may refuse with [ValueError],
    and then makes its one store call inside [try]/[except Exception]. *)

Module db_manager.

(** [db.collection(path).document(str(user_id))]. *)
Definition user_document (path : string) (user_id : Z) : Res Reference :=
  and_then (client_collection path) (fun c =>
  collection_document c (Py.str user_id)).

(** [....collection("settings").document("night_mode")]. *)
Definition settings_document (path : string) (user_id : Z) : Res Reference :=
  and_then (user_document path user_id) (fun d =>
  and_then (document_collection d "settings") (fun c =>
  collection_document c "night_mode")).

(** [....collection("scheduled_media")]. *)
Definition media_collection (path : string) (user_id : Z) : Res Reference :=
  and_then (user_document path user_id) (fun d =>
  document_collection d "scheduled_media").

(** [get_user_settings(user_id)]: the settings document, or the empty dict. *)
Definition get_user_settings (user_id : Z) : M (gmap string pyval) :=
  db ← config.get_firestore_db;
  app_id ← config.get_app_id;
  if bool_decide (db = None :> option Firestore) then
    log ERROR "Firestore DB not available.";;
    mret ∅
  else
    let path := config.USERS_COLLECTION app_id in
    doc_ref ← lift_res (settings_document path user_id);
    try_except
      (doc ← store_call (doc_get path (Py.str user_id));
       mret (default ∅ (to_dict <$> doc)))
      any_exception
      (fun e =>
         log ERROR ("Error fetching settings for user " +:+ Py.str user_id
                    +:+ ": " +:+ exn_msg e);;
         mret ∅).

(** [update_user_settings(user_id, settings)]: a merging write. *)
Definition update_user_settings (user_id : Z) (settings : gmap string pyval)
  : M unit :=
  db ← config.get_firestore_db;
  app_id ← config.get_app_id;
  if bool_decide (db = None :> option Firestore) then
    log ERROR "Firestore DB not available. Cannot update settings."
  else
    let path := config.USERS_COLLECTION app_id in
    doc_ref ← lift_res (settings_document path user_id);
    try_except
      (data ← lift_res (encode_dict settings);
       store_call (doc_set_merge path (Py.str user_id) data);;
       (* the dict's repr is left out of the text *)
       log INFO ("Updated settings for user " +:+ Py.str user_id))
      any_exception
      (fun e =>
         log ERROR ("Error updating settings for user " +:+ Py.str user_id
                    +:+ ": " +:+ exn_msg e)).

(** The dict that [add_scheduled_media] hands to [collection_ref.add]. *)
Definition media_fields (user_id chat_id message_id : Z)
    (media_file_id media_type : string) (schedule_time : pyval) : gmap string pyval :=
  <["chat_id" := VInt chat_id]>
   (<["message_id" := VInt message_id]>
    (<["media_file_id" := VStr media_file_id]>
     (<["media_type" := VStr media_type]>
      (<["schedule_time" := schedule_time]>
       (<["user_id" := VInt user_id]>
        (<["created_at" := VServerTimestamp]> ∅)))))).

(** [doc_ref.id] where [doc_ref] is what [collection_ref.add] returned: the
    pair has no such attribute. *)
Definition tuple_id (doc_ref : Z * string) : Res string :=
  Raise (Exn AttributeError "'tuple' object has no attribute 'id'").

(** [add_scheduled_media(...)]: meant to return the id of the new record;
    the empty string is the answer for a failure. *)
Definition add_scheduled_media (user_id chat_id message_id : Z)
    (media_file_id media_type : string) (schedule_time : pyval) : M string :=
  db ← config.get_firestore_db;
  app_id ← config.get_app_id;
  if bool_decide (db = None :> option Firestore) then
    log ERROR "Firestore DB not available. Cannot add scheduled media.";;
    mret EmptyString
  else
    let path := config.USERS_COLLECTION app_id in
    collection_ref ← lift_res (media_collection path user_id);
    try_except
      (data ← lift_res
         (encode_dict (media_fields user_id chat_id message_id media_file_id
                         media_type schedule_time));
       doc_ref ← store_call (collection_add path (Py.str user_id) data);
       doc_ref_id ← lift_res (tuple_id doc_ref);
       log INFO ("Added scheduled media for user " +:+ Py.str user_id
                 +:+ ": " +:+ doc_ref_id);;
       mret doc_ref_id)
      any_exception
      (fun e =>
         log ERROR ("Error adding scheduled media for user " +:+ Py.str user_id
                    +:+ ": " +:+ exn_msg e);;
         mret EmptyString).

(** [{**doc.to_dict(), "id": doc.id}]. *)
Definition item_of_doc (d : MediaDoc) : gmap string pyval :=
  <["id" := VStr (md_id d)]> (to_dict (md_fields d)).

(** [get_all_scheduled_media(user_id)]: the records of the user's own
    collection, each with its id. *)
Definition get_all_scheduled_media (user_id : Z) : M (list (gmap string pyval)) :=
  db ← config.get_firestore_db;
  app_id ← config.get_app_id;
  if bool_decide (db = None :> option Firestore) then
    log ERROR "Firestore DB not available.";;
    mret []
  else
    let path := config.USERS_COLLECTION app_id in
    collection_ref ← lift_res (media_collection path user_id);
    try_except
      (docs ← store_call (collection_get path (Py.str user_id));
       mret (List.map item_of_doc docs))
      any_exception
      (fun e =>
         log ERROR ("Error fetching scheduled media for user " +:+ Py.str user_id
                    +:+ ": " +:+ exn_msg e);;
         mret []).

(** [delete_scheduled_media(user_id, media_id)]. *)
Definition delete_scheduled_media (user_id : Z) (media_id : string) : M unit :=
  db ← config.get_firestore_db;
  app_id ← config.get_app_id;
  if bool_decide (db = None :> option Firestore) then
    log ERROR "Firestore DB not available. Cannot delete scheduled media."
  else
    let path := config.USERS_COLLECTION app_id in
    doc_ref ← lift_res
      (and_then (media_collection path user_id) (fun c =>
       collection_document c media_id));
    try_except
      (store_call (doc_delete path (Py.str user_id) media_id);;
       log INFO ("Deleted scheduled media " +:+ media_id +:+ " for user "
                 +:+ Py.str user_id))
      any_exception
      (fun e =>
         log ERROR ("Error deleting scheduled media " +:+ media_id
                    +:+ " for user " +:+ Py.str user_id +:+ ": " +:+ exn_msg e)).

End db_manager.

(** ** utils.py *)

(** An inbound message, with the attributes the handlers read. *)
Record Message : Type := {
  msg_text : string;
  from_user_id : Z;
  chat_id : Z;
  message_id : Z;
  sticker : option string;      (* [message.sticker.file_id] *)
  animation : option string;
  photo : list string;          (* the file ids of the photo sizes *)
  video : option string
}.

Module utils.

(** [get_media_file_id(message)]: the file id and the media type, or
    [(None, None)]. *)
Definition get_media_file_id (message : Message) : option string * option string :=
  match sticker message with
  | Some f => (Some f, Some "sticker")
  | None =>
      match animation message with
      | Some f => (Some f, Some "gif")
      | None =>
          match last (photo message) with
          | Some f => (Some f, Some "photo")
          | None =>
              match video message with
              | Some f => (Some f, Some "video")
              | None => (None, None)
              end
          end
      end
  end.

(** A method call on [bot_instance]. *)
Definition bot_send (bot_instance : pyval) (method : string)
    (chat_id media_file_id : pyval) : M unit :=
  match bot_instance with
  | VBot =>
      transport_call (fun b =>
        {| tr_sent := tr_sent b ++ [(method, chat_id, media_file_id)];
           tr_deleted := tr_deleted b; tr_faults := tr_faults b |})
  | _ => raise (Exn AttributeError ("object has no attribute '" +:+ method +:+ "'"))
  end.

(** [send_media_by_type(chat_id, media_file_id, media_type, bot_instance)],
    applied to the positional arguments of a call: the four parameters have
    no default. *)
Definition send_media_by_type (args : list pyval) : M bool :=
  match args with
  | [chat_id; media_file_id; media_type; bot_instance] =>
      try_except
        (if bool_decide (media_type = VStr "sticker") then
           bot_send bot_instance "send_sticker" chat_id media_file_id;;
           mret true
         else if bool_decide (media_type = VStr "gif") then
           bot_send bot_instance "send_animation" chat_id media_file_id;;
           mret true
         else if bool_decide (media_type = VStr "photo") then
           bot_send bot_instance "send_photo" chat_id media_file_id;;
           mret true
         else if bool_decide (media_type = VStr "video") then
           bot_send bot_instance "send_video" chat_id media_file_id;;
           mret true
         else
           log WARNING ("Unknown media type for sending: " +:+ fmt media_type);;
           mret false)
        any_exception
        (fun e =>
           log ERROR ("Error sending media (type: " +:+ fmt media_type
                      +:+ ", file_id: " +:+ fmt media_file_id +:+ ") to chat "
                      +:+ fmt chat_id +:+ ": " +:+ exn_msg e);;
           mret false)
  | [] =>
      raise (Exn TypeError
        "send_media_by_type() missing 4 required positional arguments: 'chat_id', 'media_file_id', 'media_type', and 'bot_instance'")
  | [_] =>
      raise (Exn TypeError
        "send_media_by_type() missing 3 required positional arguments: 'media_file_id', 'media_type', and 'bot_instance'")
  | [_; _] =>
      raise (Exn TypeError
        "send_media_by_type() missing 2 required positional arguments: 'media_type' and 'bot_instance'")
  | [_; _; _] =>
      raise (Exn TypeError
        "send_media_by_type() missing 1 required positional argument: 'bot_instance'")
  | _ =>
      raise (Exn TypeError
        ("send_media_by_type() takes 4 positional arguments but "
         +:+ Py.str (Z.of_nat (List.length args)) +:+ " were given"))
  end.

End utils.

(** ** jobs.py *)

Module jobs.

(** [delete_message_job(bot, chat_id, message_id)], applied to the bound
    arguments of the job. *)
Definition delete_message_job (args : list pyval) : M unit :=
  match args with
  | [bot; chat_id; message_id] =>
      try_except
        (match bot with
         | VBot =>
             transport_call (fun b =>
               {| tr_sent := tr_sent b;
                  tr_deleted := tr_deleted b ++ [(chat_id, message_id)];
                  tr_faults := tr_faults b |})
         | _ => raise (Exn AttributeError "object has no attribute 'delete_message'")
         end;;
         log INFO ("Deleted message " +:+ fmt message_id +:+ " in chat "
                   +:+ fmt chat_id))
        any_exception
        (fun e =>
           log ERROR ("Failed to delete message " +:+ fmt message_id
                      +:+ " in chat " +:+ fmt chat_id +:+ ": " +:+ exn_msg e))
  | _ => raise (Exn TypeError "delete_message_job() takes 3 positional arguments")
  end.

(** [send_scheduled_media_job(bot, user_id, chat_id, media_file_id,
    media_type, schedule_id)], applied to the bound arguments of the job.
    The call of [send_media_by_type] passes three arguments. *)
Definition send_scheduled_media_job (args : list pyval) : M unit :=
  match args with
  | [bot; user_id; chat_id; media_file_id; media_type; schedule_id] =>
      success ← utils.send_media_by_type [chat_id; media_file_id; media_type];
      if success : bool then
        log INFO ("Sent scheduled media " +:+ fmt schedule_id +:+ " to chat "
                  +:+ fmt chat_id)
      else
        log ERROR ("Failed to send scheduled media " +:+ fmt schedule_id
                   +:+ " to chat " +:+ fmt chat_id)
  | _ => raise (Exn TypeError "send_scheduled_media_job() takes 6 positional arguments")
  end.

(** The scheduler firing a job: the bound callback on the bound arguments. *)
Definition fire (j : Job) : M unit :=
  match job_func j with
  | cb_delete_message_job => delete_message_job (job_args j)
  | cb_send_scheduled_media_job => send_scheduled_media_job (job_args j)
  end.

End jobs.

(** ** Shared pieces of handlers.py and main.py *)

Definition invalid_literal : exn :=
  Exn ValueError "invalid literal for int() with base 10".

Definition int_or_raise (s : string) : Res Z :=
  match Py.int s with
  | Some z => Ret z
  | None => Raise invalid_literal
  end.

(** [hour, minute = map(int, v.split(':'))]: the parts are converted one by
    one while the two targets are filled, and one more is asked for to see
    that none is left. *)
Definition hour_minute_of (v : pyval) : Res (Z * Z) :=
  match v with
  | VStr s =>
      match Py.split_on ":" s with
      | [] => Raise (Exn ValueError "not enough values to unpack (expected 2, got 0)")
      | [a] =>
          match Py.int a with
          | None => Raise invalid_literal
          | Some _ => Raise (Exn ValueError "not enough values to unpack (expected 2, got 1)")
          end
      | a :: b :: rest =>
          match Py.int a, Py.int b with
          | Some h, Some m =>
              match rest with
              | [] => Ret (h, m)
              | c :: _ =>
                  match Py.int c with
                  | None => Raise invalid_literal
                  | Some _ => Raise (Exn ValueError "too many values to unpack (expected 2)")
                  end
              end
          | _, _ => Raise invalid_literal
          end
      end
  | _ => Raise (Exn AttributeError "object has no attribute 'split'")
  end.

(** The id of the daily job of a scheduled item. *)
Definition send_job_id (scheduled_id : string) : string :=
  "send_sch_" +:+ scheduled_id.

Definition send_job (trig : trigger) (bot user_id chat_id media_file_id media_type
    schedule_id : pyval) : Job :=
  {| job_func := cb_send_scheduled_media_job;
     job_trigger := trig;
     job_args := [bot; user_id; chat_id; media_file_id; media_type; schedule_id] |}.

(** ** handlers.py *)

Module handlers.

(** [scheduler.add_job(...)] on the module's scheduler, which nothing
    starts: the trigger is built from the keyword arguments, then the job
    joins the pending list. *)
Definition scheduler_add_job (id : string) (func : callback) (trig : Res trigger)
    (args : list pyval) (replace_existing : bool) : M unit := fun w =>
  match trig with
  | Raise e => (Raise e, w)
  | Ret t =>
      (Ret tt,
       set_sched (Sched.add_pending_job (w_sched w) id
                    {| job_func := func; job_trigger := t; job_args := args |}) w)
  end.

Definition scheduler_get_job (id : string) : M (option Job) := fun w =>
  (Ret (Sched.get_job (w_sched w) id), w).

Definition scheduler_remove_job (id : string) : M unit := fun w =>
  match Sched.remove_job (w_sched w) id with
  | Ret s => (Ret tt, set_sched s w)
  | Raise e => (Raise e, w)
  end.

Definition set_delete_timer_usage : string :=
  "Usage: `/set_delete_timer <minutes>` (e.g., `/set_delete_timer 5`)" +:+ nl +:+
  "This will delete any new stickers, GIFs, photos, or videos you send after 5 minutes.".

Definition positive_minutes_please : string :=
  "Please provide a positive number of minutes.".

Definition invalid_number : string :=
  "Invalid number. Please provide a whole number for minutes (e.g., `/set_delete_timer 10`).".

Definition timer_set_text (duration_minutes : Z) : string :=
  "Okay! I will delete stickers, GIFs, photos, and videos sent in this chat automatically after "
  +:+ Py.str duration_minutes +:+ " minute(s)." +:+ nl +:+
  "Now, send me the media you want to be automatically deleted, or type `/cancel_delete_timer` to stop.".

(** [/set_delete_timer <minutes>]. *)
Definition set_delete_timer_command (message : Message) : M unit :=
  match Py.split_maxsplit1 (msg_text message) with
  | _ :: arg1 :: _ =>
      try_except
        (duration_minutes ← lift_res (int_or_raise arg1);
         if duration_minutes <=? 0 then
           reply positive_minutes_please
         else
           let user_id := from_user_id message in
           settings ← db_manager.get_user_settings user_id;
           let settings := <["delete_timer_minutes" := VInt duration_minutes]> settings in
           let settings :=
             <["delete_timer_active_chat_id" := VInt (chat_id message)]> settings in
           db_manager.update_user_settings user_id settings;;
           state_set_state waiting_for_delete_duration;;
           reply (timer_set_text duration_minutes))
        (only ValueError)
        (fun _ => reply invalid_number)
  | _ => reply set_delete_timer_usage
  end.

Definition timer_cancelled : string :=
  "Automatic media deletion has been cancelled.".

Definition no_active_timer : string :=
  "No active automatic media deletion timer set.".

(** [/cancel_delete_timer]. *)
Definition cancel_delete_timer_command (message : Message) : M unit :=
  let user_id := from_user_id message in
  settings ← db_manager.get_user_settings user_id;
  if bool_decide (is_Some (settings !! "delete_timer_minutes")) then
    let settings := delete "delete_timer_minutes" settings in
    let settings :=
      if bool_decide (is_Some (settings !! "delete_timer_active_chat_id"))
      then delete "delete_timer_active_chat_id" settings else settings in
    db_manager.update_user_settings user_id settings;;
    state_clear;;
    reply timer_cancelled
  else
    reply no_active_timer.

Definition no_timer_for_chat : string :=
  "No active auto-deletion timer for this chat. Use `/set_delete_timer <minutes>` first.".

Definition will_be_deleted (delete_timer_minutes : pyval) : string :=
  "This media will be deleted automatically in " +:+ fmt delete_timer_minutes
  +:+ " minute(s).".

(** [x is None] for the result of [dict.get]. *)
Definition is_None (v : option pyval) : bool :=
  match v with
  | None | Some VNone => true
  | Some _ => false
  end.

(** [timedelta(minutes=v)]. *)
Definition timedelta_of (v : option pyval) : Res Z :=
  match v with
  | Some (VInt m) => Py.timedelta_minutes m
  | _ => Raise (Exn TypeError "unsupported type for timedelta minutes component")
  end.

Definition delete_job_id (chat_id message_id : Z) (stamp : string) : string :=
  "delete_msg_" +:+ Py.str chat_id +:+ "_" +:+ Py.str message_id +:+ "_" +:+ stamp.

(** A media message while the user awaits deletion media.  The state is
    not cleared on success: every later media message is armed too. *)
Definition handle_media_for_deletion (message : Message) : M unit :=
  let user_id := from_user_id message in
  settings ← db_manager.get_user_settings user_id;
  let delete_timer_minutes := settings !! "delete_timer_minutes" in
  let active_chat_id := settings !! "delete_timer_active_chat_id" in
  if is_None delete_timer_minutes
     || negb (bool_decide (active_chat_id = Some (VInt (chat_id message)))) then
    reply no_timer_for_chat;;
    state_clear
  else
    t1 ← now;
    delta ← lift_res (timedelta_of delete_timer_minutes);
    run_at ← lift_res (Py.datetime_add t1.1 delta);
    t2 ← now;
    scheduler_add_job
      (delete_job_id (chat_id message) (message_id message) t2.2)
      cb_delete_message_job
      (Ret (DateTrigger run_at))
      [VBot; VInt (chat_id message); VInt (message_id message)]
      false;;
    (* the text of [run_at] is left out *)
    log INFO ("Scheduled deletion for message " +:+ Py.str (message_id message)
              +:+ " in chat " +:+ Py.str (chat_id message));;
    reply (will_be_deleted (default VNone delete_timer_minutes)).

Definition schedule_media_usage : string :=
  "Usage: `/schedule_media <HH:MM>` (e.g., `/schedule_media 09:30`)" +:+ nl +:+
  "This will send the next media you send daily at 09:30 UTC.".

Definition invalid_time_format : string :=
  "Invalid time format. Please use HH:MM (e.g., `09:30`).".

Definition time_accepted (time_str : string) : string :=
  "Okay! I will schedule media to be sent daily at " +:+ time_str +:+ " UTC."
  +:+ nl +:+ "Now, send me the sticker, GIF, photo, or video you want to schedule.".

Definition strptime_or_raise (time_str : string) : Res (Z * Z) :=
  match Py.strptime_HM time_str with
  | Some hm => Ret hm
  | None => Raise (Exn ValueError "time data does not match format '%H:%M'")
  end.

(** [/schedule_media <HH:MM>]. *)
Definition schedule_media_command (message : Message) : M unit :=
  match Py.split_maxsplit1 (msg_text message) with
  | _ :: time_str :: _ =>
      try_except
        (scheduled_time ← lift_res (strptime_or_raise time_str);
         state_update_data "schedule_time_str" (VStr time_str);;
         state_set_state waiting_for_scheduled_media;;
         reply (time_accepted time_str))
        (only ValueError)
        (fun _ => reply invalid_time_format)
  | _ => reply schedule_media_usage
  end.

Definition something_went_wrong : string :=
  "Something went wrong. Please start again with `/schedule_media <HH:MM>`.".

Definition unsupported_media : string :=
  "I can only schedule stickers, GIFs, photos, or videos. Please send one of these types.".

Definition scheduled_ok (schedule_time_str : pyval) (scheduled_id : string) : string :=
  "Media scheduled successfully! It will be sent daily at **"
  +:+ fmt schedule_time_str +:+ " UTC**." +:+ nl +:+
  "Scheduled ID: `" +:+ scheduled_id +:+ "`" +:+ nl +:+
  "You can cancel it with `/cancel_schedule`.".

Definition database_error : string :=
  "Failed to schedule media due to a database error. Please try again.".

(** A media message while the user awaits the media to schedule. *)
Definition handle_scheduled_media (message : Message) : M unit :=
  data ← state_get_data;
  let schedule_time_str := data !! "schedule_time_str" in
  if negb (truthy schedule_time_str) then
    reply something_went_wrong;;
    state_clear
  else
    let schedule_time_str := default VNone schedule_time_str in
    let '(media_file_id, media_type) := utils.get_media_file_id message in
    if negb (truthy (VStr <$> media_file_id)) then
      reply unsupported_media
    else
      let media_file_id := default EmptyString media_file_id in
      let media_type := default EmptyString media_type in
      let user_id := from_user_id message in
      let chat_id := chat_id message in
      scheduled_id ← db_manager.add_scheduled_media user_id chat_id
                       (message_id message) media_file_id media_type
                       schedule_time_str;
      (if truthy (Some (VStr scheduled_id)) then
         '(hour, minute) ← lift_res (hour_minute_of schedule_time_str);
         scheduler_add_job
           (send_job_id scheduled_id)
           cb_send_scheduled_media_job
           (Sched.cron_trigger hour minute 0)
           [VBot; VInt user_id; VInt chat_id; VStr media_file_id;
            VStr media_type; VStr scheduled_id]
           true;;
         reply (scheduled_ok schedule_time_str scheduled_id)
       else
         reply database_error);;
      state_clear.

Definition not_found (schedule_id_to_cancel : string) : string :=
  "No scheduled media found with ID: `" +:+ schedule_id_to_cancel
  +:+ "` for your user. Please check the ID and try again.".

Definition cancelled_ok (schedule_id_to_cancel : string) : string :=
  "Scheduled media with ID `" +:+ schedule_id_to_cancel
  +:+ "` has been cancelled and removed.".

Definition cancel_failed (e : exn) : string :=
  "Failed to cancel scheduled media. Error: " +:+ exn_msg e.

(** The ownership loop: [item['id'] == schedule_id_to_cancel] for some item. *)
Definition found_in (scheduled_items : list (gmap string pyval))
    (schedule_id_to_cancel : string) : bool :=
  existsb (fun item => bool_decide (item !! "id" = Some (VStr schedule_id_to_cancel)))
          scheduled_items.

(** [/cancel_schedule <id>]. *)
Definition process_cancel_schedule_id (message : Message) : M unit :=
  match Py.split_maxsplit1 (msg_text message) with
  | _ :: schedule_id_to_cancel :: _ =>
      let user_id := from_user_id message in
      scheduled_items ← db_manager.get_all_scheduled_media user_id;
      if negb (found_in scheduled_items schedule_id_to_cancel) then
        reply (not_found schedule_id_to_cancel)
      else
        try_except
          (db_manager.delete_scheduled_media user_id schedule_id_to_cancel;;
           let job_id := send_job_id schedule_id_to_cancel in
           j ← scheduler_get_job job_id;
           (if bool_decide (is_Some j) then
              scheduler_remove_job job_id;;
              log INFO ("Removed APScheduler job " +:+ job_id)
            else mret tt);;
           reply (cancelled_ok schedule_id_to_cancel))
          any_exception
          (fun e =>
             log ERROR ("Error cancelling scheduled media " +:+ schedule_id_to_cancel
                        +:+ ": " +:+ exn_msg e);;
             reply (cancel_failed e))
  | _ => raise (Exn IndexError "list index out of range")
  end.

End handlers.

(** ** main.py *)

Module main.

(** The names the top-level statements of main.py bind: its imports, its
    logger and its three functions. *)
Definition main_globals : list string :=
  ["asyncio"; "logging"; "json"; "os"; "Bot"; "Dispatcher"; "ParseMode";
   "AsyncIOScheduler"; "firebase_admin"; "credentials"; "firestore"; "config";
   "get_all_scheduled_media"; "get_user_settings"; "update_user_settings";
   "register_handlers"; "send_scheduled_media_job"; "get_media_file_id";
   "send_media_by_type"; "logger"; "initialize_firebase_and_db";
   "load_and_reschedule_media"; "main"].

(** Evaluating a free name of a function body in the module's namespace. *)
Definition load_global (globals : list string) (name : string) : M unit :=
  if bool_decide (name ∈ globals) then mret tt
  else raise (Exn NameError ("name '" +:+ name +:+ "' is not defined")).

Definition required_fields : list string :=
  ["chat_id"; "media_file_id"; "media_type"; "schedule_time"].

Definition field (item : gmap string pyval) (k : string) : pyval :=
  default VNone (item !! k).

(** The body of the [for doc in user_docs_stream] loop; [acc] is the
    scheduler passed in and [total_jobs_rescheduled]. *)
Definition reschedule_doc (globals : list string) (bot_instance : pyval)
    (acc : Scheduler * Z) (doc : MediaDoc) : M (Scheduler * Z) :=
  let item := to_dict (md_fields doc) in
  try_except
    (user_id ← lift_res (int_or_raise (md_user doc));
     if forallb (fun k => bool_decide (is_Some (item !! k))) required_fields then
       '(hour, minute) ← lift_res (hour_minute_of (field item "schedule_time"));
       load_global globals "CronTrigger";;
       trig ← lift_res (Sched.cron_trigger hour minute 0);
       load_global globals "send_scheduled_media_job";;
       sched ← lift_res
         (Sched.add_job acc.1 (send_job_id (md_id doc))
            (send_job trig bot_instance (VInt user_id) (field item "chat_id")
               (field item "media_file_id") (field item "media_type")
               (VStr (md_id doc)))
            true);
       log INFO ("Rescheduled job " +:+ md_id doc +:+ " for user "
                 +:+ Py.str user_id +:+ " at " +:+ fmt (field item "schedule_time")
                 +:+ " UTC.");;
       mret (sched, acc.2 + 1)
     else
       log WARNING ("Skipping incomplete scheduled media document: " +:+ md_id doc);;
       mret acc)
    any_exception
    (fun e =>
       if only ValueError e then
         log ERROR ("Invalid user ID or time format in scheduled media document: "
                    +:+ md_id doc);;
         mret acc
       else
         log ERROR ("Error rescheduling job " +:+ md_id doc +:+ ": " +:+ exn_msg e);;
         mret acc).

Fixpoint for_each {A S : Type} (body : S -> A -> M S) (s : S) (l : list A) : M S :=
  match l with
  | [] => mret s
  | x :: l' => s' ← body s x; for_each body s' l'
  end.

(** [firestore_db] is the client that [main] also hands to [config]: the
    world's [w_db].  The scheduler passed in is returned as the call leaves
    it. *)
Definition load_and_reschedule_media (globals : list string) (bot_instance : pyval)
    (scheduler_instance : Scheduler) : M Scheduler :=
  firestore_db ← (fun w => (Ret (w_db w), w));
  if bool_decide (firestore_db = None :> option Firestore) then
    log WARNING "Firestore database not initialized. Cannot load scheduled media.";;
    mret scheduler_instance
  else
    log INFO "Loading and rescheduling all existing media...";;
    '(sched, total_jobs_rescheduled) ←
      try_except
        (user_docs_stream ← store_call collection_group_stream;
         for_each (reschedule_doc globals bot_instance) (scheduler_instance, 0)
                  user_docs_stream)
        any_exception
        (fun e =>
           log ERROR ("Error loading scheduled media for rescheduling: " +:+ exn_msg e);;
           mret (scheduler_instance, 0));
    log INFO ("Finished rescheduling " +:+ Py.str total_jobs_rescheduled +:+ " jobs.");;
    mret sched.

End main.

(** ** handlers.py: the start command *)

(** The sender of a message, with the names [/start] greets by. *)
Record User : Type := {
  username : option string;     (* [message.from_user.username] *)
  first_name : string
}.

Module handlers_start.

(** The names that handlers.py binds before its first decorated
    definition: its imports, its logger, its scheduler, the state group and
    [register_handlers].  The bodies of the handlers use no other global
    name that the module binds. *)
Definition handlers_globals : list string :=
  ["logging"; "datetime"; "timedelta"; "Bot"; "Dispatcher"; "types"; "Command";
   "FSMContext"; "State"; "StatesGroup"; "Message"; "CallbackQuery";
   "AsyncIOScheduler"; "db_manager"; "delete_message_job";
   "send_scheduled_media_job"; "get_media_file_id"; "send_media_by_type"; "logger";
   "scheduler"; "NightModeStates"; "register_handlers"].

(** The greeting; the three emoji of the text stand as their UTF-8 bytes. *)
Definition greeting (username : string) : string :=
  "Hello, " +:+ username +:+ "! 👋" +:+ nl +:+ nl +:+
  "I'm your Night Mode Bot for Telegram media." +:+ nl +:+ nl +:+
  "Here's what I can do:" +:+ nl +:+
  "🌙 **Automatic Media Deletion (Night Mode)**" +:+ nl +:+
  "  - Use `/set_delete_timer <minutes>` to have stickers, GIFs, photos, and videos automatically deleted after the set time." +:+ nl +:+
  "  - Example: `/set_delete_timer 5` (deletes media after 5 minutes)." +:+ nl +:+
  "  - Use `/cancel_delete_timer` to stop automatic deletion." +:+ nl +:+ nl +:+
  "⏰ **Scheduled Media Sending**" +:+ nl +:+
  "  - Use `/schedule_media <HH:MM>` to schedule a sticker, GIF, photo, or video to be sent daily at a specific time." +:+ nl +:+
  "  - Example: `/schedule_media 08:00` (sends media daily at 8 AM UTC)." +:+ nl +:+
  "  - Use `/cancel_schedule` to view and cancel your scheduled media." +:+ nl +:+ nl +:+
  "Type /help for more information.".

Definition your_user_id (user_id : Z) : string :=
  "Your User ID for this app is: `" +:+ Py.str user_id
  +:+ "` (for private data storage)".

(** [/start].  The arguments of a call are evaluated before the call:
    [firestore.SERVER_TIMESTAMP] before [update_user_settings], and
    [ParseMode.MARKDOWN_V2] before the second [message.answer]. *)
Definition command_start_handler (message : Message) (from_user : User) : M unit :=
  state_clear;;
  let user_id := from_user_id message in
  let username :=
    if truthy (VStr <$> username from_user) then default EmptyString (username from_user)
    else first_name from_user in
  reply (greeting username);;
  main.load_global handlers_globals "firestore";;
  db_manager.update_user_settings user_id (<["last_active" := VServerTimestamp]> ∅);;
  main.load_global handlers_globals "ParseMode";;
  reply (your_user_id user_id).

End handlers_start.

(** ** Vocabulary of the properties *)

(** What a store adapter call may change: the store and the log. *)
Definition frame (w w' : World) : Prop :=
  w_app_id w' = w_app_id w /\ w_sched w' = w_sched w /\ w_fsm w' = w_fsm w /\
  w_bot w' = w_bot w /\ w_out w' = w_out w /\ w_clock w' = w_clock w /\
  w_ticks w' = w_ticks w.

(** The documents the store holds. *)
Definition settings_of (w : World)
  : option (gmap (string * string) (gmap string fsval)) :=
  fs_settings <$> w_db w.

Definition media_of (w : World) : option (list MediaDoc) :=
  fs_media <$> w_db w.

(** The store client is unavailable, or the coming store call raises. *)
Definition store_fails (w : World) : bool :=
  match w_db w with
  | None => true
  | Some fs => match fs_faults fs with Some _ :: _ => true | _ => false end
  end.

(** The store is reachable and none of the coming calls raises. *)
Definition store_healthy (w : World) : Prop :=
  exists fs, w_db w = Some fs /\ fs_faults fs = [].

(** The scheduled items of a user, as the store holds them. *)
Definition user_docs (w : World) (user_id : Z) : list MediaDoc :=
  match w_db w with
  | None => []
  | Some fs =>
      List.filter
        (in_collection (config.USERS_COLLECTION (w_app_id w)) (Py.str user_id))
        (fs_media fs)
  end.

(** The settings document of a user, as the store holds it and a read
    returns it. *)
Definition user_settings (w : World) (user_id : Z) : option (gmap string pyval) :=
  match w_db w with
  | None => None
  | Some fs =>
      to_dict <$>
        fs_settings fs !! (config.USERS_COLLECTION (w_app_id w), Py.str user_id)
  end.

(** The client, if there is one, accepts the path of the users collection:
    the path has an odd number of segments, which is to say that the
    application id holds an even number of slashes. *)
Definition path_ok (w : World) : bool :=
  match w_db w with
  | None => true
  | Some _ => is_ret (client_collection (config.USERS_COLLECTION (w_app_id w)))
  end.

(** A document id that gives a collection's path an even number of
    segments: it holds an even number of slashes. *)
Definition id_ok (document_id : string) : bool :=
  Nat.odd (List.length (Py.split_on "/" document_id)).

(** A dict that the client can write as it stands: no empty field name, no
    value that it refuses. *)
Definition writable (data : gmap string pyval) : Prop :=
  forall k v, data !! k = Some v -> refused (k, v) = false.

(** The fields of a scheduled record as the store holds them once it is
    written at server time [now]. *)
Definition stored_media_fields (user_id chat_id message_id : Z)
    (media_file_id media_type schedule_time : string) (now : Z) : gmap string fsval :=
  <["chat_id" := FInt chat_id]>
   (<["message_id" := FInt message_id]>
    (<["media_file_id" := FStr media_file_id]>
     (<["media_type" := FStr media_type]>
      (<["schedule_time" := FStr schedule_time]>
       (<["user_id" := FInt user_id]>
        (<["created_at" := FTime now]> ∅)))))).

(** What a read returns for a written value: the server's time of the
    write for [SERVER_TIMESTAMP], the value itself otherwise. *)
Definition read_back (now : Z) (v : pyval) : pyval :=
  match v with
  | VServerTimestamp => VTimestamp now
  | _ => v
  end.

(** The time the server gives the coming write, and the id the store draws
    for the coming added document. *)
Definition write_time (w : World) : Z :=
  match w_db w with
  | Some fs => fs_time fs (fs_writes fs)
  | None => 0
  end.

Definition next_id (w : World) : string :=
  match w_db w with
  | Some fs => fs_auto_id fs (fs_added fs)
  | None => EmptyString
  end.

(** The delete timer is armed with [m] minutes for chat [c]. *)
Definition armed (w : World) (user_id c m : Z) : Prop :=
  store_healthy w /\
  exists s, user_settings w user_id = Some s /\
    s !! "delete_timer_minutes" = Some (VInt m) /\
    s !! "delete_timer_active_chat_id" = Some (VInt c).

(** The [k]-th coming clock reading. *)
Definition reading (w : World) (k : nat) : Z * string :=
  w_clock w (w_ticks w + k)%nat.

(** The world after a computation, whatever its outcome. *)
Definition after {A} (m : M A) (w : World) : World := (m w).2.

(** Strict 24-hour HH:MM, in the words of the specification: two digits, a
    colon, two digits, at most 23:59. *)
Definition strict_HHMM (s : string) : bool :=
  match s with
  | String a (String b (String c (String d (String e EmptyString)))) =>
      Py.is_digit a && Py.is_digit b && Ascii.eqb c ":" && Py.is_digit d
      && Py.is_digit e
      && (10 * Py.digit_val a + Py.digit_val b <=? 23)
      && (10 * Py.digit_val d + Py.digit_val e <=? 59)
  | _ => false
  end.

Definition digits : list ascii :=
  ["0"; "1"; "2"; "3"; "4"; "5"; "6"; "7"; "8"; "9"]%char.

(** Every strict HH:MM text over the ten digits is accepted by [strptime]. *)
Definition strict_accepted_check : bool :=
  forallb (fun a => forallb (fun b => forallb (fun d => forallb (fun e =>
    let t := String a (String b (String ":" (String d (String e EmptyString)))) in
    implb (strict_HHMM t) (bool_decide (is_Some (Py.strptime_HM t))))
    digits) digits) digits) digits.

Fixpoint has_char (c : ascii) (s : string) : bool :=
  match s with
  | EmptyString => false
  | String a t => Ascii.eqb a c || has_char c t
  end.

(** Adding under an id with [replace_existing=True]. *)
Definition upsert (id : string) (j : Job) (s : Scheduler) : Scheduler :=
  match Sched.get_job s id with
  | None => s ++ [(id, j)]
  | Some _ => Sched.replace_job id j s
  end.

Definition upsert_all (kvs : list (string * Job)) (s : Scheduler) : Scheduler :=
  fold_left (fun s kv => upsert kv.1 kv.2 s) kvs s.

(** The job that the last pair under [id] carries. *)
Fixpoint lastval (kvs : list (string * Job)) (id : string) : option Job :=
  match kvs with
  | [] => None
  | (k, v) :: r =>
      match lastval r id with
      | Some j => Some j
      | None => if bool_decide (k = id) then Some v else None
      end
  end.

(** The one-shot job that deletes a message. *)
Definition delete_job (run_at chat_id message_id : Z) : Job :=
  {| job_func := cb_delete_message_job;
     job_trigger := DateTrigger run_at;
     job_args := [VBot; VInt chat_id; VInt message_id] |}.

(** The transport method that sends a media type. *)
Definition send_method (media_type : string) : option string :=
  if bool_decide (media_type = "sticker") then Some "send_sticker"
  else if bool_decide (media_type = "gif") then Some "send_animation"
  else if bool_decide (media_type = "photo") then Some "send_photo"
  else if bool_decide (media_type = "video") then Some "send_video"
  else None.

(** The job a record yields at reconciliation, if any: the loop body of
    [load_and_reschedule_media] without its log. *)
Definition job_of_doc (globals : list string) (bot_instance : pyval) (doc : MediaDoc)
  : option (string * Job) :=
  let item := to_dict (md_fields doc) in
  match int_or_raise (md_user doc) with
  | Raise _ => None
  | Ret user_id =>
      if forallb (fun k => bool_decide (is_Some (item !! k))) main.required_fields then
        match hour_minute_of (main.field item "schedule_time") with
        | Raise _ => None
        | Ret (hour, minute) =>
            if bool_decide ("CronTrigger" ∈ globals) then
              match Sched.cron_trigger hour minute 0 with
              | Raise _ => None
              | Ret trig =>
                  if bool_decide ("send_scheduled_media_job" ∈ globals) then
                    Some (send_job_id (md_id doc),
                          send_job trig bot_instance (VInt user_id)
                            (main.field item "chat_id")
                            (main.field item "media_file_id")
                            (main.field item "media_type") (VStr (md_id doc)))
                  else None
              end
            else None
        end
      else None
  end.

Definition step (globals : list string) (bot : pyval) (acc : Scheduler * Z)
    (doc : MediaDoc) : Scheduler * Z :=
  match job_of_doc globals bot doc with
  | Some (id, j) => (upsert id j acc.1, acc.2 + 1)
  | None => acc
  end.

(** What a send call on the transport may change: the transport's record
    of what was sent, its coming faults, and the log. *)
Definition transport_frame (w w' : World) : Prop :=
  w_db w' = w_db w /\ w_app_id w' = w_app_id w /\ w_sched w' = w_sched w /\
  w_fsm w' = w_fsm w /\ w_out w' = w_out w /\
  tr_deleted (w_bot w') = tr_deleted (w_bot w).

(** A text without whitespace. *)
Fixpoint plain (s : string) : bool :=
  match s with
  | EmptyString => true
  | String c t => negb (Py.is_space c) && plain t
  end.

(** ** Runs of the handlers *)

(** An update that reaches a handler.  The routing of the dispatcher is not
    modelled: any handler may be called with any message in any state. *)
Inductive update : Type :=
| to_start (message : Message) (from_user : User)
| to_set_delete_timer (message : Message)
| to_cancel_delete_timer (message : Message)
| to_media_for_deletion (message : Message)
| to_schedule_media (message : Message)
| to_scheduled_media (message : Message)
| to_cancel_schedule (message : Message).

Definition handle (u : update) : M unit :=
  match u with
  | to_start message from_user => handlers_start.command_start_handler message from_user
  | to_set_delete_timer message => handlers.set_delete_timer_command message
  | to_cancel_delete_timer message => handlers.cancel_delete_timer_command message
  | to_media_for_deletion message => handlers.handle_media_for_deletion message
  | to_schedule_media message => handlers.schedule_media_command message
  | to_scheduled_media message => handlers.handle_scheduled_media message
  | to_cancel_schedule message => handlers.process_cancel_schedule_id message
  end.

(** The worlds that a run leads to: handler calls, and firings of the jobs
    in the handlers' table, whether they return or raise. *)
Inductive reachable (w0 : World) : World -> Prop :=
| reach_start : reachable w0 w0
| reach_step w u : reachable w0 w -> reachable w0 (after (handle u) w)
| reach_fire w id j :
    reachable w0 w -> (id, j) ∈ w_sched w -> reachable w0 (after (jobs.fire j) w).

(** The pending schedule time, when there is one, is a text that
    [strptime] accepted. *)
Definition pending_time_accepted (w : World) : Prop :=
  forall v, fsm_data (w_fsm w) !! "schedule_time_str" = Some v ->
    exists t h m, v = VStr t /\ Py.strptime_HM t = Some (h, m).

(** The bound arguments of a job are as many as its callback has parameters. *)
Definition job_fits (j : Job) : Prop :=
  match job_func j with
  | cb_delete_message_job => List.length (job_args j) = 3%nat
  | cb_send_scheduled_media_job => List.length (job_args j) = 6%nat
  end.

Definition table_fits (s : Scheduler) : Prop := forall id j, (id, j) ∈ s -> job_fits j.



(** What a handler call does to the pending data and to the job table. *)
Definition data_step (w w' : World) : Prop :=
  fsm_data (w_fsm w') = fsm_data (w_fsm w) \/
  fsm_data (w_fsm w') = ∅ \/
  exists t h m, Py.strptime_HM t = Some (h, m) /\
    fsm_data (w_fsm w') = <["schedule_time_str" := VStr t]> (fsm_data (w_fsm w)).

Definition table_step (s s' : Scheduler) : Prop :=
  s' = s \/
  (exists id j, job_fits j /\ s' = s ++ [(id, j)]) \/
  (exists id, s' = List.filter (fun p => negb (bool_decide (p.1 = id))) s).

Definition effect (w w' : World) : Prop :=
  data_step w w' /\ table_step (w_sched w) (w_sched w').


(** ** Sample data *)

Definition sample_store : Firestore :=
  {| fs_settings := ∅; fs_media := []; fs_faults := [];
     fs_auto_id := fun n => "abc" +:+ Py.str (123 + Z.of_nat n);
     fs_added := O;
     fs_time := fun n => 1704067200 + Z.of_nat n;
     fs_writes := O |}.

Definition idle : FSMContext := {| fsm_state := None; fsm_data := ∅ |}.

Definition quiet_bot : Transport :=
  {| tr_sent := []; tr_deleted := []; tr_faults := [] |}.

(** A clock that starts on 2024-01-01 and advances one second a reading. *)
Definition sample_clock (n : nat) : Z * string :=
  (738885 * 86400 * 1000000 + 1000000 * Z.of_nat n,
   Py.str (1704067200 + Z.of_nat n) +:+ ".0").

Definition sample_world : World :=
  {| w_db := Some sample_store; w_app_id := Some config.DEFAULT_APP_ID;
     w_sched := []; w_fsm := idle; w_bot := quiet_bot; w_out := []; w_log := [];
     w_clock := sample_clock; w_ticks := O |}.

(** A text message of user [u] in chat [c]. *)
Definition command (u c : Z) (t : string) : Message :=
  {| msg_text := t; from_user_id := u; chat_id := c; message_id := 7;
     sticker := None; animation := None; photo := []; video := None |}.

(** A sticker sent by user [u] in chat [c]. *)
Definition sticker_message (u c mid : Z) : Message :=
  {| msg_text := EmptyString; from_user_id := u; chat_id := c; message_id := mid;
     sticker := Some "FILE1"; animation := None; photo := []; video := None |}.

Definition with_faults (fl : list (option string)) (w : World) : World :=
  set_db (fs_with_faults fl <$> w_db w) w.

Definition store_of (w : World) : Firestore := default sample_store (w_db w).


(** User 42 has asked for 08:00 and sent a sticker in chat -100: the record
    is stored. *)
Definition scheduled_world : World :=
  after (handlers.schedule_media_command (command 42 (-100) "/schedule_media 08:00");;
         handlers.handle_scheduled_media (sticker_message 42 (-100) 8)) sample_world.

(** The same world when the store answers the coming call with an error. *)
Definition outage_world : World := with_faults [Some "503 unavailable"] scheduled_world.

(** The same world when the store answers one call and fails the next. *)
Definition flaky_world : World :=
  with_faults [None; Some "deadline exceeded"] scheduled_world.

(** User 42 has armed the delete timer in chat -100. *)
Definition armed_world (minutes : string) : World :=
  after (handlers.set_delete_timer_command
           (command 42 (-100) ("/set_delete_timer " +:+ minutes))) sample_world.

Definition five_minutes : gmap string pyval :=
  <["delete_timer_active_chat_id" := VInt (-100)]>
    (<["delete_timer_minutes" := VInt 5]> ∅).

(** main.py with the import of [CronTrigger] that it lacks. *)
Definition repaired_globals : list string := "CronTrigger" :: main.main_globals.

(** * Properties *)

(** ** Python text *)

Ltac code_arith :=
  unfold Py.is_digit, Py.is_space, Py.is_int_space, Py.in_range, Py.digit_val in *;
  repeat match goal with
  | H : context [N.leb ?a ?b] |- _ => destruct (N.leb_spec a b); simpl in H
  | H : context [N.eqb ?a ?b] |- _ => destruct (N.eqb_spec a b); simpl in H
  | |- context [N.leb ?a ?b] => destruct (N.leb_spec a b); simpl
  | |- context [N.eqb ?a ?b] => destruct (N.eqb_spec a b); simpl
  end;
  try discriminate; try reflexivity; try lia.

Lemma digit_not_space c : Py.is_digit c = true -> Py.is_space c = false.
Proof. intros H. code_arith. Qed.

Lemma digit_not_int_space c : Py.is_digit c = true -> Py.is_int_space c = false.
Proof. intros H. code_arith. Qed.

Lemma digit_not_char c (k : ascii) :
  Py.is_digit k = false -> Py.is_digit c = true -> Ascii.eqb c k = false.
Proof.
  intros Hk Hc. destruct (Ascii.eqb_spec c k) as [->|]; [congruence | reflexivity].
Qed.

Lemma digit_val_range c : Py.is_digit c = true -> 0 <= Py.digit_val c <= 9.
Proof. intros H. code_arith. Qed.

Lemma in_range_digit hi c :
  (hi <= 57)%N -> Py.in_range 48 hi c = true ->
  Py.is_digit c = true /\ 0 <= Py.digit_val c <= Z.of_N hi - 48.
Proof. intros Hhi H. split; code_arith. Qed.

Lemma int_digit1 c :
  Py.is_digit c = true -> Py.int (String c EmptyString) = Some (Py.digit_val c).
Proof.
  intros H. unfold Py.int, Py.int_strip. simpl.
  rewrite (digit_not_int_space c H). simpl. rewrite (digit_not_int_space c H). simpl.
  rewrite H. simpl.
  rewrite (digit_not_char c "+" eq_refl H), (digit_not_char c "-" eq_refl H).
  reflexivity.
Qed.

Lemma int_digit2 c d :
  Py.is_digit c = true -> Py.is_digit d = true ->
  Py.int (String c (String d EmptyString))
  = Some (10 * Py.digit_val c + Py.digit_val d).
Proof.
  intros Hc Hd. unfold Py.int, Py.int_strip. simpl.
  rewrite (digit_not_int_space c Hc). simpl. rewrite (digit_not_int_space d Hd). simpl.
  rewrite Hc, Hd. simpl.
  rewrite (digit_not_char c "+" eq_refl Hc), (digit_not_char c "-" eq_refl Hc).
  reflexivity.
Qed.

Ltac digit_facts :=
  repeat match goal with
  | H : _ && _ = true |- _ => apply andb_true_iff in H; destruct H
  | H : Ascii.eqb _ _ = true |- _ => apply Ascii.eqb_eq in H; subst
  | H : Py.in_range 48 _ _ = true |- _ =>
      apply in_range_digit in H; [destruct H | lia]
  end;
  try match goal with
  | H : Py.is_digit ":" = true |- _ => vm_compute in H; discriminate H
  end.

Ltac digit_bounds :=
  repeat match goal with
  | H : Py.is_digit ?c = true |- _ =>
      lazymatch goal with
      | _ : 0 <= Py.digit_val c <= 9 |- _ => fail
      | _ => pose proof (digit_val_range c H)
      end
  end.

Ltac no_colon :=
  repeat match goal with
  | H : Py.is_digit ?c = true |- context [Ascii.eqb ?c ":"] =>
      rewrite (digit_not_char c ":" eq_refl H); simpl
  end.

(** A time text that [strptime] accepts is read back by the split on the
    colon as the same hour and minute, both in range. *)
Lemma strptime_hour_minute t h m :
  Py.strptime_HM t = Some (h, m) ->
  hour_minute_of (VStr t) = Ret (h, m) /\ 0 <= h <= 23 /\ 0 <= m <= 59.
Proof.
  unfold Py.strptime_HM, Py.regex_HM, Py.match_H, Py.match_M.
  intros H.
  destruct t as [|c1 [|c2 [|c3 [|c4 [|c5 [|c6 t]]]]]]; simpl in H;
  repeat match type of H with
  | context [if ?b then _ else _] => destruct b eqn:?; simpl in H
  end; try discriminate;
  digit_facts; injection H as <- <-;
  (split; [| digit_bounds; simpl in *; lia]);
  unfold hour_minute_of; simpl; no_colon;
  rewrite ?int_digit2, ?int_digit1 by (assumption || reflexivity);
  reflexivity.
Qed.

Lemma strptime_nonempty t h m : Py.strptime_HM t = Some (h, m) -> t <> EmptyString.
Proof. intros H ->. discriminate H. Qed.

Example strptime_examples :
  Py.strptime_HM "08:00" = Some (8, 0) /\ Py.strptime_HM "9:30" = Some (9, 30) /\
  Py.strptime_HM "23:59" = Some (23, 59) /\ Py.strptime_HM "0:5" = Some (0, 5) /\
  Py.strptime_HM "25:00" = None /\ Py.strptime_HM "abc" = None /\
  Py.strptime_HM "24:00" = None /\ Py.strptime_HM "09:60" = None /\
  Py.strptime_HM "09:30 " = None /\ Py.strptime_HM "" = None.
Proof. repeat split; reflexivity. Qed.

Example split_examples :
  Py.split_maxsplit1 "/schedule_media 09:30" = ["/schedule_media"; "09:30"] /\
  Py.split_maxsplit1 "  /schedule_media   09:30 x  " = ["/schedule_media"; "09:30 x  "] /\
  Py.split_maxsplit1 "/schedule_media  " = ["/schedule_media"] /\
  Py.split_on ":" "a:b:" = ["a"; "b"; ""] /\
  Py.split_on ":" "" = [""].
Proof. repeat split; reflexivity. Qed.

Example int_examples :
  Py.int " 09 " = Some 9 /\ Py.int "-5" = Some (-5) /\ Py.int "+5" = Some 5 /\
  Py.int "1_000" = Some 1000 /\ Py.int "1__0" = None /\ Py.int "_1" = None /\
  Py.int "" = None /\ Py.int "- 5" = None /\ Py.int "5.0" = None.
Proof. repeat split; reflexivity. Qed.

(** The separator U+001C ends a word for [split], and [int] does not skip
    it. *)
Example int_and_the_separators :
  let fs := String (ascii_of_nat 28) EmptyString in
  Py.int ("5" +:+ fs) = None /\ Py.int (fs +:+ "5") = None /\
  Py.split_maxsplit1 ("/set_delete_timer 5" +:+ fs) = ["/set_delete_timer"; "5" +:+ fs] /\
  Py.split_maxsplit1 ("/set_delete_timer" +:+ fs +:+ "5") = ["/set_delete_timer"; "5"] /\
  Py.int (String (ascii_of_nat 160) "5") = Some 5.
Proof. repeat split; reflexivity. Qed.

Lemma is_digit_digits c : Py.is_digit c = true -> In c digits.
Proof.
  intros H.
  destruct c as [[|] [|] [|] [|] [|] [|] [|] [|]];
    try (vm_compute in H; discriminate H);
    unfold digits; simpl; repeat (try (left; reflexivity); right).
Qed.

Lemma strict_accepted_checked : strict_accepted_check = true.
Proof. vm_compute. reflexivity. Qed.

(** [strptime] rejects no strict HH:MM text: what it rejects is malformed
    in the specification's sense too. *)
Lemma strict_is_accepted t :
  strict_HHMM t = true -> exists h m, Py.strptime_HM t = Some (h, m).
Proof.
  destruct t as [|a [|b [|c [|d [|e [|x t]]]]]]; try discriminate.
  intros H. pose proof H as H'. cbn [strict_HHMM] in H'.
  apply andb_true_iff in H' as [H' _]. apply andb_true_iff in H' as [H' _].
  apply andb_true_iff in H' as [H' He]. apply andb_true_iff in H' as [H' Hd].
  apply andb_true_iff in H' as [H' Hc]. apply andb_true_iff in H' as [Ha Hb].
  apply Ascii.eqb_eq in Hc. subst c.
  pose proof strict_accepted_checked as C. unfold strict_accepted_check in C.
  rewrite forallb_forall in C. specialize (C a (is_digit_digits a Ha)).
  rewrite forallb_forall in C. specialize (C b (is_digit_digits b Hb)).
  rewrite forallb_forall in C. specialize (C d (is_digit_digits d Hd)).
  rewrite forallb_forall in C. specialize (C e (is_digit_digits e He)).
  cbv zeta in C. rewrite H in C. cbn [implb] in C.
  apply bool_decide_eq_true_1 in C as [[h m] Hhm]. eauto.
Qed.

(** ** The job table *)

Lemma get_job_None s id : Sched.get_job s id = None <-> id ∉ Sched.job_ids s.
Proof.
  unfold Sched.get_job, Sched.job_ids. induction s as [|[k v] s IH]; cbn.
  - split; [intros _; apply not_elem_of_nil | reflexivity].
  - rewrite not_elem_of_cons. destruct (bool_decide (k = id)) eqn:E; cbn.
    + apply bool_decide_eq_true_1 in E.
      split; [discriminate | intros [? _]; congruence].
    + apply bool_decide_eq_false_1 in E. rewrite IH.
      split; [intros ?; split; congruence | intros [_ ?]; assumption].
Qed.

Lemma get_job_app_fresh s id j :
  Sched.get_job s id = None -> Sched.get_job (s ++ [(id, j)]) id = Some j.
Proof.
  unfold Sched.get_job. induction s as [|[k v] s IH]; cbn.
  - intros _. rewrite bool_decide_eq_true_2 by reflexivity. reflexivity.
  - destruct (bool_decide (k = id)); cbn; [discriminate | exact IH].
Qed.

Lemma get_job_app_other s id id' j :
  id' <> id -> Sched.get_job (s ++ [(id, j)]) id' = Sched.get_job s id'.
Proof.
  intros Hne. unfold Sched.get_job. induction s as [|[k v] s IH]; cbn.
  - rewrite bool_decide_eq_false_2 by congruence. reflexivity.
  - destruct (bool_decide (k = id')); cbn; [reflexivity | exact IH].
Qed.

Lemma get_job_replace s id j :
  is_Some (Sched.get_job s id) -> Sched.get_job (Sched.replace_job id j s) id = Some j.
Proof.
  unfold Sched.get_job, Sched.replace_job. induction s as [|[k v] s IH]; cbn.
  - intros [? ?]; discriminate.
  - destruct (bool_decide (k = id)) eqn:E; cbn.
    + intros _. rewrite bool_decide_eq_true_2 by reflexivity. reflexivity.
    + rewrite E. exact IH.
Qed.

Lemma get_job_upsert s id j : Sched.get_job (upsert id j s) id = Some j.
Proof.
  unfold upsert. destruct (Sched.get_job s id) eqn:E.
  - apply get_job_replace. rewrite E. eauto.
  - apply get_job_app_fresh, E.
Qed.

(** With [replace_existing=True] the scheduler never refuses a job. *)
Lemma add_job_replace s id j : Sched.add_job s id j true = Ret (upsert id j s).
Proof. unfold Sched.add_job, upsert. destruct (Sched.get_job s id); reflexivity. Qed.

Lemma get_job_removed s id :
  Sched.get_job (List.filter (fun p => negb (bool_decide (p.1 = id))) s) id = None.
Proof.
  unfold Sched.get_job. induction s as [|[k v] s IH]; cbn; [reflexivity|].
  destruct (bool_decide (k = id)) eqn:E; cbn; [exact IH|]. rewrite E. exact IH.
Qed.

Lemma get_job_removed_other s id id' :
  id' <> id ->
  Sched.get_job (List.filter (fun p => negb (bool_decide (p.1 = id))) s) id'
  = Sched.get_job s id'.
Proof.
  intros Hne. unfold Sched.get_job. induction s as [|[k v] s IH]; cbn; [reflexivity|].
  destruct (bool_decide (k = id)) eqn:E; cbn.
  - apply bool_decide_eq_true_1 in E. subst k.
    rewrite bool_decide_eq_false_2 by congruence. exact IH.
  - destruct (bool_decide (k = id')); cbn; [reflexivity | exact IH].
Qed.

Lemma cron_trigger_ok h m :
  0 <= h <= 23 -> 0 <= m <= 59 -> Sched.cron_trigger h m 0 = Ret (CronTrigger h m 0).
Proof.
  intros Hh Hm. unfold Sched.cron_trigger.
  replace (_ && _) with true; [reflexivity|].
  symmetry. repeat (apply andb_true_intro; split); apply Z.leb_le; lia.
Qed.

Lemma job_ids_replace id j s : Sched.job_ids (Sched.replace_job id j s) = Sched.job_ids s.
Proof.
  unfold Sched.job_ids, Sched.replace_job.
  induction s as [|[k v] s IH]; cbn; [reflexivity|].
  rewrite IH. destruct (bool_decide (k = id)) eqn:E; cbn; [|reflexivity].
  apply bool_decide_eq_true_1 in E. congruence.
Qed.

Lemma job_ids_upsert id j s :
  Sched.job_ids (upsert id j s)
  = if bool_decide (id ∈ Sched.job_ids s) then Sched.job_ids s
    else Sched.job_ids s ++ [id].
Proof.
  unfold upsert. destruct (Sched.get_job s id) eqn:E.
  - rewrite job_ids_replace, bool_decide_eq_true_2; [reflexivity|].
    destruct (decide (id ∈ Sched.job_ids s)) as [H|H]; [exact H|].
    apply get_job_None in H. congruence.
  - apply get_job_None in E. rewrite bool_decide_eq_false_2 by exact E.
    unfold Sched.job_ids. rewrite fmap_app. reflexivity.
Qed.

Lemma upsert_NoDup id j s :
  NoDup (Sched.job_ids s) -> NoDup (Sched.job_ids (upsert id j s)).
Proof.
  intros H. rewrite job_ids_upsert. case_bool_decide; [exact H|].
  apply NoDup_app. repeat split; [exact H | | apply NoDup_singleton].
  intros x Hx Hx'. apply list_elem_of_singleton in Hx'. congruence.
Qed.

Lemma upsert_all_NoDup kvs : forall s,
  NoDup (Sched.job_ids s) -> NoDup (Sched.job_ids (upsert_all kvs s)).
Proof.
  induction kvs as [|[k v] r IH]; intros s H; cbn; [exact H|].
  apply IH, upsert_NoDup, H.
Qed.

Lemma upsert_ids_mono id j s x :
  x ∈ Sched.job_ids s -> x ∈ Sched.job_ids (upsert id j s).
Proof.
  intros H. rewrite job_ids_upsert. case_bool_decide; [exact H|].
  apply elem_of_app. left. exact H.
Qed.

Lemma upsert_ids_self id j s : id ∈ Sched.job_ids (upsert id j s).
Proof.
  rewrite job_ids_upsert. case_bool_decide; [assumption|].
  apply elem_of_app. right. apply list_elem_of_singleton. reflexivity.
Qed.

Lemma upsert_all_ids_mono kvs : forall s x,
  x ∈ Sched.job_ids s -> x ∈ Sched.job_ids (upsert_all kvs s).
Proof.
  induction kvs as [|[k v] r IH]; intros s x H; cbn; [exact H|].
  apply IH, upsert_ids_mono, H.
Qed.

Lemma upsert_all_ids_cover kvs : forall s x,
  x ∈ kvs.*1 -> x ∈ Sched.job_ids (upsert_all kvs s).
Proof.
  induction kvs as [|[k v] r IH]; intros s x H; cbn in *.
  - inversion H.
  - apply elem_of_cons in H as [->|H]; [|apply IH, H].
    apply upsert_all_ids_mono, upsert_ids_self.
Qed.

Lemma upsert_all_ids_origin kvs : forall s x,
  x ∈ Sched.job_ids (upsert_all kvs s) -> x ∈ Sched.job_ids s \/ x ∈ kvs.*1.
Proof.
  induction kvs as [|[k v] r IH]; intros s x H; cbn in *; [left; exact H|].
  apply IH in H as [H|H].
  - rewrite job_ids_upsert in H. case_bool_decide; [left; exact H|].
    apply elem_of_app in H as [H|H]; [left; exact H|].
    apply list_elem_of_singleton in H. right. subst.
    apply elem_of_cons. left. reflexivity.
  - right. apply elem_of_cons. right. exact H.
Qed.

Lemma lastval_None kvs id : lastval kvs id = None <-> id ∉ kvs.*1.
Proof.
  induction kvs as [|[k v] r IH]; cbn.
  - split; [intros _; apply not_elem_of_nil | reflexivity].
  - rewrite not_elem_of_cons. destruct (lastval r id).
    + split; [discriminate|]. intros [_ H]. apply IH in H. discriminate.
    + case_bool_decide.
      * split; [discriminate | intros [? _]; congruence].
      * split; [intros _; split; [congruence | apply IH; reflexivity] | reflexivity].
Qed.

(** The entries an upsert leaves under the other ids are those it found. *)
Lemma upsert_other id j s p :
  p ∈ upsert id j s -> p.1 <> id -> p ∈ s.
Proof.
  unfold upsert. destruct (Sched.get_job s id).
  - unfold Sched.replace_job. intros H Hne.
    apply list_elem_of_fmap in H as (q & -> & Hq).
    destruct (bool_decide (q.1 = id)); [cbn in Hne; congruence | exact Hq].
  - intros H Hne. apply elem_of_app in H as [H|H]; [exact H|].
    apply list_elem_of_singleton in H. subst p. cbn in Hne. congruence.
Qed.

(** Every entry an upsert leaves under its id carries its job. *)
Lemma upsert_self id j s p :
  p ∈ upsert id j s -> p.1 = id -> p.2 = j.
Proof.
  unfold upsert. destruct (Sched.get_job s id) eqn:E.
  - unfold Sched.replace_job. intros H Hid.
    apply list_elem_of_fmap in H as (q & -> & Hq).
    destruct (bool_decide (q.1 = id)) eqn:Eq; [reflexivity|].
    apply bool_decide_eq_false_1 in Eq. contradiction.
  - intros H Hid. apply elem_of_app in H as [H|H].
    + apply get_job_None in E. exfalso. apply E. unfold Sched.job_ids.
      apply list_elem_of_fmap. exists p. split; [congruence | exact H].
    + apply list_elem_of_singleton in H. subst p. reflexivity.
Qed.

Lemma upsert_all_other kvs : forall s p,
  p ∈ upsert_all kvs s -> p.1 ∉ kvs.*1 -> p ∈ s.
Proof.
  induction kvs as [|[k v] r IH]; intros s p H Hn; cbn in *; [exact H|].
  apply not_elem_of_cons in Hn as [Hk Hr].
  apply (upsert_other k v). 2: exact Hk. apply IH; assumption.
Qed.

Lemma upsert_all_lastval kvs : forall s p j,
  p ∈ upsert_all kvs s -> lastval kvs p.1 = Some j -> p.2 = j.
Proof.
  induction kvs as [|[k v] r IH]; intros s p j H Hl; cbn in *; [discriminate|].
  destruct (lastval r p.1) as [j'|] eqn:El.
  - injection Hl as <-. eapply IH; eauto.
  - case_bool_decide as Hk; [|discriminate]. injection Hl as <-.
    apply lastval_None in El. apply (upsert_self k v s); [|congruence].
    eapply upsert_all_other; eauto.
Qed.

(** Upserts under ids the table already holds rewrite it in place. *)
Lemma upsert_all_present kvs : forall s,
  (forall k, k ∈ kvs.*1 -> k ∈ Sched.job_ids s) ->
  upsert_all kvs s
  = List.map (fun p => match lastval kvs p.1 with Some j => (p.1, j) | None => p end) s.
Proof.
  induction kvs as [|[k v] r IH]; intros s Hk; cbn.
  - rewrite <- (map_id s) at 1. apply map_ext. intros p. reflexivity.
  - assert (Hin : k ∈ Sched.job_ids s) by (apply Hk, elem_of_cons; left; reflexivity).
    assert (Hu : upsert k v s = Sched.replace_job k v s).
    { unfold upsert. destruct (Sched.get_job s k) eqn:E; [reflexivity|].
      apply get_job_None in E. contradiction. }
    rewrite Hu, IH.
    + unfold Sched.replace_job. rewrite map_map. apply map_ext. intros [k' v']. cbn.
      case_bool_decide as Hkk; cbn.
      * subst k'. destruct (lastval r k); [reflexivity|].
        rewrite bool_decide_eq_true_2 by reflexivity. reflexivity.
      * destruct (lastval r k'); [reflexivity|].
        rewrite bool_decide_eq_false_2 by congruence. reflexivity.
    + intros x Hx. rewrite job_ids_replace. apply Hk, elem_of_cons. right. exact Hx.
Qed.

(** Replaying a batch of upserts changes nothing. *)
Lemma upsert_all_idempotent kvs s :
  upsert_all kvs (upsert_all kvs s) = upsert_all kvs s.
Proof.
  rewrite upsert_all_present.
  - rewrite <- (map_id (upsert_all kvs s)) at 2. apply map_ext_in.
    intros [k v] Hin. cbn. destruct (lastval kvs k) as [j|] eqn:E; [|reflexivity].
    f_equal. symmetry.
    apply (upsert_all_lastval kvs s (k, v) j); [apply list_elem_of_In, Hin | exact E].
  - intros k Hk. apply upsert_all_ids_cover, Hk.
Qed.

(** ** References *)

Lemma split_on_no_sep sep s : has_char sep s = false -> Py.split_on sep s = [s].
Proof.
  induction s as [|c s IH]; cbn; [reflexivity|].
  intros H. apply orb_false_elim in H as [Hc Hs]. rewrite Hc, (IH Hs). reflexivity.
Qed.

Lemma uint_no_slash d : has_char "/" (NilEmpty.string_of_uint d) = false.
Proof. induction d; cbn; auto. Qed.

Lemma str_no_slash z : has_char "/" (Py.str z) = false.
Proof.
  unfold Py.str, NilZero.string_of_int, NilZero.string_of_uint.
  destruct (Z.to_int z) as [d|d]; destruct d; cbn; try reflexivity; apply uint_no_slash.
Qed.

Lemma split_str z : Py.split_on "/" (Py.str z) = [Py.str z].
Proof. apply split_on_no_sep, str_no_slash. Qed.

Lemma verify_collection_ret path :
  Nat.odd (List.length path) = true -> verify_path path true = Ret path.
Proof. unfold verify_path. intros ->. reflexivity. Qed.

Lemma verify_document_ret path :
  Nat.even (List.length path) = true -> path <> [] -> verify_path path false = Ret path.
Proof.
  unfold verify_path. intros -> H. rewrite (bool_decide_eq_false_2 _ H). reflexivity.
Qed.

Lemma verify_path_cases path c :
  (exists e, verify_path path c = Raise e /\ exn_cls e = ValueError) \/
  (verify_path path c = Ret path /\
   Nat.odd (List.length path) = c).
Proof.
  unfold verify_path. destruct c.
  - destruct (Nat.odd _) eqn:E; [right; auto | left; eauto].
  - destruct (Nat.even (List.length path)) eqn:E; cbn; [|left; eauto].
    case_bool_decide; cbn; [left; eauto|]. right. split; [reflexivity|].
    rewrite <- Nat.negb_even, E. reflexivity.
Qed.

Lemma odd_snoc {A} (l : list A) x :
  Nat.odd (List.length (l ++ [x])) = negb (Nat.odd (List.length l)).
Proof. rewrite length_app. cbn. rewrite Nat.add_1_r, Nat.odd_succ, <- Nat.negb_odd. reflexivity. Qed.

Lemma even_snoc {A} (l : list A) x :
  Nat.even (List.length (l ++ [x])) = Nat.odd (List.length l).
Proof. rewrite <- Nat.negb_odd, odd_snoc, negb_involutive. reflexivity. Qed.

Lemma snoc_not_nil {A} (l : list A) x : l ++ [x] <> [].
Proof. destruct l; discriminate. Qed.

(** The references that the adapter builds are accepted exactly when the
    path of the users collection is: a user id holds no slash. *)
Lemma user_document_cases path u :
  match client_collection path with
  | Raise e => db_manager.user_document path u = Raise e /\ exn_cls e = ValueError
  | Ret c => db_manager.user_document path u = Ret (c ++ [Py.str u])
             /\ Nat.odd (List.length c) = true
  end.
Proof.
  unfold db_manager.user_document, client_collection.
  destruct (verify_path_cases (Py.split_on "/" path) true) as [(e & -> & He)|[-> Ho]]; cbn [and_then].
  - auto.
  - unfold collection_document. rewrite split_str.
    rewrite verify_document_ret; auto using snoc_not_nil.
    rewrite even_snoc. exact Ho.
Qed.

Lemma settings_document_cases path u :
  match client_collection path with
  | Raise e => db_manager.settings_document path u = Raise e /\ exn_cls e = ValueError
  | Ret c => exists r, db_manager.settings_document path u = Ret r
  end.
Proof.
  unfold db_manager.settings_document.
  pose proof (user_document_cases path u) as H.
  destruct (client_collection path) as [c|e].
  - destruct H as [-> Ho]. cbn [and_then]. unfold document_collection.
    rewrite verify_collection_ret by (rewrite odd_snoc, odd_snoc, Ho; reflexivity).
    cbn [and_then]. unfold collection_document.
    change (Py.split_on "/" "night_mode") with ["night_mode"].
    rewrite verify_document_ret; eauto using snoc_not_nil.
    rewrite even_snoc, odd_snoc, odd_snoc, Ho. reflexivity.
  - destruct H as [-> He]. cbn [and_then]. auto.
Qed.

Lemma media_collection_cases path u :
  match client_collection path with
  | Raise e => db_manager.media_collection path u = Raise e /\ exn_cls e = ValueError
  | Ret c => db_manager.media_collection path u
             = Ret ((c ++ [Py.str u]) ++ ["scheduled_media"])
             /\ Nat.odd (List.length c) = true
  end.
Proof.
  unfold db_manager.media_collection.
  pose proof (user_document_cases path u) as H.
  destruct (client_collection path) as [c|e].
  - destruct H as [-> Ho]. cbn [and_then]. unfold document_collection.
    rewrite verify_collection_ret by (rewrite odd_snoc, odd_snoc, Ho; reflexivity).
    auto.
  - destruct H as [-> He]. cbn [and_then]. auto.
Qed.

Lemma media_document_cases path u id :
  match client_collection path with
  | Raise e =>
      and_then (db_manager.media_collection path u)
        (fun c => collection_document c id) = Raise e /\ exn_cls e = ValueError
  | Ret c =>
      if id_ok id
      then exists r, and_then (db_manager.media_collection path u)
                       (fun c => collection_document c id) = Ret r
      else exists e, and_then (db_manager.media_collection path u)
                       (fun c => collection_document c id) = Raise e
                     /\ exn_cls e = ValueError
  end.
Proof.
  pose proof (media_collection_cases path u) as H.
  destruct (client_collection path) as [c|e].
  - destruct H as [-> Ho]. cbn [and_then]. unfold collection_document, id_ok, verify_path.
    set (ws := Py.split_on "/" id).
    assert (Nat.even (List.length (((c ++ [Py.str u]) ++ ["scheduled_media"]) ++ ws))
            = Nat.odd (List.length ws)) as ->.
    { rewrite !length_app. cbn [List.length].
      replace (List.length c + 1 + 1 + List.length ws)%nat
        with (S (S (List.length c + List.length ws)))%nat by lia.
      rewrite Nat.even_succ, Nat.odd_succ, Nat.even_add, <- Nat.negb_odd, Ho.
      cbn. rewrite <- Nat.negb_odd. destruct (Nat.odd (List.length ws)); reflexivity. }
    rewrite bool_decide_eq_false_2
      by (intros Hn; apply (f_equal (@List.length _)) in Hn;
          rewrite !length_app in Hn; cbn in Hn; lia).
    destruct (Nat.odd (List.length ws)); cbn; eauto.
  - destruct H as [-> He]. cbn [and_then]. auto.
Qed.

(** ** The store adapter *)

Lemma frame_trans w1 w2 w3 : frame w1 w2 -> frame w2 w3 -> frame w1 w3.
Proof.
  unfold frame. intros (?&?&?&?&?&?&?) (?&?&?&?&?&?&?). repeat split; congruence.
Qed.

Lemma pop_fault_media fs : fs_media (pop_fault fs).2 = fs_media fs.
Proof. unfold pop_fault. destruct (fs_faults fs); reflexivity. Qed.

Lemma pop_fault_settings fs : fs_settings (pop_fault fs).2 = fs_settings fs.
Proof. unfold pop_fault. destruct (fs_faults fs); reflexivity. Qed.

Lemma user_docs_db u w fs :
  w_db w = Some fs ->
  user_docs w u
  = List.filter (in_collection (config.USERS_COLLECTION (w_app_id w)) (Py.str u))
                (fs_media fs).
Proof. intros Hdb. unfold user_docs. rewrite Hdb. reflexivity. Qed.

Lemma user_settings_db u w fs :
  w_db w = Some fs ->
  user_settings w u
  = to_dict <$> fs_settings fs !! (config.USERS_COLLECTION (w_app_id w), Py.str u).
Proof. intros Hdb. unfold user_settings. rewrite Hdb. reflexivity. Qed.

Lemma path_ok_db w fs :
  w_db w = Some fs ->
  path_ok w = is_ret (client_collection (config.USERS_COLLECTION (w_app_id w))).
Proof. intros Hdb. unfold path_ok. rewrite Hdb. reflexivity. Qed.

(** The path check looks at the application id and at whether there is a
    client, which no adapter call changes. *)
Lemma path_ok_frame w w' :
  frame w w' -> settings_of w' = settings_of w \/ media_of w' = media_of w ->
  path_ok w' = path_ok w.
Proof.
  intros (Ha & _) H. unfold path_ok, settings_of, media_of in *. rewrite Ha.
  destruct (w_db w), (w_db w'); destruct H; try discriminate; reflexivity.
Qed.

(** All the ways an adapter call can go: the client present or not, the
    application id set or not, the reference accepted or not, the coming
    call raising or not. *)
Ltac adapter_cbn :=
  cbn -[db_manager.settings_document db_manager.media_collection
        config.USERS_COLLECTION encode_dict pop_fault and_then client_collection
        collection_document document_collection verify_path id_ok
        db_manager.media_fields doc_set_merge collection_add doc_delete].

Ltac adapter_head w :=
  unfold mbind, M_bind, mret, M_ret, config.get_firestore_db, config.get_app_id,
    log, try_except, store_call, any_exception, lift_res;
  let fs := fresh "fs" in
  let Hdb := fresh "Hdb" in
  let Happ := fresh "Happ" in
  destruct (w_db w) as [fs|] eqn:Hdb; destruct (w_app_id w) eqn:Happ;
  adapter_cbn; rewrite ?Hdb, ?Happ; adapter_cbn.

Ltac adapter_reference cases :=
  match goal with
  | |- context [client_collection ?p] => fail 1
  | |- context [config.USERS_COLLECTION ?a] =>
      let HR := fresh "HR" in
      let c := fresh "c" in
      let e := fresh "e" in
      let EC := fresh "EC" in
      pose proof (cases (config.USERS_COLLECTION a)) as HR;
      destruct (client_collection (config.USERS_COLLECTION a)) as [c|e] eqn:EC
  end.

Lemma get_user_settings_cases u w :
  exists r w', db_manager.get_user_settings u w = (r, w') /\ frame w w' /\
    settings_of w' = settings_of w /\ media_of w' = media_of w /\
    match r with
    | Raise e => path_ok w = false /\ exn_cls e = ValueError
    | Ret v => path_ok w = true /\
        (store_fails w = true -> v = ∅) /\
        (store_fails w = false -> v = default ∅ (user_settings w u))
    end.
Proof.
  unfold db_manager.get_user_settings, settings_of, media_of, store_fails,
    user_settings, path_ok.
  adapter_head w.
  1,2: match goal with |- context [db_manager.settings_document ?p ?u] =>
         pose proof (settings_document_cases p u) as HR;
         destruct (client_collection p) as [c|e] eqn:EC;
         [destruct HR as [r ->] | destruct HR as [-> He]] end.
  all: unfold pop_fault; try destruct (fs_faults fs) as [|[?|] ?] eqn:Hf.
  all: adapter_cbn; eexists _, _; (split; [reflexivity|]); adapter_cbn;
    rewrite ?Hdb, ?EC; adapter_cbn.
  all: repeat split; try reflexivity; try discriminate; try assumption.
Qed.

Ltac adapter_finish :=
  adapter_cbn; repeat eexists; adapter_cbn;
  repeat match goal with H : _ = _ |- _ => rewrite H end; adapter_cbn;
  repeat split; try reflexivity; try discriminate; try assumption.

Lemma get_all_scheduled_media_cases u w :
  exists r w', db_manager.get_all_scheduled_media u w = (r, w') /\ frame w w' /\
    settings_of w' = settings_of w /\ media_of w' = media_of w /\
    match r with
    | Raise e => path_ok w = false /\ exn_cls e = ValueError
    | Ret v => path_ok w = true /\
        (store_fails w = true -> v = []) /\
        (store_fails w = false -> v = List.map db_manager.item_of_doc (user_docs w u))
    end.
Proof.
  unfold db_manager.get_all_scheduled_media, settings_of, media_of, store_fails,
    user_docs, path_ok.
  adapter_head w.
  1,2: match goal with |- context [db_manager.media_collection ?p ?u] =>
         pose proof (media_collection_cases p u) as HR;
         destruct (client_collection p) as [c|e] eqn:EC;
         [destruct HR as [-> Ho] | destruct HR as [-> He]] end.
  all: unfold pop_fault; try destruct (fs_faults fs) as [|[?|] ?] eqn:Hf.
  all: adapter_cbn; eexists _, _; (split; [reflexivity|]); adapter_cbn;
    rewrite ?Hdb, ?EC; adapter_cbn.
  all: repeat split; try reflexivity; try discriminate; try assumption.
Qed.

Lemma update_user_settings_cases u s w :
  exists r w', db_manager.update_user_settings u s w = (r, w') /\ frame w w' /\
    media_of w' = media_of w /\
    match r with
    | Raise e => path_ok w = false /\ exn_cls e = ValueError /\ w_db w' = w_db w
    | Ret _ => path_ok w = true /\
        (store_fails w = true -> settings_of w' = settings_of w)
    end.
Proof.
  unfold db_manager.update_user_settings, settings_of, media_of, store_fails, path_ok.
  adapter_head w.
  1,2: match goal with |- context [db_manager.settings_document ?p ?u] =>
         pose proof (settings_document_cases p u) as HR;
         destruct (client_collection p) as [c|e] eqn:EC;
         [destruct HR as [r ->] | destruct HR as [-> He]] end.
  all: try destruct (encode_dict s) as [data|ee] eqn:Enc.
  all: unfold pop_fault; try destruct (fs_faults fs) as [|[?|] ?] eqn:Hf.
  all: adapter_cbn; eexists _, _; (split; [reflexivity|]); adapter_cbn;
    rewrite ?Hdb, ?EC; adapter_cbn.
  all: repeat split; try reflexivity; try discriminate; try assumption.
Qed.

Lemma add_scheduled_media_cases u c m f ty t w :
  exists r w', db_manager.add_scheduled_media u c m f ty t w = (r, w') /\
    frame w w' /\ settings_of w' = settings_of w /\
    match r with
    | Raise e => path_ok w = false /\ exn_cls e = ValueError /\ w_db w' = w_db w
    | Ret v => path_ok w = true /\ v = EmptyString /\
        (store_fails w = true -> media_of w' = media_of w)
    end.
Proof.
  unfold db_manager.add_scheduled_media, settings_of, media_of, store_fails, path_ok.
  adapter_head w.
  1,2: match goal with |- context [db_manager.media_collection ?p ?u] =>
         pose proof (media_collection_cases p u) as HR;
         destruct (client_collection p) as [c'|e] eqn:EC;
         [destruct HR as [-> Ho] | destruct HR as [-> He]] end.
  all: try destruct (encode_dict _) as [data|ee] eqn:Enc.
  all: unfold pop_fault; try destruct (fs_faults fs) as [|[?|] ?] eqn:Hf.
  all: adapter_cbn; eexists _, _; (split; [reflexivity|]); adapter_cbn;
    rewrite ?Hdb, ?EC; adapter_cbn.
  all: repeat split; try reflexivity; try discriminate; try assumption.
Qed.

Lemma delete_scheduled_media_cases u id w :
  exists r w', db_manager.delete_scheduled_media u id w = (r, w') /\ frame w w' /\
    settings_of w' = settings_of w /\
    match r with
    | Raise e => (path_ok w = false \/ (w_db w <> None /\ id_ok id = false))
                 /\ exn_cls e = ValueError /\ w_db w' = w_db w
    | Ret _ => path_ok w = true /\ (w_db w <> None -> id_ok id = true) /\
        (store_fails w = true -> media_of w' = media_of w)
    end.
Proof.
  unfold db_manager.delete_scheduled_media, settings_of, media_of, store_fails, path_ok.
  adapter_head w.
  1,2: match goal with |- context [db_manager.media_collection ?p ?u] =>
         pose proof (media_document_cases p u id) as HR;
         destruct (client_collection p) as [c'|e] eqn:EC;
         [destruct (id_ok id) eqn:Eid; [destruct HR as [r ->] | destruct HR as (e & -> & He)]
         | destruct HR as [-> He]] end.
  all: unfold pop_fault; try destruct (fs_faults fs) as [|[?|] ?] eqn:Hf.
  all: adapter_cbn; eexists _, _; (split; [reflexivity|]); adapter_cbn;
    rewrite ?Hdb, ?EC; adapter_cbn.
  all: repeat split; try reflexivity; try discriminate; try assumption; auto.
Qed.

(** With the path accepted, the calls return; these are the statements
    the flows use. *)
Lemma get_user_settings_spec u w :
  path_ok w = true ->
  exists v w', db_manager.get_user_settings u w = (Ret v, w') /\ frame w w' /\
    settings_of w' = settings_of w /\ media_of w' = media_of w /\
    (store_fails w = true -> v = ∅) /\
    (store_fails w = false -> v = default ∅ (user_settings w u)).
Proof.
  intros Hp. destruct (get_user_settings_cases u w) as ([v|e] & w' & E & F & S & Md & H).
  - destruct H as (_ & H1 & H2). eauto 10.
  - destruct H. congruence.
Qed.

Lemma get_all_scheduled_media_spec u w :
  path_ok w = true ->
  exists v w', db_manager.get_all_scheduled_media u w = (Ret v, w') /\ frame w w' /\
    settings_of w' = settings_of w /\ media_of w' = media_of w /\
    (store_fails w = true -> v = []) /\
    (store_fails w = false -> v = List.map db_manager.item_of_doc (user_docs w u)).
Proof.
  intros Hp.
  destruct (get_all_scheduled_media_cases u w) as ([v|e] & w' & E & F & S & Md & H).
  - destruct H as (_ & H1 & H2). eauto 10.
  - destruct H. congruence.
Qed.

Lemma update_user_settings_spec u s w :
  path_ok w = true ->
  exists w', db_manager.update_user_settings u s w = (Ret tt, w') /\ frame w w' /\
    media_of w' = media_of w /\
    (store_fails w = true -> settings_of w' = settings_of w).
Proof.
  intros Hp. destruct (update_user_settings_cases u s w) as ([[]|e] & w' & E & F & Md & H).
  - destruct H as (_ & H1). eauto 10.
  - destruct H. congruence.
Qed.

Lemma add_scheduled_media_spec u c m f ty t w :
  path_ok w = true ->
  exists w', db_manager.add_scheduled_media u c m f ty t w = (Ret EmptyString, w') /\
    frame w w' /\ settings_of w' = settings_of w /\
    (store_fails w = true -> media_of w' = media_of w).
Proof.
  intros Hp.
  destruct (add_scheduled_media_cases u c m f ty t w) as ([v|e] & w' & E & F & S & H).
  - destruct H as (_ & -> & H1). eauto 10.
  - destruct H. congruence.
Qed.

Lemma delete_scheduled_media_spec u id w :
  path_ok w = true -> w_db w = None \/ id_ok id = true ->
  exists w', db_manager.delete_scheduled_media u id w = (Ret tt, w') /\ frame w w' /\
    settings_of w' = settings_of w /\
    (store_fails w = true -> media_of w' = media_of w).
Proof.
  intros Hp Hid.
  destruct (delete_scheduled_media_cases u id w) as ([[]|e] & w' & E & F & S & H).
  - destruct H as (_ & _ & H1). eauto 10.
  - destruct H as ([H|[H1 H2]] & _); [congruence|]. destruct Hid; congruence.
Qed.

(** X4. With the path of the users collection accepted, and for [delete] on
    a present client a document id that gives a document's path, no adapter
    operation raises, whatever the store holds and whatever the store does:
    each of the five returns a value. *)
Lemma adapter_never_raises u s c m f ty t id w :
  path_ok w = true -> w_db w = None \/ id_ok id = true ->
  is_ret (db_manager.get_user_settings u w).1 = true /\
  is_ret (db_manager.update_user_settings u s w).1 = true /\
  is_ret (db_manager.add_scheduled_media u c m f ty t w).1 = true /\
  is_ret (db_manager.get_all_scheduled_media u w).1 = true /\
  is_ret (db_manager.delete_scheduled_media u id w).1 = true.
Proof.
  intros Hp Hid.
  destruct (get_user_settings_spec u w Hp) as (v1 & w1 & -> & _).
  destruct (update_user_settings_spec u s w Hp) as (w2 & -> & _).
  destruct (add_scheduled_media_spec u c m f ty t w Hp) as (w3 & -> & _).
  destruct (get_all_scheduled_media_spec u w Hp) as (v4 & w4 & -> & _).
  destruct (delete_scheduled_media_spec u id w Hp Hid) as (w5 & -> & _).
  repeat split.
Qed.

(** X4 at work: the store answers the coming call with an error. *)
Lemma adapter_never_raises_witness :
  is_ret (db_manager.get_user_settings 42 outage_world).1 = true /\
  is_ret (db_manager.update_user_settings 42 five_minutes outage_world).1 = true /\
  is_ret (db_manager.add_scheduled_media 42 (-100) 8 "FILE1" "sticker"
            (VStr "08:00") outage_world).1 = true /\
  is_ret (db_manager.get_all_scheduled_media 42 outage_world).1 = true /\
  is_ret (db_manager.delete_scheduled_media 42 "abc123" outage_world).1 = true.
Proof.
  exact (adapter_never_raises 42 five_minutes (-100) 8 "FILE1" "sticker"
           (VStr "08:00") "abc123" outage_world eq_refl (or_intror eq_refl)).
Defined.

Ltac step_head w Hdb Hp :=
  unfold mbind, M_bind, mret, M_ret, config.get_firestore_db, config.get_app_id,
    log, try_except, store_call, any_exception, lift_res;
  rewrite (path_ok_db _ _ Hdb) in Hp;
  let Happ := fresh "Happ" in
  rewrite Hdb; destruct (w_app_id w) eqn:Happ; adapter_cbn;
  rewrite ?Hdb, ?Happ; adapter_cbn.

Ltac step_tail :=
  let f := fresh "f" in let fs1 := fresh "fs1" in
  destruct (pop_fault _) as [[f|] fs1]; adapter_cbn;
  eexists; (split; [reflexivity|]); adapter_cbn; repeat split;
  try reflexivity; try congruence.

(** One adapter call on a reachable store: the coming fault is consumed,
    and the call acts on the documents when there is none. *)
Lemma get_user_settings_step u w fs :
  w_db w = Some fs -> path_ok w = true ->
  exists w', db_manager.get_user_settings u w
    = (Ret (match (pop_fault fs).1 with
            | Some _ => ∅
            | None =>
                default ∅ (to_dict <$>
                             fs_settings fs !! (config.USERS_COLLECTION (w_app_id w),
                                                Py.str u))
            end), w')
    /\ frame w w' /\ w_db w' = Some (pop_fault fs).2.
Proof.
  intros Hdb Hp. unfold db_manager.get_user_settings.
  rewrite <- (pop_fault_settings fs).
  step_head w Hdb Hp.
  all: match goal with |- context [db_manager.settings_document ?p ?u] =>
         pose proof (settings_document_cases p u) as HR;
         destruct (client_collection p) as [c|e] eqn:EC; [|discriminate];
         destruct HR as [r ->] end.
  all: step_tail.
Qed.

Lemma get_all_scheduled_media_step u w fs :
  w_db w = Some fs -> path_ok w = true ->
  exists w', db_manager.get_all_scheduled_media u w
    = (Ret (match (pop_fault fs).1 with
            | Some _ => []
            | None => List.map db_manager.item_of_doc (user_docs w u)
            end), w')
    /\ frame w w' /\ w_db w' = Some (pop_fault fs).2.
Proof.
  intros Hdb Hp. rewrite (user_docs_db u w fs Hdb).
  unfold db_manager.get_all_scheduled_media.
  rewrite <- (pop_fault_media fs).
  step_head w Hdb Hp.
  all: match goal with |- context [db_manager.media_collection ?p ?u] =>
         pose proof (media_collection_cases p u) as HR;
         destruct (client_collection p) as [c|e] eqn:EC; [|discriminate];
         destruct HR as [-> Ho] end.
  all: step_tail.
Qed.

Lemma update_user_settings_step u s w fs :
  w_db w = Some fs -> path_ok w = true ->
  exists w', db_manager.update_user_settings u s w = (Ret tt, w')
    /\ frame w w'
    /\ w_db w' = Some (match encode_dict s with
                       | Raise _ => fs
                       | Ret data =>
                           match (pop_fault fs).1 with
                           | Some _ => (pop_fault fs).2
                           | None =>
                               (doc_set_merge (config.USERS_COLLECTION (w_app_id w))
                                  (Py.str u) data (pop_fault fs).2).2
                           end
                       end).
Proof.
  intros Hdb Hp. unfold db_manager.update_user_settings.
  step_head w Hdb Hp.
  all: match goal with |- context [db_manager.settings_document ?p ?u] =>
         pose proof (settings_document_cases p u) as HR;
         destruct (client_collection p) as [c|e] eqn:EC; [|discriminate];
         destruct HR as [r ->] end.
  all: destruct (encode_dict s) as [data|ee]; adapter_cbn; rewrite ?Hdb; adapter_cbn.
  all: try step_tail.
  all: eexists; (split; [reflexivity|]); adapter_cbn; repeat split;
    try reflexivity; try congruence.
Qed.

(** [add_scheduled_media] writes the record when the store takes it, and
    answers with the empty string in every case: what [add] returns is the
    pair of the write's time and the reference, which has no [id]. *)
Lemma add_scheduled_media_step u c m f ty t w fs :
  w_db w = Some fs -> path_ok w = true ->
  exists w', db_manager.add_scheduled_media u c m f ty t w = (Ret EmptyString, w')
    /\ frame w w'
    /\ w_db w' = Some (match encode_dict (db_manager.media_fields u c m f ty t) with
                       | Raise _ => fs
                       | Ret data =>
                           match (pop_fault fs).1 with
                           | Some _ => (pop_fault fs).2
                           | None =>
                               (collection_add (config.USERS_COLLECTION (w_app_id w))
                                  (Py.str u) data (pop_fault fs).2).2
                           end
                       end).
Proof.
  intros Hdb Hp. unfold db_manager.add_scheduled_media.
  step_head w Hdb Hp.
  all: match goal with |- context [db_manager.media_collection ?p ?u] =>
         pose proof (media_collection_cases p u) as HR;
         destruct (client_collection p) as [c'|e] eqn:EC; [|discriminate];
         destruct HR as [-> Ho] end.
  all: destruct (encode_dict _) as [data|ee]; adapter_cbn; rewrite ?Hdb; adapter_cbn.
  all: try step_tail.
  all: eexists; (split; [reflexivity|]); adapter_cbn; repeat split;
    try reflexivity; try congruence.
Qed.

Lemma delete_scheduled_media_step u id w fs :
  w_db w = Some fs -> path_ok w = true -> id_ok id = true ->
  exists w', db_manager.delete_scheduled_media u id w = (Ret tt, w')
    /\ frame w w'
    /\ w_db w' = Some (match (pop_fault fs).1 with
                       | Some _ => (pop_fault fs).2
                       | None => (doc_delete (config.USERS_COLLECTION (w_app_id w))
                                    (Py.str u) id (pop_fault fs).2).2
                       end).
Proof.
  intros Hdb Hp Hid. unfold db_manager.delete_scheduled_media.
  step_head w Hdb Hp.
  all: match goal with |- context [db_manager.media_collection ?p ?u] =>
         pose proof (media_document_cases p u id) as HR;
         destruct (client_collection p) as [c'|e] eqn:EC; [|discriminate];
         rewrite Hid in HR; destruct HR as [r ->] end.
  all: step_tail.
Qed.

(** The ownership loop finds an id exactly when a listed record carries it. *)
Lemma found_in_items docs id :
  handlers.found_in (List.map db_manager.item_of_doc docs) id = true
  <-> exists d, d ∈ docs /\ md_id d = id.
Proof.
  unfold handlers.found_in. rewrite existsb_exists. split.
  - intros (item & Hin & Hb). apply in_map_iff in Hin as (d & <- & Hd).
    exists d. split; [apply list_elem_of_In, Hd|].
    apply bool_decide_eq_true_1 in Hb. unfold db_manager.item_of_doc in Hb.
    rewrite lookup_insert_eq in Hb. congruence.
  - intros (d & Hd & <-). exists (db_manager.item_of_doc d). split.
    + apply in_map, list_elem_of_In, Hd.
    + apply bool_decide_eq_true_2. unfold db_manager.item_of_doc.
      apply lookup_insert_eq.
Qed.

(** ** What the client encodes *)

Lemma find_none_writable data :
  List.find refused (map_to_list data) = None <-> writable data.
Proof.
  unfold writable. split.
  - intros H k v Hk. apply elem_of_map_to_list in Hk. apply list_elem_of_In in Hk.
    exact (find_none _ _ H _ Hk).
  - intros H. destruct (List.find _ _) as [[k v]|] eqn:E; [|reflexivity].
    apply find_some in E as [Hin Hr]. apply list_elem_of_In, elem_of_map_to_list in Hin.
    rewrite (H _ _ Hin) in Hr. discriminate.
Qed.

Lemma encode_dict_writable data :
  writable data -> encode_dict data = Ret (omap encoded data).
Proof. intros H. unfold encode_dict. apply find_none_writable in H as ->. reflexivity. Qed.

Lemma encode_dict_ret data x :
  encode_dict data = Ret x -> writable data /\ x = omap encoded data.
Proof.
  unfold encode_dict. destruct (List.find _ _) as [[k v]|] eqn:E.
  - apply find_some in E as [_ Hr]. unfold refused in Hr. cbn in Hr.
    case_bool_decide; [discriminate|]. cbn in Hr.
    destruct (encode_value v); [discriminate Hr|discriminate].
  - intros [= <-]. split; [apply find_none_writable, E|reflexivity].
Qed.

Lemma writable_empty : writable ∅.
Proof. intros k v H. rewrite lookup_empty in H. discriminate. Qed.

Lemma writable_insert k v data :
  k <> EmptyString -> is_ret (encode_value v) = true -> writable data ->
  writable (<[k := v]> data).
Proof.
  intros Hk Hv Hd k' v' H. destruct (decide (k = k')) as [<-|Hne].
  - rewrite lookup_insert_eq in H. injection H as <-. unfold refused. cbn.
    rewrite (bool_decide_eq_false_2 _ Hk), Hv. reflexivity.
  - rewrite lookup_insert_ne in H by done. exact (Hd _ _ H).
Qed.

Lemma encoded_int z : int64 z = true -> encoded (VInt z) = Some (WVal (FInt z)).
Proof. unfold encoded. cbn. intros ->. reflexivity. Qed.

Lemma encode_int_ret z : int64 z = true -> is_ret (encode_value (VInt z)) = true.
Proof. cbn. intros ->. reflexivity. Qed.

(** What the store keeps of the dict that [add_scheduled_media] writes. *)
Lemma media_fields_encoded u c m f ty t now :
  int64 u = true -> int64 c = true -> int64 m = true ->
  exists data, encode_dict (db_manager.media_fields u c m f ty (VStr t)) = Ret data /\
    committed now <$> data = stored_media_fields u c m f ty t now.
Proof.
  intros Hu Hc Hm. eexists. split.
  - apply encode_dict_writable. unfold db_manager.media_fields.
    repeat (apply writable_insert; [discriminate | (reflexivity || now apply encode_int_ret) |]).
    apply writable_empty.
  - unfold db_manager.media_fields, stored_media_fields.
    repeat (first [ erewrite omap_insert_Some by (first [reflexivity | now apply encoded_int])
                  | rewrite fmap_insert ]).
    rewrite omap_empty, fmap_empty. reflexivity.
Qed.

Lemma pop_fault_none fs :
  (pop_fault fs).1 = None ->
  fs_media (pop_fault fs).2 = fs_media fs /\
  fs_settings (pop_fault fs).2 = fs_settings fs /\
  fs_auto_id (pop_fault fs).2 = fs_auto_id fs /\
  fs_added (pop_fault fs).2 = fs_added fs /\
  fs_time (pop_fault fs).2 = fs_time fs /\
  fs_writes (pop_fault fs).2 = fs_writes fs.
Proof. unfold pop_fault. destruct (fs_faults fs); cbn; auto 10. Qed.

(** ** Scheduling flow *)

(** The scheduling handler when the store writes the record. *)
Lemma scheduled_media_step message w fs t f ty :
  w_db w = Some fs -> (pop_fault fs).1 = None -> path_ok w = true ->
  fsm_data (w_fsm w) !! "schedule_time_str" = Some (VStr t) ->
  t <> EmptyString ->
  utils.get_media_file_id message = (Some f, Some ty) ->
  f <> EmptyString ->
  int64 (from_user_id message) = true -> int64 (chat_id message) = true ->
  int64 (message_id message) = true ->
  exists w1, handlers.handle_scheduled_media message w = (Ret tt, w1) /\
    w_sched w1 = w_sched w /\
    w_out w1 = w_out w ++ [handlers.database_error] /\
    w_fsm w1 = {| fsm_state := None; fsm_data := ∅ |} /\
    w_app_id w1 = w_app_id w /\
    w_db w1
    = Some (fs_write (fs_settings fs)
              (fs_media fs ++
                 [{| md_users_path := config.USERS_COLLECTION (w_app_id w);
                     md_user := Py.str (from_user_id message);
                     md_id := fs_auto_id fs (fs_added fs);
                     md_fields :=
                       stored_media_fields (from_user_id message) (chat_id message)
                         (message_id message) f ty t (fs_time fs (fs_writes fs)) |}])
              (S (fs_added fs)) (pop_fault fs).2).
Proof.
  intros Hdb Hpop Hp Hdata Ht Hmedia Hf Hu Hc Hm.
  destruct (add_scheduled_media_step (from_user_id message) (chat_id message)
              (message_id message) f ty (VStr t) w fs Hdb Hp) as (w' & E & F & Hdb').
  destruct (media_fields_encoded (from_user_id message) (chat_id message)
              (message_id message) f ty t (fs_time fs (fs_writes fs)) Hu Hc Hm)
    as (data & Henc & Hcom).
  rewrite Henc, Hpop in Hdb'.
  destruct (pop_fault_none fs Hpop) as (Hmed & Hset & Hid & Hadd & Htime & Hwr).
  destruct F as (Happ&Hsched&?&?&Hout&?&?).
  unfold handlers.handle_scheduled_media, state_get_data, mbind, M_bind.
  rewrite Hdata. cbn [truthy negb default].
  rewrite (bool_decide_eq_false_2 _ Ht). cbn [negb].
  rewrite Hmedia. cbn [fmap option_fmap option_map truthy default].
  rewrite (bool_decide_eq_false_2 _ Hf). cbn [negb]. unfold id.
  rewrite E. cbn.
  eexists. split; [reflexivity|]. cbn.
  rewrite Hsched, Hout, Happ, Hdb'. unfold collection_add.
  rewrite Hmed, Hset, Hid, Hadd, Htime, Hwr, Hcom.
  repeat split.
Qed.

(** C1. The record is created and the flow reports a failure: for a user
    with a stored schedule time that [schedule_media] accepted and a
    supported media message, on a store that carries the call out,
    [handle_scheduled_media] writes the record under the id the store draws,
    and then tells the user of a database error and registers no job:
    [add_scheduled_media] reads [.id] off the pair that [add] returns, the
    [AttributeError] is caught and the empty string is its answer. *)
Theorem scheduled_media_written_and_reported_failed message w fs t h m f ty :
  fsm_state (w_fsm w) = Some waiting_for_scheduled_media ->
  fsm_data (w_fsm w) !! "schedule_time_str" = Some (VStr t) ->
  Py.strptime_HM t = Some (h, m) ->
  utils.get_media_file_id message = (Some f, Some ty) ->
  f <> EmptyString ->
  w_db w = Some fs -> (pop_fault fs).1 = None -> path_ok w = true ->
  int64 (from_user_id message) = true -> int64 (chat_id message) = true ->
  int64 (message_id message) = true ->
  exists w2, handlers.handle_scheduled_media message w = (Ret tt, w2) /\
    media_of w2
    = Some (fs_media fs ++
              [{| md_users_path := config.USERS_COLLECTION (w_app_id w);
                  md_user := Py.str (from_user_id message);
                  md_id := fs_auto_id fs (fs_added fs);
                  md_fields :=
                    stored_media_fields (from_user_id message) (chat_id message)
                      (message_id message) f ty t (fs_time fs (fs_writes fs)) |}]) /\
    w_sched w2 = w_sched w /\
    w_out w2 = w_out w ++ [handlers.database_error] /\
    fsm_state (w_fsm w2) = None.
Proof.
  intros _ Hdata Ht Hmedia Hf Hdb Hpop Hp Hu Hc Hm.
  destruct (scheduled_media_step message w fs t f ty Hdb Hpop Hp Hdata
              (strptime_nonempty t h m Ht) Hmedia Hf Hu Hc Hm)
    as (w2 & E & Hsched & Hout & Hfsm & _ & Hdb2).
  exists w2. split; [exact E|]. unfold media_of. rewrite Hdb2, Hfsm.
  repeat split; assumption.
Qed.

(** C1 at work: user 42 asked for 08:00 and sends a sticker; the store
    writes the record under the id abc123. *)
Lemma scheduled_media_written_and_reported_failed_witness :
  let w := after (handlers.schedule_media_command
                    (command 42 (-100) "/schedule_media 08:00")) sample_world in
  exists w2,
    handlers.handle_scheduled_media (sticker_message 42 (-100) 8) w = (Ret tt, w2) /\
    media_of w2
    = Some [{| md_users_path := "artifacts/default-night-mode-bot/users";
               md_user := "42"; md_id := "abc123";
               md_fields :=
                 stored_media_fields 42 (-100) 8 "FILE1" "sticker" "08:00"
                   1704067200 |}] /\
    w_sched w2 = [] /\
    w_out w2 = [handlers.time_accepted "08:00"; handlers.database_error] /\
    fsm_state (w_fsm w2) = None.
Proof.
  intros w.
  exact (scheduled_media_written_and_reported_failed (sticker_message 42 (-100) 8) w
           sample_store "08:00" 8 0 "FILE1" "sticker"
           eq_refl eq_refl eq_refl eq_refl ltac:(discriminate) eq_refl eq_refl eq_refl
           eq_refl eq_refl eq_refl).
Defined.


(** C7, as stated, fails: ["9:30"] is not strict HH:MM, yet the command
    accepts it and moves the user to the awaiting state with the text
    stored. *)
Lemma schedule_media_accepts_single_digit_hour :
  strict_HHMM "9:30" = false /\
  (let w1 := after (handlers.schedule_media_command
                      (command 42 (-100) "/schedule_media 9:30")) sample_world in
   w_out w1 = [handlers.time_accepted "9:30"] /\
   fsm_state (w_fsm w1) = Some waiting_for_scheduled_media /\
   fsm_data (w_fsm w1) !! "schedule_time_str" = Some (VStr "9:30")).
Proof. vm_compute. repeat split. Qed.

(** C7, amended. Every time text that [datetime.strptime] rejects under
    ["%H:%M"] (one or two digits for an hour up to 23, a colon, one or two
    digits for a minute up to 59, and nothing else) gets the validation
    error and nothing more: the reply is the only change of the world, so
    the conversational state, the pending data and the job table stay as
    they were. *)
Theorem schedule_media_rejects message w cmd t rest :
  Py.split_maxsplit1 (msg_text message) = cmd :: t :: rest ->
  Py.strptime_HM t = None ->
  handlers.schedule_media_command message w
  = (Ret tt, set_out (w_out w ++ [handlers.invalid_time_format]) w).
Proof.
  intros Hs Ht. unfold handlers.schedule_media_command. rewrite Hs.
  unfold try_except, mbind, M_bind, lift_res, handlers.strptime_or_raise.
  rewrite Ht. reflexivity.
Qed.

(** C7 amended, at work on ["25:00"]. *)
Lemma schedule_media_rejects_witness :
  handlers.schedule_media_command (command 42 (-100) "/schedule_media 25:00")
    sample_world
  = (Ret tt, set_out [handlers.invalid_time_format] sample_world).
Proof.
  apply (schedule_media_rejects (command 42 (-100) "/schedule_media 25:00")
           sample_world "/schedule_media" "25:00" []); reflexivity.
Defined.

Example abc_is_rejected :
  handlers.schedule_media_command (command 42 (-100) "/schedule_media abc") sample_world
  = (Ret tt, set_out [handlers.invalid_time_format] sample_world).
Proof. reflexivity. Qed.

(** X16. A time text that [strptime] accepts under ["%H:%M"] is stored as
    typed under [schedule_time_str], the user awaits the media to schedule
    and is told the time; no job is registered yet. *)
Lemma accepted_time_is_stored message w cmd t rest h m :
  Py.split_maxsplit1 (msg_text message) = cmd :: t :: rest ->
  Py.strptime_HM t = Some (h, m) ->
  exists w', handlers.schedule_media_command message w = (Ret tt, w') /\
    fsm_state (w_fsm w') = Some waiting_for_scheduled_media /\
    fsm_data (w_fsm w') !! "schedule_time_str" = Some (VStr t) /\
    w_out w' = w_out w ++ [handlers.time_accepted t] /\
    w_sched w' = w_sched w.
Proof.
  intros Hs Ht. unfold handlers.schedule_media_command. rewrite Hs.
  unfold try_except, mbind, M_bind, lift_res, handlers.strptime_or_raise.
  rewrite Ht. cbn. eexists. split; [reflexivity|]. cbn.
  repeat split. apply lookup_insert_eq.
Qed.

(** ** Cancellation flow *)

(** C5. A cancellation request for an id that is not among the requesting
    user's records (because nobody has it, because another user has it, or
    because the listing failed) is answered "not found"; no record is
    deleted and no job is removed, so the owner's record and job stay. *)
Theorem cancel_unowned_id_not_found message w cmd id rest :
  path_ok w = true ->
  Py.split_maxsplit1 (msg_text message) = cmd :: id :: rest ->
  (forall d, d ∈ user_docs w (from_user_id message) -> md_id d <> id) ->
  exists w', handlers.process_cancel_schedule_id message w = (Ret tt, w') /\
    w_out w' = w_out w ++ [handlers.not_found id] /\
    w_sched w' = w_sched w /\
    media_of w' = media_of w /\ settings_of w' = settings_of w.
Proof.
  intros Hp Hs Hown. unfold handlers.process_cancel_schedule_id. rewrite Hs.
  destruct (get_all_scheduled_media_spec (from_user_id message) w Hp)
    as (items & w1 & E & F & S1 & M1 & Hfail & Hok).
  unfold mbind, M_bind. rewrite E.
  assert (Hnf : handlers.found_in items id = false).
  { destruct (store_fails w) eqn:Hsf.
    - rewrite Hfail by reflexivity. reflexivity.
    - rewrite Hok by reflexivity. apply not_true_is_false.
      rewrite found_in_items. intros (d & Hd & Hid). exact (Hown d Hd Hid). }
  rewrite Hnf. cbn. destruct F as (?&?&?&?&?&?&?).
  eexists. split; [reflexivity|].
  unfold media_of, settings_of in *. cbn. repeat split; congruence.
Qed.

(** C5 at work: user 99 asks to cancel abc123, which user 42 owns. *)
Lemma cancel_unowned_id_not_found_witness :
  exists w',
    handlers.process_cancel_schedule_id (command 99 (-200) "/cancel_schedule abc123")
      scheduled_world = (Ret tt, w') /\
    w_out w' = w_out scheduled_world ++ [handlers.not_found "abc123"] /\
    w_sched w' = w_sched scheduled_world /\
    media_of w' = media_of scheduled_world /\
    settings_of w' = settings_of scheduled_world.
Proof.
  apply (cancel_unowned_id_not_found (command 99 (-200) "/cancel_schedule abc123")
           scheduled_world "/cancel_schedule" "abc123" []).
  - reflexivity.
  - reflexivity.
  - intros d Hd. vm_compute in Hd. inversion Hd.
Defined.

Example owner_has_the_record :
  List.map md_id (user_docs scheduled_world 42) = ["abc123"] /\
  user_docs scheduled_world 99 = [].
Proof. vm_compute. split; reflexivity. Qed.

(** C6, where the code departs from it. The user owns the id, the listing
    succeeds and the store then fails the delete: the adapter logs the error
    and returns, and the handler reports success although the record is
    still stored.  The job of the id is gone from the table either way. *)
Theorem cancel_reports_success_when_delete_fails message w fs cmd id rest msg faults :
  path_ok w = true -> id_ok id = true ->
  Py.split_maxsplit1 (msg_text message) = cmd :: id :: rest ->
  w_db w = Some fs ->
  fs_faults fs = None :: Some msg :: faults ->
  (exists d, d ∈ user_docs w (from_user_id message) /\ md_id d = id) ->
  exists w', handlers.process_cancel_schedule_id message w = (Ret tt, w') /\
    w_out w' = w_out w ++ [handlers.cancelled_ok id] /\
    media_of w' = media_of w /\
    Sched.get_job (w_sched w') (send_job_id id) = None.
Proof.
  intros Hp Hid Hs Hdb Hf Hown. apply found_in_items in Hown.
  unfold handlers.process_cancel_schedule_id. rewrite Hs.
  destruct (get_all_scheduled_media_step (from_user_id message) w fs Hdb Hp)
    as (w1 & E1 & F1 & Hdb1).
  unfold pop_fault in E1, Hdb1. rewrite Hf in E1, Hdb1. cbn in E1, Hdb1.
  assert (Hp1 : path_ok w1 = true).
  { rewrite (path_ok_db _ _ Hdb1), (proj1 F1), <- (path_ok_db _ _ Hdb). exact Hp. }
  destruct (delete_scheduled_media_step (from_user_id message) id w1 _ Hdb1 Hp1 Hid)
    as (w2 & E2 & F2 & Hdb2).
  unfold pop_fault in Hdb2. cbn in Hdb2.
  pose proof (frame_trans _ _ _ F1 F2) as (_ & Hsched & _ & _ & Hout & _ & _).
  unfold mbind, M_bind, try_except, handlers.scheduler_get_job,
    handlers.scheduler_remove_job, Sched.remove_job, log, reply, mret, M_ret.
  rewrite E1, Hown. cbn. rewrite E2. cbn.
  destruct (Sched.get_job (w_sched w2) (send_job_id id)) eqn:Hj; cbn; rewrite ?Hj; cbn;
    (eexists; split; [reflexivity|]); unfold media_of; cbn; rewrite Hdb2, Hdb, Hout;
    repeat split; try assumption.
  apply get_job_removed.
Qed.

(** C6 at the failing input: user 42 cancels abc123 while the store fails
    the delete. *)
Lemma cancel_reports_success_when_delete_fails_witness :
  exists w',
    handlers.process_cancel_schedule_id (command 42 (-100) "/cancel_schedule abc123")
      flaky_world = (Ret tt, w') /\
    w_out w' = w_out flaky_world ++ [handlers.cancelled_ok "abc123"] /\
    media_of w' = media_of flaky_world /\
    Sched.get_job (w_sched w') (send_job_id "abc123") = None.
Proof.
  apply (cancel_reports_success_when_delete_fails
           (command 42 (-100) "/cancel_schedule abc123") flaky_world
           (store_of flaky_world) "/cancel_schedule" "abc123" [] "deadline exceeded" []).
  - reflexivity.
  - reflexivity.
  - reflexivity.
  - reflexivity.
  - reflexivity.
  - apply found_in_items. vm_compute. reflexivity.
Defined.

Example flaky_record_survives :
  List.map md_id
    (user_docs (after (handlers.process_cancel_schedule_id
                         (command 42 (-100) "/cancel_schedule abc123")) flaky_world) 42)
  = ["abc123"].
Proof. vm_compute. reflexivity. Qed.

(** X19. When the store carries out both calls, the owner's cancellation
    deletes the record, removes the job if there is one and reports
    success; the other jobs stay. *)
Lemma cancel_owned_id message w cmd id rest :
  path_ok w = true -> id_ok id = true ->
  Py.split_maxsplit1 (msg_text message) = cmd :: id :: rest ->
  store_healthy w ->
  (exists d, d ∈ user_docs w (from_user_id message) /\ md_id d = id) ->
  exists w', handlers.process_cancel_schedule_id message w = (Ret tt, w') /\
    w_out w' = w_out w ++ [handlers.cancelled_ok id] /\
    (forall d, d ∈ user_docs w' (from_user_id message) -> md_id d <> id) /\
    Sched.get_job (w_sched w') (send_job_id id) = None /\
    (forall id', id' <> send_job_id id ->
       Sched.get_job (w_sched w') id' = Sched.get_job (w_sched w) id').
Proof.
  intros Hp Hid Hs (fs & Hdb & Hf) Hown. apply found_in_items in Hown.
  unfold handlers.process_cancel_schedule_id. rewrite Hs.
  destruct (get_all_scheduled_media_step (from_user_id message) w fs Hdb Hp)
    as (w1 & E1 & F1 & Hdb1).
  unfold pop_fault in E1, Hdb1. rewrite Hf in E1, Hdb1. cbn in E1, Hdb1.
  assert (Hp1 : path_ok w1 = true).
  { rewrite (path_ok_db _ _ Hdb1), (proj1 F1), <- (path_ok_db _ _ Hdb). exact Hp. }
  destruct (delete_scheduled_media_step (from_user_id message) id w1 _ Hdb1 Hp1 Hid)
    as (w2 & E2 & F2 & Hdb2).
  unfold pop_fault in Hdb2. rewrite Hf in Hdb2. cbn in Hdb2.
  pose proof F1 as (Happ1 & _).
  pose proof (frame_trans _ _ _ F1 F2) as (Happ & Hsched & _ & _ & Hout & _ & _).
  unfold mbind, M_bind, try_except, handlers.scheduler_get_job,
    handlers.scheduler_remove_job, Sched.remove_job, log, reply, mret, M_ret.
  rewrite E1, Hown. cbn. rewrite E2. cbn.
  assert (Hgone : forall w3, w_db w3 = w_db w2 -> w_app_id w3 = w_app_id w2 ->
            forall d, d ∈ user_docs w3 (from_user_id message) -> md_id d <> id).
  { intros w3 Hdb3 Happ3 d Hd Hid'. unfold user_docs in Hd.
    rewrite Hdb3, Hdb2, Happ3, Happ, Happ1 in Hd. cbn in Hd.
    apply list_elem_of_In, filter_In in Hd as [Hd Hc].
    apply filter_In in Hd as [_ Hd].
    rewrite Hc, bool_decide_eq_true_2 in Hd by exact Hid'. discriminate Hd. }
  destruct (Sched.get_job (w_sched w2) (send_job_id id)) eqn:Hj; cbn; rewrite ?Hj; cbn;
    (eexists; split; [reflexivity|]); cbn; rewrite Hout;
    (split; [reflexivity|]); (split; [apply Hgone; reflexivity|]).
  - split; [apply get_job_removed|].
    intros id' Hne. rewrite <- Hsched.
    exact (get_job_removed_other (w_sched w2) (send_job_id id) id' Hne).
  - split; [exact Hj|]. intros id' _. rewrite <- Hsched. reflexivity.
Qed.

(** ** Deletion flow *)

Lemma encoded_to_py f :
  is_ret (encode_value (to_py f)) = true -> encoded (to_py f) = Some (WVal f).
Proof.
  unfold encoded. destruct f; cbn; try reflexivity.
  destruct (int64 z); [reflexivity|discriminate].
Qed.

Lemma writable_lookup data k v :
  writable data -> data !! k = Some v -> is_ret (encode_value v) = true.
Proof.
  intros H Hk. specialize (H k v Hk). unfold refused in H. cbn in H.
  apply orb_false_elim in H as [_ H]. apply negb_false_iff, H.
Qed.

(** What a merging write of the two timer fields over a read document
    leaves stored. *)
Lemma timer_fields_committed now (old : gmap string fsval) (read : gmap string pyval) m c :
  int64 m = true -> int64 c = true ->
  let doc := (committed now <$>
                omap encoded (<["delete_timer_active_chat_id" := VInt c]>
                                (<["delete_timer_minutes" := VInt m]> read))) ∪ old in
  to_dict doc !! "delete_timer_minutes" = Some (VInt m) /\
  to_dict doc !! "delete_timer_active_chat_id" = Some (VInt c).
Proof.
  intros Hm Hc doc. unfold doc, to_dict.
  rewrite !lookup_fmap.
  erewrite !omap_insert_Some by (now apply encoded_int).
  rewrite !fmap_insert. cbn [committed]. split.
  - rewrite (lookup_union_Some_l _ _ _ (FInt m)); [reflexivity|].
    rewrite lookup_insert_ne by discriminate. apply lookup_insert_eq.
  - rewrite (lookup_union_Some_l _ _ _ (FInt c)); [reflexivity|]. apply lookup_insert_eq.
Qed.

(** X9. On a store that carries out its calls, [set_delete_timer] with a
    positive count that a document can hold arms the timer: the count and
    the chat are written together to the user's settings, the user awaits
    media and is told the count. *)
Lemma set_delete_timer_arms message w cmd arg rest m :
  store_healthy w -> path_ok w = true ->
  (forall s, user_settings w (from_user_id message) = Some s -> writable s) ->
  Py.split_maxsplit1 (msg_text message) = cmd :: arg :: rest ->
  Py.int arg = Some m ->
  0 < m -> int64 m = true -> int64 (chat_id message) = true ->
  exists w', handlers.set_delete_timer_command message w = (Ret tt, w') /\
    armed w' (from_user_id message) (chat_id message) m /\
    fsm_state (w_fsm w') = Some waiting_for_delete_duration /\
    w_out w' = w_out w ++ [handlers.timer_set_text m].
Proof.
  intros (fs & Hdb & Hf) Hp Hwr Hs Hint Hm Hm64 Hc64.
  unfold handlers.set_delete_timer_command. rewrite Hs.
  destruct (get_user_settings_step (from_user_id message) w fs Hdb Hp)
    as (w1 & E1 & F1 & Hdb1).
  unfold pop_fault in E1, Hdb1. rewrite Hf in E1, Hdb1. cbn in E1, Hdb1.
  match type of E1 with _ = (Ret ?s0, _) => set (s := s0) in * end.
  assert (Hp1 : path_ok w1 = true).
  { rewrite (path_ok_db _ _ Hdb1), (proj1 F1), <- (path_ok_db _ _ Hdb). exact Hp. }
  assert (Hs0 : writable s).
  { unfold s. rewrite (user_settings_db _ w fs Hdb) in Hwr.
    destruct (fs_settings fs !! _) as [doc|]; cbn.
    - apply Hwr. reflexivity.
    - apply writable_empty. }
  destruct (update_user_settings_step (from_user_id message)
              (<["delete_timer_active_chat_id" := VInt (chat_id message)]>
                 (<["delete_timer_minutes" := VInt m]> s)) w1 fs Hdb1 Hp1)
    as (w2 & E2 & F2 & Hdb2).
  rewrite encode_dict_writable in Hdb2
    by (repeat (apply writable_insert;
                [discriminate | now apply encode_int_ret |]); exact Hs0).
  unfold pop_fault in Hdb2. rewrite Hf in Hdb2. cbn in Hdb2.
  pose proof F1 as (Happ1 & _).
  pose proof (frame_trans _ _ _ F1 F2) as (Happ & _ & Hfsm & _ & Hout & _ & _).
  unfold try_except, mbind, M_bind, lift_res, int_or_raise, state_set_state, reply.
  rewrite Hint. rewrite (proj2 (Z.leb_gt m 0) Hm). rewrite E1. cbv zeta. rewrite E2.
  cbn. eexists. split; [reflexivity|]. cbn. rewrite Hout.
  repeat split.
  - eexists. split; [exact Hdb2 | exact Hf].
  - eexists. unfold user_settings. cbn. rewrite Hdb2, Happ, Happ1. cbn.
    rewrite lookup_insert_eq. split; [reflexivity|].
    apply timer_fields_committed; assumption.
Qed.

(** A count that is not positive, or not a number, changes nothing. *)
Lemma set_delete_timer_rejects message w cmd arg rest :
  Py.split_maxsplit1 (msg_text message) = cmd :: arg :: rest ->
  (forall m, Py.int arg = Some m -> m <= 0) ->
  exists text, handlers.set_delete_timer_command message w
               = (Ret tt, set_out (w_out w ++ [text]) w).
Proof.
  intros Hs Hm. unfold handlers.set_delete_timer_command. rewrite Hs.
  unfold try_except, mbind, M_bind, lift_res, int_or_raise.
  destruct (Py.int arg) as [m|] eqn:E.
  - rewrite (proj2 (Z.leb_le m 0) (Hm m eq_refl)). eexists. reflexivity.
  - cbn. eexists. reflexivity.
Qed.

(** One media message while the timer is armed. *)
Lemma media_for_deletion_step message w m :
  path_ok w = true ->
  armed w (from_user_id message) (chat_id message) m ->
  0 < m ->
  0 <= (reading w 0).1 ->
  (reading w 0).1 + m * 60 * 1000000 <= Py.datetime_max ->
  exists w', handlers.handle_media_for_deletion message w = (Ret tt, w') /\
    w_sched w' = w_sched w ++
      [(handlers.delete_job_id (chat_id message) (message_id message) (reading w 1).2,
        delete_job ((reading w 0).1 + m * 60 * 1000000) (chat_id message)
                   (message_id message))] /\
    w_fsm w' = w_fsm w /\
    w_out w' = w_out w ++ [handlers.will_be_deleted (VInt m)] /\
    armed w' (from_user_id message) (chat_id message) m /\
    w_clock w' = w_clock w /\ w_ticks w' = (w_ticks w + 2)%nat /\
    path_ok w' = true.
Proof.
  intros Hp ((fs & Hdb & Hf) & s & Hset & Hmin & Hchat) Hm Ht Hmax.
  unfold reading in *. rewrite Nat.add_0_r in *.
  replace (w_ticks w + 1)%nat with (S (w_ticks w)) in * by lia.
  rewrite (user_settings_db _ w fs Hdb) in Hset.
  unfold handlers.handle_media_for_deletion.
  destruct (get_user_settings_step (from_user_id message) w fs Hdb Hp)
    as (w1 & E1 & F1 & Hdb1).
  unfold pop_fault in E1, Hdb1. rewrite Hf in E1, Hdb1. cbn in E1, Hdb1.
  rewrite Hset in E1. cbn in E1.
  destruct F1 as (Happ & Hsched & Hfsm & Hbot & Hout & Hclock & Hticks).
  unfold mbind at 1. unfold M_bind at 1. rewrite E1. cbv zeta.
  rewrite Hmin, Hchat. cbn [handlers.is_None orb negb].
  rewrite bool_decide_eq_true_2 by reflexivity. cbn [negb].
  unfold mbind, M_bind, now, lift_res, handlers.timedelta_of, Py.timedelta_minutes,
    Py.datetime_add, handlers.scheduler_add_job, Sched.add_pending_job, log, reply.
  cbn [w_clock w_ticks set_ticks fst snd w_sched].
  rewrite Hclock, Hticks, Hsched.
  assert (Hd : (Py.timedelta_min <=? m * 60 * 1000000)
               && (m * 60 * 1000000 <=? Py.timedelta_max) = true).
  { apply andb_true_intro.
    unfold Py.timedelta_min, Py.timedelta_max, Py.datetime_max in *.
    split; apply Z.leb_le; lia. }
  rewrite Hd.
  assert (Ha : (0 <=? (w_clock w (w_ticks w)).1 + m * 60 * 1000000)
               && ((w_clock w (w_ticks w)).1 + m * 60 * 1000000 <=? Py.datetime_max)
               = true).
  { apply andb_true_intro. split; apply Z.leb_le; lia. }
  rewrite Ha. cbn.
  eexists. split; [reflexivity|]. cbn.
  rewrite ?Hfsm, ?Hout, ?Hclock.
  rewrite (path_ok_db _ _ Hdb) in Hp.
  unfold armed, store_healthy, user_settings, path_ok. cbn.
  rewrite Hdb1, Happ.
  repeat split; try reflexivity; try lia; eauto.
Qed.

(** Job ids of deletion jobs: the message id can be read back from them. *)
Lemma str_inj a b : Py.str a = Py.str b -> a = b.
Proof.
  unfold Py.str. intros H. apply to_int_inj.
  assert (Hn : forall z, NilZero.int_of_string (NilZero.string_of_int (Z.to_int z))
                         = Some (Z.to_int z)).
  { intros z. apply NilZero.isi; destruct z; cbn; try discriminate;
      intros [= E]; exact (DecimalPos.Unsigned.to_uint_nonnil _ E). }
  pose proof (Hn a) as Ha. rewrite H, Hn in Ha. congruence.
Qed.

Lemma uint_no_underscore d : has_char "_" (NilEmpty.string_of_uint d) = false.
Proof. induction d; cbn; auto. Qed.

Lemma str_no_underscore z : has_char "_" (Py.str z) = false.
Proof.
  unfold Py.str, NilZero.string_of_int, NilZero.string_of_uint.
  destruct (Z.to_int z) as [d|d]; destruct d; cbn; try reflexivity;
    apply uint_no_underscore.
Qed.

Lemma append_cancel_l p a b : (p +:+ a = p +:+ b) -> a = b.
Proof. induction p as [|c p IH]; cbn; [auto|]. intros [= H]. auto. Qed.

Lemma append_underscore_inj a b x y :
  has_char "_" a = false -> has_char "_" b = false ->
  a +:+ String "_" x = b +:+ String "_" y -> a = b.
Proof.
  revert b. induction a as [|c a IH]; intros [|d b] Ha Hb H; cbn in *.
  - reflexivity.
  - injection H as <- _. discriminate Hb.
  - injection H as -> _. discriminate Ha.
  - injection H as <- H. apply orb_false_elim in Ha as [_ Ha].
    apply orb_false_elim in Hb as [_ Hb]. f_equal. eauto.
Qed.

Lemma delete_job_id_inj c m1 m2 s1 s2 :
  handlers.delete_job_id c m1 s1 = handlers.delete_job_id c m2 s2 -> m1 = m2.
Proof.
  unfold handlers.delete_job_id. intros H.
  apply append_cancel_l, append_cancel_l in H. cbn in H. injection H as H.
  apply str_inj. eapply append_underscore_inj; eauto using str_no_underscore.
Qed.

(** C8, as stated, fails for large counts: user 42 arms the timer with
    100000000000 minutes, which the command accepts and stores; the next
    sticker makes [datetime.now() + timedelta(minutes=...)] leave the range
    of [datetime], the handler raises [OverflowError] and no job is
    scheduled. *)
Lemma deletion_overflows_for_large_timer :
  let w := armed_world "100000000000" in
  0 < 100000000000 /\
  fsm_state (w_fsm w) = Some waiting_for_delete_duration /\
  (exists s, user_settings w 42 = Some s /\
     s !! "delete_timer_minutes" = Some (VInt 100000000000) /\
     s !! "delete_timer_active_chat_id" = Some (VInt (-100))) /\
  (handlers.handle_media_for_deletion (sticker_message 42 (-100) 8) w).1
  = Raise (Exn OverflowError "date value out of range") /\
  w_sched (after (handlers.handle_media_for_deletion (sticker_message 42 (-100) 8)) w)
  = [].
Proof.
  cbv zeta. split; [lia|]. split; [reflexivity|].
  split; [|split; vm_compute; reflexivity].
  eexists. split; [reflexivity|]. split; vm_compute; reflexivity.
Qed.

(** C8, amended. For every positive count [m] with [now + m] minutes within
    the range of [datetime]: while the timer is armed with [m] for the chat,
    a media message of that chat schedules exactly one one-shot deletion
    job, bound to its chat and message id and due [m] minutes after its own
    arrival; the armed state persists, and a second message gets a second
    job, due [m] minutes after its own arrival. *)
Theorem two_media_messages_two_deletion_jobs msg1 msg2 w m :
  path_ok w = true ->
  from_user_id msg2 = from_user_id msg1 ->
  chat_id msg2 = chat_id msg1 ->
  armed w (from_user_id msg1) (chat_id msg1) m ->
  0 < m ->
  0 <= (reading w 0).1 -> (reading w 0).1 + m * 60 * 1000000 <= Py.datetime_max ->
  0 <= (reading w 2).1 -> (reading w 2).1 + m * 60 * 1000000 <= Py.datetime_max ->
  let id1 := handlers.delete_job_id (chat_id msg1) (message_id msg1) (reading w 1).2 in
  let id2 := handlers.delete_job_id (chat_id msg2) (message_id msg2) (reading w 3).2 in
  exists w1 w2,
    handlers.handle_media_for_deletion msg1 w = (Ret tt, w1) /\
    handlers.handle_media_for_deletion msg2 w1 = (Ret tt, w2) /\
    w_sched w1 = w_sched w ++
      [(id1, delete_job ((reading w 0).1 + m * 60 * 1000000) (chat_id msg1)
                        (message_id msg1))] /\
    w_sched w2 = w_sched w1 ++
      [(id2, delete_job ((reading w 2).1 + m * 60 * 1000000) (chat_id msg2)
                        (message_id msg2))] /\
    w_fsm w2 = w_fsm w /\
    armed w2 (from_user_id msg1) (chat_id msg1) m.
Proof.
  intros Hp Hu Hc Harm Hm H0 H0' H2 H2' id1 id2.
  destruct (media_for_deletion_step msg1 w m Hp Harm Hm H0 H0')
    as (w1 & E1 & S1 & F1 & _ & A1 & C1 & T1 & Hp1).
  assert (R : forall k, reading w1 k = reading w (2 + k)).
  { intros k. unfold reading. rewrite C1, T1. f_equal. lia. }
  rewrite <- Hu, <- Hc in A1.
  destruct (media_for_deletion_step msg2 w1 m Hp1 A1 Hm)
    as (w2 & E2 & S2 & F2 & _ & A2 & _).
  - rewrite R. exact H2.
  - rewrite R. exact H2'.
  - exists w1, w2. rewrite !R in S2. rewrite Hu, Hc in A2.
    split; [exact E1|]. split; [exact E2|]. split; [exact S1|].
    split; [exact S2|]. split; [congruence | exact A2].
Qed.

(** C8 amended, at work: five minutes, two stickers. *)
Lemma two_media_messages_two_deletion_jobs_witness :
  exists w1 w2,
    handlers.handle_media_for_deletion (sticker_message 42 (-100) 8) (armed_world "5")
    = (Ret tt, w1) /\
    handlers.handle_media_for_deletion (sticker_message 42 (-100) 9) w1 = (Ret tt, w2) /\
    w_sched w1 = w_sched (armed_world "5") ++
      [(handlers.delete_job_id (-100) 8 (reading (armed_world "5") 1).2,
        delete_job ((reading (armed_world "5") 0).1 + 5 * 60 * 1000000) (-100) 8)] /\
    w_sched w2 = w_sched w1 ++
      [(handlers.delete_job_id (-100) 9 (reading (armed_world "5") 3).2,
        delete_job ((reading (armed_world "5") 2).1 + 5 * 60 * 1000000) (-100) 9)] /\
    w_fsm w2 = w_fsm (armed_world "5") /\
    armed w2 42 (-100) 5.
Proof.
  apply (two_media_messages_two_deletion_jobs (sticker_message 42 (-100) 8)
           (sticker_message 42 (-100) 9) (armed_world "5") 5).
  - reflexivity.
  - reflexivity.
  - reflexivity.
  - split.
    + exists (store_of (armed_world "5")). split; reflexivity.
    + exists five_minutes. repeat split; vm_compute; reflexivity.
  - lia.
  - vm_compute. discriminate.
  - vm_compute. discriminate.
  - vm_compute. discriminate.
  - vm_compute. discriminate.
Defined.

Example two_deletion_jobs_listed :
  let w := after (handlers.handle_media_for_deletion (sticker_message 42 (-100) 8);;
                  handlers.handle_media_for_deletion (sticker_message 42 (-100) 9))
                 (armed_world "5") in
  Sched.job_ids (w_sched w)
  = ["delete_msg_-100_8_1704067201.0"; "delete_msg_-100_9_1704067203.0"] /\
  List.map (fun p => job_trigger p.2) (w_sched w)
  = [DateTrigger (738885 * 86400 * 1000000 + 300000000);
     DateTrigger (738885 * 86400 * 1000000 + 302000000)].
Proof. vm_compute. split; reflexivity. Qed.


(** Writing back a part of what was read of a stored document with
    [merge=True] is no change. *)
Lemma merge_subset_noop path user (s' : gmap string pyval) (doc : gmap string fsval)
    data fs :
  fs_settings fs !! (path, user) = Some doc -> s' ⊆ to_dict doc ->
  encode_dict s' = Ret data ->
  fs_settings (doc_set_merge path user data fs).2 = fs_settings fs.
Proof.
  intros Hs Hsub Enc. apply encode_dict_ret in Enc as [Hw ->].
  cbn. rewrite Hs. cbn.
  rewrite (map_subseteq_union (committed _ <$> omap encoded s') doc).
  - apply insert_id, Hs.
  - apply map_subseteq_spec. intros k f Hk.
    rewrite lookup_fmap, lookup_omap in Hk.
    destruct (s' !! k) as [v|] eqn:Hv; [|discriminate].
    pose proof (writable_lookup _ _ _ Hw Hv) as Henc.
    rewrite map_subseteq_spec in Hsub. specialize (Hsub _ _ Hv).
    unfold to_dict in Hsub. rewrite lookup_fmap in Hsub.
    destruct (doc !! k) as [f0|]; [|discriminate]. injection Hsub as <-.
    cbn in Hk. rewrite (encoded_to_py _ Henc) in Hk. cbn in Hk. congruence.
Qed.

(** C9, where the code departs from it. With a timer stored and the store
    carrying out every call, [cancel_delete_timer] replies that the timer is
    cancelled and clears the conversational state, but the stored settings
    are unchanged: the dict without the two keys is written with
    [merge=True], which removes no field. *)
Theorem cancel_delete_timer_leaves_fields_stored message w s :
  path_ok w = true ->
  store_healthy w ->
  user_settings w (from_user_id message) = Some s ->
  is_Some (s !! "delete_timer_minutes") ->
  exists w', handlers.cancel_delete_timer_command message w = (Ret tt, w') /\
    w_out w' = w_out w ++ [handlers.timer_cancelled] /\
    fsm_state (w_fsm w') = None /\
    user_settings w' (from_user_id message) = Some s.
Proof.
  intros Hp (fs & Hdb & Hf) Hset Hmin.
  rewrite (user_settings_db _ w fs Hdb) in Hset.
  destruct (fs_settings fs !! _) as [doc|] eqn:Hdoc; [|discriminate].
  injection Hset as <-.
  unfold handlers.cancel_delete_timer_command.
  destruct (get_user_settings_step (from_user_id message) w fs Hdb Hp)
    as (w1 & E1 & F1 & Hdb1).
  unfold pop_fault in E1, Hdb1. rewrite Hf in E1, Hdb1. cbn in E1, Hdb1.
  rewrite Hdoc in E1. cbn in E1.
  assert (Hp1 : path_ok w1 = true).
  { rewrite (path_ok_db _ _ Hdb1), (proj1 F1), <- (path_ok_db _ _ Hdb). exact Hp. }
  unfold mbind at 1. unfold M_bind at 1. rewrite E1.
  rewrite (bool_decide_eq_true_2 _ Hmin). cbv zeta.
  match goal with |- context [db_manager.update_user_settings _ ?s'] =>
    destruct (update_user_settings_step (from_user_id message) s' w1 fs Hdb1 Hp1)
      as (w2 & E2 & F2 & Hdb2);
    assert (Hsub : s' ⊆ to_dict doc)
  end.
  { case_bool_decide.
    - etrans; apply delete_subseteq.
    - apply delete_subseteq. }
  pose proof F1 as (Happ1 & _).
  pose proof (frame_trans _ _ _ F1 F2) as (Happ & Hsched & _ & _ & Hout & _ & _).
  unfold mbind, M_bind, state_clear, reply. rewrite E2. cbn.
  eexists. split; [reflexivity|]. cbn. rewrite Hout. repeat split.
  unfold user_settings. cbn. rewrite Hdb2, Happ, Happ1.
  destruct (encode_dict _) as [data|e] eqn:Enc.
  - unfold pop_fault. rewrite Hf.
    cbn [fst snd]. rewrite (merge_subset_noop _ _ _ doc data fs Hdoc Hsub Enc).
    rewrite Hdoc. reflexivity.
  - rewrite Hdoc. reflexivity.
Qed.

(** C9 at the failing input: the timer of five minutes is cancelled and
    both fields are still stored. *)
Lemma cancel_delete_timer_leaves_fields_stored_witness :
  exists w',
    handlers.cancel_delete_timer_command (command 42 (-100) "/cancel_delete_timer")
      (armed_world "5") = (Ret tt, w') /\
    w_out w' = w_out (armed_world "5") ++ [handlers.timer_cancelled] /\
    fsm_state (w_fsm w') = None /\
    user_settings w' 42 = Some five_minutes.
Proof.
  apply (cancel_delete_timer_leaves_fields_stored
           (command 42 (-100) "/cancel_delete_timer") (armed_world "5") five_minutes).
  - reflexivity.
  - exists (store_of (armed_world "5")). split; reflexivity.
  - vm_compute. reflexivity.
  - exists (VInt 5). vm_compute. reflexivity.
Defined.

(** Cancelling twice: the second request finds the timer still stored and
    answers that it is cancelled once more. *)
Example cancel_twice :
  w_out (after (handlers.cancel_delete_timer_command
                  (command 42 (-100) "/cancel_delete_timer");;
                handlers.cancel_delete_timer_command
                  (command 42 (-100) "/cancel_delete_timer")) (armed_world "5"))
  = [handlers.timer_set_text 5; handlers.timer_cancelled; handlers.timer_cancelled].
Proof. vm_compute. reflexivity. Qed.

(** X13. With no timer stored, [cancel_delete_timer] says so and changes
    neither the settings nor the conversational state. *)
Lemma cancel_without_timer message w :
  path_ok w = true ->
  (forall s, user_settings w (from_user_id message) = Some s ->
             s !! "delete_timer_minutes" = None) ->
  exists w', handlers.cancel_delete_timer_command message w = (Ret tt, w') /\
    w_out w' = w_out w ++ [handlers.no_active_timer] /\
    w_fsm w' = w_fsm w /\ settings_of w' = settings_of w.
Proof.
  intros Hp Hnone. unfold handlers.cancel_delete_timer_command.
  destruct (get_user_settings_spec (from_user_id message) w Hp)
    as (v & w1 & E & F & S1 & _ & Hfail & Hok).
  unfold mbind, M_bind, reply. rewrite E.
  assert (Hv : v !! "delete_timer_minutes" = None).
  { destruct (store_fails w) eqn:Hsf.
    - rewrite Hfail by reflexivity. apply lookup_empty.
    - rewrite Hok by reflexivity.
      destruct (user_settings w (from_user_id message)) as [s|] eqn:Hs; cbn.
      + apply Hnone. reflexivity.
      + apply lookup_empty. }
  rewrite bool_decide_eq_false_2 by (rewrite Hv; intros [? ?]; discriminate).
  destruct F as (_ & _ & Hfsm & _ & Hout & _).
  eexists. split; [reflexivity|]. unfold settings_of in *. cbn.
  rewrite Hout, Hfsm, S1. repeat split.
Qed.

(** X14. [cancel_delete_timer] never changes a stored document, whatever
    the store holds and whatever the store does: what it writes back with
    [merge=True] is a part of what the document holds. *)
Lemma cancel_delete_timer_changes_no_document message w :
  settings_of (after (handlers.cancel_delete_timer_command message) w) = settings_of w
  /\ media_of (after (handlers.cancel_delete_timer_command message) w) = media_of w.
Proof.
  unfold after.
  destruct (handlers.cancel_delete_timer_command message w) as [r w'] eqn:E.
  cbn [snd]. unfold handlers.cancel_delete_timer_command in E.
  destruct (get_user_settings_cases (from_user_id message) w)
    as (r1 & w1 & E1 & F1 & S1 & M1 & H1).
  unfold mbind at 1 in E. unfold M_bind at 1 in E. rewrite E1 in E.
  destruct r1 as [v|e1].
  2: { injection E as _ <-. split; assumption. }
  destruct H1 as (Hp & Hfail & Hok).
  assert (Hp1 : path_ok w1 = true) by (rewrite (path_ok_frame w w1); auto).
  case_bool_decide as Hmin; cbv zeta in E.
  2: { injection E as _ <-. unfold settings_of, media_of in *. cbn.
       split; assumption. }
  destruct (store_fails w) eqn:Hsf.
  { rewrite Hfail in Hmin by reflexivity. rewrite lookup_empty in Hmin.
    destruct Hmin; discriminate. }
  rewrite Hok in * by reflexivity. clear Hfail Hok.
  unfold store_fails in Hsf.
  destruct (w_db w) as [fs|] eqn:Hdb; [clear Hsf|discriminate Hsf].
  rewrite (user_settings_db _ w fs Hdb) in *.
  destruct (fs_settings fs !! _) as [doc|] eqn:Hdoc; cbn in Hmin.
  2: { rewrite lookup_empty in Hmin. destruct Hmin; discriminate. }
  cbn [default fmap option_fmap option_map] in E.
  match type of E with context [db_manager.update_user_settings _ ?x] =>
    assert (Hsub : x ⊆ to_dict doc) by
      (case_bool_decide; [etrans; apply delete_subseteq | apply delete_subseteq]);
    remember x as s' eqn:Hs'; clear Hs'
  end.
  unfold mbind, M_bind, state_clear, reply in E.
  assert (Hdb1 : exists fs1, w_db w1 = Some fs1 /\ fs_settings fs1 = fs_settings fs
                             /\ fs_media fs1 = fs_media fs).
  { unfold settings_of, media_of in S1, M1. rewrite Hdb in S1, M1.
    destruct (w_db w1) as [fs1|]; [|discriminate].
    injection S1 as S1. injection M1 as M1. eauto. }
  destruct Hdb1 as (fs1 & Hdb1 & Hs1 & Hm1).
  destruct (update_user_settings_step (from_user_id message) s' w1 fs1 Hdb1 Hp1)
    as (w2 & E2 & F2 & Hdb2).
  rewrite E2 in E. injection E as _ <-.
  unfold settings_of, media_of. cbn. rewrite Hdb2, Hdb.
  cbv [fmap option_fmap option_map].
  destruct F1 as (Happ & _).
  destruct (encode_dict s') as [data|ee] eqn:Enc.
  2: { rewrite Hs1, Hm1. split; reflexivity. }
  destruct (pop_fault fs1).1.
  - rewrite pop_fault_settings, pop_fault_media, Hs1, Hm1. split; reflexivity.
  - rewrite (merge_subset_noop _ _ s' doc data).
    + rewrite pop_fault_settings. cbn. rewrite pop_fault_media, Hs1, Hm1.
      split; reflexivity.
    + rewrite pop_fault_settings, Hs1, Happ. exact Hdoc.
    + exact Hsub.
    + exact Enc.
Qed.

(** ** Sending *)

(** Called with the bot, [send_media_by_type] sends a known media type with
    the method of that type, to the chat and with the file it is given. *)
Lemma send_media_by_type_sends chat_id media_file_id media_type method w :
  send_method media_type = Some method ->
  tr_faults (w_bot w) = [] ->
  exists w', utils.send_media_by_type [chat_id; media_file_id; VStr media_type; VBot] w
             = (Ret true, w') /\
    tr_sent (w_bot w') = tr_sent (w_bot w) ++ [(method, chat_id, media_file_id)].
Proof.
  intros Hm Hf. unfold send_method in Hm.
  unfold utils.send_media_by_type, utils.bot_send, try_except, mbind, M_bind,
    transport_call.
  repeat case_bool_decide; simplify_eq; cbn; rewrite Hf; cbn;
    (eexists; split; [reflexivity|]); reflexivity.
Qed.

(** C4, where the code departs from it. A send job that fires never
    reaches the transport: [send_scheduled_media_job] calls
    [send_media_by_type] with three arguments where the function has four
    parameters, so binding the arguments raises [TypeError] out of the job
    before anything is sent or logged.  This holds for every job bound to
    the callback, whatever its trigger and its arguments. *)
Theorem send_job_fires_into_TypeError j w :
  job_func j = cb_send_scheduled_media_job ->
  exists msg,
    jobs.fire j w = (Raise (Exn TypeError msg), w) /\
    (List.length (job_args j) = 6%nat ->
     msg = "send_media_by_type() missing 1 required positional argument: 'bot_instance'").
Proof.
  intros Hf. unfold jobs.fire. rewrite Hf. unfold jobs.send_scheduled_media_job.
  destruct (job_args j) as [|a1 [|a2 [|a3 [|a4 [|a5 [|a6 [|a7 l]]]]]]];
    cbn; eexists; (split; [reflexivity|]); intros Hl;
    try discriminate Hl; reflexivity.
Qed.

(** C4 at the failing input: the send job of the record abc123. *)
Lemma send_job_fires_into_TypeError_witness :
  exists msg,
    jobs.fire (send_job (CronTrigger 8 0 0) VBot (VInt 42) (VInt (-100)) (VStr "FILE1")
                 (VStr "sticker") (VStr "abc123")) scheduled_world
    = (Raise (Exn TypeError msg), scheduled_world) /\
    (List.length [VBot; VInt 42; VInt (-100); VStr "FILE1"; VStr "sticker"; VStr "abc123"]
     = 6%nat ->
     msg = "send_media_by_type() missing 1 required positional argument: 'bot_instance'").
Proof.
  apply (send_job_fires_into_TypeError
           (send_job (CronTrigger 8 0 0) VBot (VInt 42) (VInt (-100)) (VStr "FILE1")
              (VStr "sticker") (VStr "abc123")) scheduled_world).
  reflexivity.
Defined.

(** The deletion job deletes the message it is bound to. *)
Lemma delete_job_fires run_at chat_id message_id w :
  tr_faults (w_bot w) = [] ->
  exists w', jobs.fire (delete_job run_at chat_id message_id) w = (Ret tt, w') /\
    tr_deleted (w_bot w') = tr_deleted (w_bot w) ++ [(VInt chat_id, VInt message_id)].
Proof.
  intros Hf. unfold jobs.fire, jobs.delete_message_job, try_except, mbind, M_bind,
    transport_call, log. cbn. rewrite Hf. cbn.
  eexists. split; reflexivity.
Qed.

(** ** Startup reconciliation *)

Lemma CronTrigger_unbound : bool_decide ("CronTrigger" ∈ main.main_globals) = false.
Proof. vm_compute. reflexivity. Qed.

Lemma length_snoc {A} (l : list A) x : List.length (l ++ [x]) = S (List.length l).
Proof. rewrite length_app. cbn. lia. Qed.

Ltac logged :=
  eexists; (split; [reflexivity|]); cbn; (split; [reflexivity | apply length_snoc]).

(** The loop body never raises; what it does to the table and the count is
    [step], it leaves the store alone and it writes one log entry. *)
Lemma reschedule_doc_pure globals bot acc doc w :
  exists w',
    main.reschedule_doc globals bot acc doc w = (Ret (step globals bot acc doc), w')
    /\ w_db w' = w_db w /\ List.length (w_log w') = S (List.length (w_log w)).
Proof.
  unfold main.reschedule_doc, step, job_of_doc, try_except, mbind, M_bind, lift_res,
    main.load_global.
  destruct (int_or_raise (md_user doc)) as [u|e]; cbn -[forallb].
  2: { destruct (only ValueError e); cbn; logged. }
  destruct (forallb _ _); cbn.
  2: { logged. }
  destruct (hour_minute_of _) as [[h m]|e]; cbn.
  2: { destruct (only ValueError e); cbn; logged. }
  destruct (bool_decide ("CronTrigger" ∈ globals)); cbn.
  2: { logged. }
  destruct (Sched.cron_trigger h m 0) as [trig|e]; cbn.
  2: { destruct (only ValueError e); cbn; logged. }
  destruct (bool_decide ("send_scheduled_media_job" ∈ globals)); cbn.
  2: { logged. }
  rewrite add_job_replace. cbn. logged.
Qed.

(** The scan visits every record: each one leaves its entry in the log,
    and no record stops the loop. *)
Lemma for_each_pure globals bot docs : forall acc w,
  exists w',
    main.for_each (main.reschedule_doc globals bot) acc docs w
    = (Ret (fold_left (step globals bot) docs acc), w')
    /\ w_db w' = w_db w
    /\ List.length (w_log w') = (List.length (w_log w) + List.length docs)%nat.
Proof.
  induction docs as [|d docs IH]; intros acc w; cbn.
  - eexists; repeat split. lia.
  - destruct (reschedule_doc_pure globals bot acc d w) as (w1 & E & Hdb & Hl).
    unfold mbind, M_bind. rewrite E.
    destruct (IH (step globals bot acc d) w1) as (w2 & E2 & Hdb2 & Hl2).
    exists w2. split; [exact E2|]. split; [congruence | lia].
Qed.

Lemma fold_step_sched globals bot docs : forall acc,
  (fold_left (step globals bot) docs acc).1
  = upsert_all (omap (job_of_doc globals bot) docs) acc.1.
Proof.
  induction docs as [|d docs IH]; intros acc; cbn; [reflexivity|].
  rewrite IH. unfold step. destruct (job_of_doc globals bot d) as [[id j]|]; reflexivity.
Qed.

(** A reconciliation whose scan the store answers. *)
Lemma load_healthy globals bot s w fs :
  w_db w = Some fs -> fs_faults fs = [] ->
  exists w',
    main.load_and_reschedule_media globals bot s w
    = (Ret (upsert_all (omap (job_of_doc globals bot) (fs_media fs)) s), w')
    /\ w_db w' = Some fs.
Proof.
  intros Hdb Hf.
  unfold main.load_and_reschedule_media, mbind, M_bind, try_except, store_call, log,
    pop_fault.
  cbn. rewrite Hdb. cbn. rewrite Hdb, Hf. cbn.
  match goal with |- context [main.for_each ?b ?a ?l ?w0] =>
    destruct (for_each_pure globals bot l a w0) as (w' & E & Hdb' & _) end.
  rewrite E. cbn.
  pose proof (fold_step_sched globals bot (fs_media fs) (s, 0)) as Hs.
  destruct (fold_left _ _ _) as [s1 n]. cbn in *. subst s1.
  eexists. split; [reflexivity|]. cbn. rewrite Hdb'. reflexivity.
Qed.

Lemma job_of_doc_id globals bot d id j :
  job_of_doc globals bot d = Some (id, j) -> id = send_job_id (md_id d).
Proof.
  unfold job_of_doc. intros H.
  repeat match type of H with
  | context [match ?x with _ => _ end] => destruct x; try discriminate
  end.
  congruence.
Qed.

(** In main.py no record yields a job: the name [CronTrigger] is not bound. *)
Lemma job_of_doc_main bot d : job_of_doc main.main_globals bot d = None.
Proof.
  unfold job_of_doc. rewrite CronTrigger_unbound.
  repeat match goal with
  | |- context [match ?x with _ => _ end] => destruct x; try reflexivity
  end.
Qed.

(** With [CronTrigger] imported, a record with the required fields and a
    parseable time of day under a numeric user id yields its daily job. *)
Lemma job_of_doc_repaired bot d u t h m :
  Py.int (md_user d) = Some u ->
  let item := to_dict (md_fields d) in
  (forall k, k ∈ main.required_fields -> is_Some (item !! k)) ->
  item !! "schedule_time" = Some (VStr t) ->
  Py.strptime_HM t = Some (h, m) ->
  job_of_doc repaired_globals bot d
  = Some (send_job_id (md_id d),
          send_job (CronTrigger h m 0) bot (VInt u)
            (main.field item "chat_id")
            (main.field item "media_file_id")
            (main.field item "media_type") (VStr (md_id d))).
Proof.
  intros Hu item Hreq Ht Hhm. destruct (strptime_hour_minute t h m Hhm) as (Hp & Hh & Hm).
  unfold job_of_doc, int_or_raise. rewrite Hu. fold item.
  replace (forallb _ main.required_fields) with true.
  2: { symmetry. apply forallb_forall. intros k Hk.
       apply bool_decide_eq_true_2, Hreq, list_elem_of_In, Hk. }
  unfold main.field at 1. rewrite Ht. cbn [default]. unfold id. rewrite Hp.
  rewrite (cron_trigger_ok h m Hh Hm).
  replace (bool_decide ("CronTrigger" ∈ repaired_globals)) with true
    by (vm_compute; reflexivity).
  replace (bool_decide ("send_scheduled_media_job" ∈ repaired_globals)) with true
    by (vm_compute; reflexivity).
  reflexivity.
Qed.

(** C2, where the code departs from it. Startup reconciliation registers
    no job, whatever the store holds: [load_and_reschedule_media] builds the
    trigger with [CronTrigger], a name main.py never imports, so every
    record that passes the validation raises [NameError], which the loop
    logs as a rescheduling error before it goes on.  The scheduler is
    returned as it was passed in. *)
Theorem startup_reconciliation_registers_nothing bot sched w :
  (main.load_and_reschedule_media main.main_globals bot sched w).1 = Ret sched.
Proof.
  unfold main.load_and_reschedule_media, mbind, M_bind, try_except, store_call, log.
  destruct (w_db w) as [fs|] eqn:Hdb; cbn; [|reflexivity].
  rewrite Hdb.
  destruct (pop_fault fs) as [[msg|] fs1]; cbn; [reflexivity|].
  match goal with |- context [main.for_each ?b ?a ?l ?w0] =>
    destruct (for_each_pure main.main_globals bot l a w0) as (w' & -> & _);
    pose proof (fold_step_sched main.main_globals bot l a) as Hs
  end.
  destruct (fold_left _ _ _) as [s1 n]. cbn in *. subst s1.
  f_equal. clear. induction (fs_media fs1) as [|d l IH]; cbn; [reflexivity|].
  rewrite job_of_doc_main. exact IH.
Qed.

(** C2 at the failing input: the record abc123 is complete and valid, and
    the reconciliation logs the [NameError] and registers nothing. *)
Example reconciliation_without_import :
  let r := main.load_and_reschedule_media main.main_globals VBot [] scheduled_world in
  r.1 = Ret [] /\
  (ERROR, "Error rescheduling job abc123: name 'CronTrigger' is not defined")
    ∈ w_log r.2.
Proof.
  cbv zeta. split; [vm_compute; reflexivity|].
  apply list_elem_of_In. vm_compute. auto.
Qed.

Example reconciliation_with_import :
  (main.load_and_reschedule_media repaired_globals VBot [] scheduled_world).1
  = Ret [(send_job_id "abc123",
          send_job (CronTrigger 8 0 0) VBot (VInt 42) (VInt (-100)) (VStr "FILE1")
                   (VStr "sticker") (VStr "abc123"))].
Proof. vm_compute. reflexivity. Qed.

(** C3. Whatever names main.py binds, a reconciliation run on the table a
    first run over the same store snapshot left returns that very table:
    the second run replaces every job under its own id and adds none.  Job
    ids stay distinct, and every id the runs add is ["send_sch_"] followed by
    the id of a stored record. *)
Theorem reconciliation_idempotent globals bot s0 w :
  store_healthy w ->
  exists s1 w1 w2,
    main.load_and_reschedule_media globals bot s0 w = (Ret s1, w1) /\
    main.load_and_reschedule_media globals bot s1 w1 = (Ret s1, w2) /\
    media_of w1 = media_of w /\
    (NoDup (Sched.job_ids s0) -> NoDup (Sched.job_ids s1)) /\
    (forall id, id ∈ Sched.job_ids s1 ->
       id ∈ Sched.job_ids s0 \/
       exists fs d, w_db w = Some fs /\ d ∈ fs_media fs /\ id = send_job_id (md_id d)).
Proof.
  intros (fs & Hdb & Hf).
  destruct (load_healthy globals bot s0 w fs Hdb Hf) as (w1 & E1 & Hdb1).
  destruct (load_healthy globals bot
              (upsert_all (omap (job_of_doc globals bot) (fs_media fs)) s0) w1 fs Hdb1 Hf)
    as (w2 & E2 & Hdb2).
  rewrite upsert_all_idempotent in E2.
  eexists _, w1, w2. split; [exact E1|]. split; [exact E2|].
  split; [unfold media_of; rewrite Hdb1, Hdb; reflexivity|].
  split; [apply upsert_all_NoDup|].
  intros id Hid. apply upsert_all_ids_origin in Hid as [Hid|Hid]; [left; exact Hid|].
  right. apply list_elem_of_fmap in Hid as ([k j] & -> & Hkj).
  apply list_elem_of_omap in Hkj as (d & Hd & Hj).
  exists fs, d. repeat split; [exact Hdb | exact Hd |].
  cbn. eapply job_of_doc_id, Hj.
Qed.

(** C3 at work, with the import in place so that the runs do register the
    job of the stored record. *)
Lemma reconciliation_idempotent_witness :
  exists s1 w1 w2,
    main.load_and_reschedule_media repaired_globals VBot [] scheduled_world
    = (Ret s1, w1) /\
    main.load_and_reschedule_media repaired_globals VBot s1 w1 = (Ret s1, w2) /\
    media_of w1 = media_of scheduled_world /\
    (NoDup (Sched.job_ids []) -> NoDup (Sched.job_ids s1)) /\
    (forall id, id ∈ Sched.job_ids s1 ->
       id ∈ Sched.job_ids [] \/
       exists fs d, w_db scheduled_world = Some fs /\ d ∈ fs_media fs
                    /\ id = send_job_id (md_id d)).
Proof.
  apply (reconciliation_idempotent repaired_globals VBot [] scheduled_world).
  exists (store_of scheduled_world). split; reflexivity.
Defined.

(** ** Store failure at the adapter *)




Example outage_with_data :
  List.map md_id (user_docs outage_world 42) = ["abc123"] /\
  (db_manager.get_all_scheduled_media 42 outage_world).1 = Ret [] /\
  (db_manager.add_scheduled_media 42 (-100) 9 "FILE2" "photo" (VStr "09:00")
     outage_world).1 = Ret EmptyString /\
  (db_manager.add_scheduled_media 42 (-100) 9 "FILE2" "photo" (VStr "09:00")
     (set_db None scheduled_world)).1 = Ret EmptyString.
Proof. vm_compute. repeat split. Qed.

(** * Further properties *)

(** ** The store adapter: a write followed by a read *)

Lemma pop_fault_healthy fs : fs_faults fs = [] -> pop_fault fs = (None, fs).
Proof. unfold pop_fault. intros ->. reflexivity. Qed.

Lemma in_collection_other_user path u u' d :
  u <> u' -> in_collection path (Py.str u) d = true ->
  in_collection path (Py.str u') d = false.
Proof.
  unfold in_collection. intros Hne H.
  apply andb_true_iff in H as [_ H]. apply bool_decide_eq_true_1 in H.
  apply andb_false_iff. right. apply bool_decide_eq_false_2.
  intros H'. apply Hne, str_inj. congruence.
Qed.

Lemma encoded_read_back now v :
  is_ret (encode_value v) = true ->
  to_py ∘ committed now <$> encoded v = Some (read_back now v).
Proof.
  unfold encoded. destruct v; cbn; try reflexivity; try discriminate.
  destruct (int64 z); [reflexivity|discriminate].
Qed.

(** What a read returns of a written dict. *)
Lemma written_read_back now s :
  writable s -> to_dict (committed now <$> omap encoded s) = read_back now <$> s.
Proof.
  intros Hw. apply map_eq. intros k. unfold to_dict.
  rewrite !lookup_fmap, lookup_omap.
  destruct (s !! k) as [v|] eqn:Hv; [|reflexivity]. cbn.
  pose proof (encoded_read_back now v (writable_lookup _ _ _ Hw Hv)) as H.
  destruct (encoded v); cbn in *; congruence.
Qed.

Lemma healthy_path w1 w fs fs1 :
  w_db w = Some fs -> w_db w1 = Some fs1 -> w_app_id w1 = w_app_id w ->
  path_ok w = true -> path_ok w1 = true.
Proof.
  intros Hdb Hdb1 Happ. rewrite (path_ok_db _ _ Hdb), (path_ok_db _ _ Hdb1), Happ. auto.
Qed.

(** X1. On a store that carries out its calls, the settings written by
    [update_user_settings], a dict that the client can encode, are the
    settings [get_user_settings] reads next: the fields written, with the
    time of the write where the server's time was asked for, over the
    fields the document held before (the write merges).  The settings of
    the other users and every scheduled record stay as they were. *)
Theorem settings_written_are_read u s w :
  store_healthy w -> path_ok w = true -> writable s ->
  exists w1 w2,
    db_manager.update_user_settings u s w = (Ret tt, w1) /\
    db_manager.get_user_settings u w1
      = (Ret ((read_back (write_time w) <$> s) ∪ default ∅ (user_settings w u)), w2) /\
    (forall u', u' <> u -> user_settings w1 u' = user_settings w u') /\
    media_of w2 = media_of w.
Proof.
  intros (fs & Hdb & Hf) Hp Hw.
  destruct (update_user_settings_step u s w fs Hdb Hp) as (w1 & E1 & F1 & Hdb1).
  rewrite (encode_dict_writable s Hw), (pop_fault_healthy fs Hf) in Hdb1. cbn in Hdb1.
  destruct F1 as (Happ1 & _).
  destruct (get_user_settings_step u w1 _ Hdb1 (healthy_path _ _ _ _ Hdb Hdb1 Happ1 Hp))
    as (w2 & E2 & F2 & Hdb2).
  unfold pop_fault in E2, Hdb2. cbn in E2, Hdb2. rewrite Hf in E2, Hdb2. cbn in E2, Hdb2.
  exists w1, w2. split; [exact E1|]. split; [|split].
  - rewrite E2, Happ1, lookup_insert_eq, (user_settings_db u w fs Hdb). cbn.
    unfold write_time. rewrite Hdb. f_equal. f_equal. unfold to_dict.
    rewrite map_fmap_union. fold (to_dict (committed (fs_time fs (fs_writes fs))
                                             <$> omap encoded s)).
    rewrite (written_read_back _ s Hw).
    destruct (fs_settings fs !! _); reflexivity.
  - intros u' Hne. rewrite (user_settings_db u' w1 _ Hdb1), (user_settings_db u' w fs Hdb).
    cbn. rewrite Happ1. f_equal. apply lookup_insert_ne.
    intros [= E]. apply Hne. symmetry. exact (str_inj _ _ E).
  - unfold media_of. rewrite Hdb2, Hdb. reflexivity.
Qed.

Lemma five_minutes_writable : writable five_minutes.
Proof.
  unfold five_minutes.
  repeat (apply writable_insert; [discriminate | reflexivity |]). apply writable_empty.
Qed.

Lemma settings_written_are_read_witness :
  store_healthy sample_world /\
  exists w1 w2,
    db_manager.update_user_settings 42 five_minutes sample_world = (Ret tt, w1) /\
    db_manager.get_user_settings 42 w1
      = (Ret ((read_back (write_time sample_world) <$> five_minutes)
              ∪ default ∅ (user_settings sample_world 42)), w2) /\
    (forall u', u' <> 42 -> user_settings w1 u' = user_settings sample_world u') /\
    media_of w2 = media_of sample_world.
Proof.
  assert (H : store_healthy sample_world) by (eexists; split; reflexivity).
  split; [exact H|].
  exact (settings_written_are_read 42 five_minutes sample_world H eq_refl
           five_minutes_writable).
Defined.

(** The write of a count beyond 64 bits is refused by the client before it
    is sent, and the adapter logs the refusal and returns: nothing is
    stored. *)
Example too_large_a_count_is_not_stored :
  let s := <["delete_timer_minutes" := VInt (2 ^ 63)]> ∅ in
  let r := db_manager.update_user_settings 42 s sample_world in
  r.1 = Ret tt /\ settings_of r.2 = settings_of sample_world /\
  w_log r.2 = [(ERROR, "Error updating settings for user 42: Value out of range")].
Proof. vm_compute. repeat split. Qed.

(** X2. On a store that carries out its calls, [add_scheduled_media] with
    ids that a document can hold writes the record under the id the store
    draws and answers with the empty string; [get_all_scheduled_media] then
    lists the user's earlier records and the new one, which carries the six
    fields written, the time of the write under [created_at], and its id.
    The listings of the other users and the settings stay as they were. *)
Theorem added_media_is_listed u c m f ty t w :
  store_healthy w -> path_ok w = true ->
  int64 u = true -> int64 c = true -> int64 m = true ->
  exists items w1 w2,
    db_manager.add_scheduled_media u c m f ty (VStr t) w = (Ret EmptyString, w1) /\
    db_manager.get_all_scheduled_media u w1 = (Ret items, w2) /\
    items ≡ₚ List.map db_manager.item_of_doc (user_docs w u)
             ++ [<["id" := VStr (next_id w)]>
                   (to_dict (stored_media_fields u c m f ty t (write_time w)))] /\
    (forall u', u' <> u -> user_docs w1 u' = user_docs w u') /\
    settings_of w2 = settings_of w.
Proof.
  intros (fs & Hdb & Hf) Hp Hu Hc Hm.
  destruct (add_scheduled_media_step u c m f ty (VStr t) w fs Hdb Hp)
    as (w1 & E1 & F1 & Hdb1).
  destruct (media_fields_encoded u c m f ty t (fs_time fs (fs_writes fs)) Hu Hc Hm)
    as (data & Henc & Hcom).
  rewrite Henc, (pop_fault_healthy fs Hf) in Hdb1. cbn in Hdb1. rewrite Hcom in Hdb1.
  destruct F1 as (Happ1 & _).
  destruct (get_all_scheduled_media_step u w1 _ Hdb1
              (healthy_path _ _ _ _ Hdb Hdb1 Happ1 Hp)) as (w2 & E2 & F2 & Hdb2).
  unfold pop_fault in E2, Hdb2. cbn in E2, Hdb2. rewrite Hf in E2, Hdb2. cbn in E2, Hdb2.
  eexists _, w1, w2. split; [exact E1|]. split; [exact E2|]. split; [|split].
  - rewrite (user_docs_db u w1 _ Hdb1), (user_docs_db u w fs Hdb), Happ1. cbn.
    unfold next_id, write_time. rewrite Hdb.
    rewrite List.filter_app, List.map_app. cbn. unfold in_collection at 2. cbn.
    rewrite !bool_decide_eq_true_2 by reflexivity. reflexivity.
  - intros u' Hne.
    rewrite (user_docs_db u' w1 _ Hdb1), (user_docs_db u' w fs Hdb), Happ1. cbn.
    rewrite List.filter_app. cbn.
    rewrite (in_collection_other_user _ u u') by
      (try (intros E; apply Hne; symmetry; exact E);
       unfold in_collection; cbn; rewrite !bool_decide_eq_true_2 by reflexivity;
       reflexivity).
    apply app_nil_r.
  - unfold settings_of. rewrite Hdb2, Hdb. reflexivity.
Qed.

Lemma added_media_is_listed_witness :
  store_healthy sample_world /\
  exists items w1 w2,
    db_manager.add_scheduled_media 42 (-100) 8 "FILE1" "sticker" (VStr "08:00") sample_world
      = (Ret EmptyString, w1) /\
    db_manager.get_all_scheduled_media 42 w1 = (Ret items, w2) /\
    items ≡ₚ List.map db_manager.item_of_doc (user_docs sample_world 42)
             ++ [<["id" := VStr (next_id sample_world)]>
                   (to_dict (stored_media_fields 42 (-100) 8 "FILE1" "sticker" "08:00"
                               (write_time sample_world)))] /\
    (forall u', u' <> 42 -> user_docs w1 u' = user_docs sample_world u') /\
    settings_of w2 = settings_of sample_world.
Proof.
  assert (H : store_healthy sample_world) by (eexists; split; reflexivity).
  split; [exact H|].
  exact (added_media_is_listed 42 (-100) 8 "FILE1" "sticker" "08:00" sample_world H
           eq_refl eq_refl eq_refl eq_refl).
Defined.

Example added_record_as_listed :
  (db_manager.get_all_scheduled_media 42 scheduled_world).1
  = Ret [<["id" := VStr "abc123"]>
           (<["chat_id" := VInt (-100)]>
            (<["message_id" := VInt 8]>
             (<["media_file_id" := VStr "FILE1"]>
              (<["media_type" := VStr "sticker"]>
               (<["schedule_time" := VStr "08:00"]>
                (<["user_id" := VInt 42]>
                 (<["created_at" := VTimestamp 1704067200]> ∅)))))))].
Proof. vm_compute. reflexivity. Qed.

Lemma filter_own_after_delete path user id l :
  List.filter (in_collection path user)
    (List.filter (fun d => negb (in_collection path user d && bool_decide (md_id d = id))) l)
  = List.filter (fun d => negb (bool_decide (md_id d = id)))
      (List.filter (in_collection path user) l).
Proof.
  induction l as [|d l IH]; [reflexivity|]. cbn.
  destruct (in_collection path user d) eqn:Hc; cbn.
  - destruct (bool_decide (md_id d = id)); cbn; rewrite ?Hc, IH; reflexivity.
  - rewrite Hc. exact IH.
Qed.

Lemma filter_other_after_delete path u u' id l :
  u' <> u ->
  List.filter (in_collection path (Py.str u'))
    (List.filter (fun d => negb (in_collection path (Py.str u) d
                               && bool_decide (md_id d = id))) l)
  = List.filter (in_collection path (Py.str u')) l.
Proof.
  intros Hne. induction l as [|d l IH]; [reflexivity|]. cbn.
  destruct (in_collection path (Py.str u) d) eqn:Hc; cbn.
  - rewrite (in_collection_other_user path u u' d) by (try exact Hc; congruence).
    destruct (bool_decide (md_id d = id)); cbn;
      rewrite ?(in_collection_other_user path u u' d) by (try exact Hc; congruence);
      exact IH.
  - destruct (in_collection path (Py.str u') d); rewrite IH; reflexivity.
Qed.

(** X3. On a store that carries out its calls, after
    [delete_scheduled_media] the listing of the user holds the records it
    held before, in their order, without those under the deleted id.  The
    listings of the other users and the settings stay as they were. *)
Theorem deleted_media_is_not_listed u id w :
  path_ok w = true -> id_ok id = true ->
  store_healthy w ->
  exists w1 w2,
    db_manager.delete_scheduled_media u id w = (Ret tt, w1) /\
    db_manager.get_all_scheduled_media u w1
      = (Ret (List.map db_manager.item_of_doc
                (List.filter (fun d => negb (bool_decide (md_id d = id)))
                             (user_docs w u))), w2) /\
    (forall u', u' <> u -> user_docs w1 u' = user_docs w u') /\
    settings_of w2 = settings_of w.
Proof.
  intros Hp Hid (fs & Hdb & Hf).
  destruct (delete_scheduled_media_step u id w fs Hdb Hp Hid) as (w1 & E1 & F1 & Hdb1).
  rewrite (pop_fault_healthy fs Hf) in Hdb1. cbn in Hdb1.
  destruct F1 as (Happ1 & _).
  destruct (get_all_scheduled_media_step u w1 _ Hdb1
              (healthy_path _ _ _ _ Hdb Hdb1 Happ1 Hp)) as (w2 & E2 & F2 & Hdb2).
  unfold pop_fault in E2, Hdb2. cbn in E2, Hdb2. rewrite Hf in E2, Hdb2. cbn in E2, Hdb2.
  exists w1, w2. split; [exact E1|]. split; [|split].
  - rewrite E2. f_equal. f_equal. f_equal.
    rewrite (user_docs_db u w1 _ Hdb1), (user_docs_db u w fs Hdb), Happ1. cbn.
    apply filter_own_after_delete.
  - intros u' Hne.
    rewrite (user_docs_db u' w1 _ Hdb1), (user_docs_db u' w fs Hdb), Happ1. cbn.
    apply filter_other_after_delete, Hne.
  - unfold settings_of. rewrite Hdb2, Hdb. reflexivity.
Qed.

Lemma deleted_media_is_not_listed_witness :
  store_healthy scheduled_world /\
  exists w1 w2,
    db_manager.delete_scheduled_media 42 "abc123" scheduled_world = (Ret tt, w1) /\
    db_manager.get_all_scheduled_media 42 w1
      = (Ret (List.map db_manager.item_of_doc
                (List.filter (fun d => negb (bool_decide (md_id d = "abc123")))
                             (user_docs scheduled_world 42))), w2) /\
    (forall u', u' <> 42 -> user_docs w1 u' = user_docs scheduled_world u') /\
    settings_of w2 = settings_of scheduled_world.
Proof.
  assert (H : store_healthy scheduled_world) by (eexists; split; reflexivity).
  split; [exact H|].
  exact (deleted_media_is_not_listed 42 "abc123" scheduled_world eq_refl eq_refl H).
Defined.

(** ** Media extraction, sending and the deletion job *)

(** X5. [get_media_file_id] answers [(None, None)] exactly for a message that
    carries no sticker, no animation, no photo size and no video; for any
    other message it names the file and one of the four media types, the
    first present in the order sticker, animation, photo, video, and for a
    photo the file of the last size. *)
Theorem get_media_file_id_kinds message :
  (utils.get_media_file_id message = (None, None)
   <-> sticker message = None /\ animation message = None /\ photo message = []
       /\ video message = None) /\
  (forall f ty, utils.get_media_file_id message = (Some f, Some ty) ->
     (ty = "sticker" /\ sticker message = Some f) \/
     (ty = "gif" /\ sticker message = None /\ animation message = Some f) \/
     (ty = "photo" /\ sticker message = None /\ animation message = None
        /\ last (photo message) = Some f) \/
     (ty = "video" /\ sticker message = None /\ animation message = None
        /\ photo message = [] /\ video message = Some f)) /\
  (is_Some (utils.get_media_file_id message).1
   <-> is_Some (utils.get_media_file_id message).2).
Proof.
  unfold utils.get_media_file_id. split; [|split].
  - destruct (sticker message), (animation message), (last (photo message)) eqn:Hp,
      (video message); try apply last_None in Hp;
      (split; [intros [=] | intros (? & ? & Hph & ?)]); try discriminate; auto.
    rewrite Hph in Hp. discriminate Hp.
  - intros f ty.
    destruct (sticker message), (animation message), (last (photo message)) eqn:Hp,
      (video message); try apply last_None in Hp; intros [= <- <-]; tauto.
  - destruct (sticker message), (animation message), (last (photo message)),
      (video message); cbn; split; intros [? [=]] || intros _; eauto.
Qed.

(** X6. Whatever [get_media_file_id] extracts from a message,
    [send_media_by_type] called with the bot can send: the type it names has
    a send method, and while the transport accepts the call the file goes
    to the chat by that method, once, and the answer is [True]. *)
Theorem extracted_media_is_sendable message f ty chat_id w :
  utils.get_media_file_id message = (Some f, Some ty) ->
  tr_faults (w_bot w) = [] ->
  exists method w',
    send_method ty = Some method /\
    utils.send_media_by_type [chat_id; VStr f; VStr ty; VBot] w = (Ret true, w') /\
    tr_sent (w_bot w') = tr_sent (w_bot w) ++ [(method, chat_id, VStr f)] /\
    transport_frame w w' /\ w_log w' = w_log w.
Proof.
  intros Hg Hf.
  assert (Hty : ty = "sticker" \/ ty = "gif" \/ ty = "photo" \/ ty = "video").
  { unfold utils.get_media_file_id in Hg.
    destruct (sticker message), (animation message), (last (photo message)),
      (video message); simplify_eq; tauto. }
  unfold utils.send_media_by_type, utils.bot_send, try_except, mbind, M_bind,
    transport_call.
  destruct Hty as [-> | [-> | [-> | ->]]];
    repeat case_bool_decide; simplify_eq; cbn; rewrite Hf; cbn;
    eexists _, _; (split; [reflexivity|]); (split; [reflexivity|]);
    (split; [reflexivity|]); repeat split.
Qed.

Lemma extracted_media_is_sendable_witness :
  exists method w',
    send_method "sticker" = Some method /\
    utils.send_media_by_type [VInt (-100); VStr "FILE1"; VStr "sticker"; VBot] sample_world
      = (Ret true, w') /\
    tr_sent (w_bot w') = tr_sent (w_bot sample_world) ++ [(method, VInt (-100), VStr "FILE1")] /\
    transport_frame sample_world w' /\ w_log w' = w_log sample_world.
Proof.
  apply (extracted_media_is_sendable (sticker_message 42 (-100) 8) "FILE1" "sticker"
           (VInt (-100)) sample_world); reflexivity.
Defined.

(** X7. With its four arguments [send_media_by_type] never raises, whatever
    the arguments are and whatever the transport does: it answers [True]
    after exactly one send of the given file to the given chat, and [False]
    after none, with one log entry that says why. *)
Theorem send_media_by_type_never_raises chat_id media_file_id media_type bot_instance w :
  exists ok w',
    utils.send_media_by_type [chat_id; media_file_id; media_type; bot_instance] w
      = (Ret ok, w') /\
    transport_frame w w' /\
    (if ok
     then (exists method, tr_sent (w_bot w')
                          = tr_sent (w_bot w) ++ [(method, chat_id, media_file_id)])
          /\ w_log w' = w_log w
     else tr_sent (w_bot w') = tr_sent (w_bot w)
          /\ exists lv text, w_log w' = w_log w ++ [(lv, text)]).
Proof.
  unfold utils.send_media_by_type, utils.bot_send, try_except, mbind, M_bind,
    transport_call, log, raise, any_exception.
  repeat case_bool_decide; cbn;
    try (destruct bot_instance; cbn);
    try (destruct (tr_faults (w_bot w)) as [|[msg|] fl]; cbn);
    eexists _, _; (split; [reflexivity|]); cbn;
    (split; [repeat split|]); cbn; eauto.
Qed.

(** X8. With its three arguments [delete_message_job] never raises: it
    deletes the message it is bound to or, when the transport refuses,
    nothing; either way it writes one log entry, sends nothing and leaves
    the store, the job table and the conversational state alone. *)
Theorem delete_message_job_never_raises bot chat_id message_id w :
  exists w' lv text,
    jobs.delete_message_job [bot; chat_id; message_id] w = (Ret tt, w') /\
    w_log w' = w_log w ++ [(lv, text)] /\
    (lv = INFO /\ tr_deleted (w_bot w') = tr_deleted (w_bot w) ++ [(chat_id, message_id)]
     \/ lv = ERROR /\ tr_deleted (w_bot w') = tr_deleted (w_bot w)) /\
    tr_sent (w_bot w') = tr_sent (w_bot w) /\
    w_db w' = w_db w /\ w_sched w' = w_sched w /\ w_fsm w' = w_fsm w /\
    w_out w' = w_out w.
Proof.
  unfold jobs.delete_message_job, try_except, mbind, M_bind, transport_call, log, raise,
    any_exception.
  destruct bot; cbn;
    try (destruct (tr_faults (w_bot w)) as [|[msg|] fl]; cbn);
    eexists _, _, _; (split; [reflexivity|]); cbn;
    (split; [reflexivity|]); (split; [tauto|]); repeat split.
Qed.

(** ** Deletion flow, further *)

Lemma set_delete_timer_arms_witness :
  exists w', handlers.set_delete_timer_command (command 42 (-100) "/set_delete_timer 5")
               sample_world = (Ret tt, w') /\
    armed w' 42 (-100) 5 /\
    fsm_state (w_fsm w') = Some waiting_for_delete_duration /\
    w_out w' = w_out sample_world ++ [handlers.timer_set_text 5].
Proof.
  apply (set_delete_timer_arms (command 42 (-100) "/set_delete_timer 5") sample_world
           "/set_delete_timer" "5" [] 5).
  - exists sample_store. split; reflexivity.
  - reflexivity.
  - intros s Hs. vm_compute in Hs. discriminate Hs.
  - reflexivity.
  - reflexivity.
  - lia.
  - reflexivity.
  - reflexivity.
Defined.

(** X10. [set_delete_timer] with a count that is not a number, or that is
    zero or negative, answers with the matching notice and changes nothing
    else: no setting is written and the conversational state stays. *)
Theorem set_delete_timer_refuses message w cmd arg rest :
  Py.split_maxsplit1 (msg_text message) = cmd :: arg :: rest ->
  (forall m, Py.int arg = Some m -> m <= 0) ->
  handlers.set_delete_timer_command message w
  = (Ret tt,
     set_out (w_out w ++ [match Py.int arg with
                          | Some _ => handlers.positive_minutes_please
                          | None => handlers.invalid_number
                          end]) w).
Proof.
  intros Hs Hm. unfold handlers.set_delete_timer_command. rewrite Hs.
  unfold try_except, mbind, M_bind, lift_res, int_or_raise.
  destruct (Py.int arg) as [m|] eqn:E.
  - rewrite (proj2 (Z.leb_le m 0) (Hm m eq_refl)). reflexivity.
  - reflexivity.
Qed.

Lemma set_delete_timer_refuses_witness :
  handlers.set_delete_timer_command (command 42 (-100) "/set_delete_timer -3") sample_world
  = (Ret tt, set_out (w_out sample_world ++ [match Py.int "-3" with
                          | Some _ => handlers.positive_minutes_please
                          | None => handlers.invalid_number
                          end]) sample_world).
Proof.
  apply (set_delete_timer_refuses (command 42 (-100) "/set_delete_timer -3") sample_world
           "/set_delete_timer" "-3" []).
  - reflexivity.
  - intros m H. vm_compute in H. injection H as <-. lia.
Defined.

(** The separators U+001C to U+001F end a word for [split] and are no
    blank for [int]: a count followed by one is no number. *)
Example separator_after_the_count :
  let fs := String (ascii_of_nat 28) EmptyString in
  handlers.set_delete_timer_command
    (command 42 (-100) ("/set_delete_timer 5" +:+ fs)) sample_world
  = (Ret tt, set_out [handlers.invalid_number] sample_world).
Proof. reflexivity. Qed.








Lemma cancel_without_timer_witness :
  exists w', handlers.cancel_delete_timer_command (command 42 (-100) "/cancel_delete_timer")
               sample_world = (Ret tt, w') /\
    w_out w' = w_out sample_world ++ [handlers.no_active_timer] /\
    w_fsm w' = w_fsm sample_world /\ settings_of w' = settings_of sample_world.
Proof.
  apply (cancel_without_timer (command 42 (-100) "/cancel_delete_timer") sample_world);
    [reflexivity|].
  intros s Hs. vm_compute in Hs. discriminate Hs.
Defined.

(** X15. The id of a deletion job determines the chat, the message and the
    time stamp it was built from: two deletion jobs share an id only when
    they are for the same message of the same chat at the same reading of
    the clock. *)
Theorem deletion_job_id_determines_message c1 m1 s1 c2 m2 s2 :
  handlers.delete_job_id c1 m1 s1 = handlers.delete_job_id c2 m2 s2 ->
  c1 = c2 /\ m1 = m2 /\ s1 = s2.
Proof.
  unfold handlers.delete_job_id. intros H.
  apply append_cancel_l in H.
  assert (Hc : c1 = c2).
  { apply str_inj. eapply append_underscore_inj; eauto using str_no_underscore. }
  subst c2. apply append_cancel_l in H. cbn in H. injection H as H.
  assert (Hm : m1 = m2).
  { apply str_inj. eapply append_underscore_inj; eauto using str_no_underscore. }
  subst m2. apply append_cancel_l, append_cancel_l, append_cancel_l in H.
  auto.
Qed.

Lemma deletion_job_id_determines_message_witness :
  handlers.delete_job_id (-100) 8 "1704067201.0"
  = handlers.delete_job_id (-100) 8 "1704067201.0" /\
  ((-100) = (-100) /\ 8 = 8 /\ "1704067201.0" = "1704067201.0").
Proof.
  split; [reflexivity|].
  apply (deletion_job_id_determines_message (-100) 8 "1704067201.0"
           (-100) 8 "1704067201.0").
  reflexivity.
Defined.

(** ** Scheduling and cancellation, further *)

Lemma accepted_time_is_stored_witness :
  exists w', handlers.schedule_media_command (command 42 (-100) "/schedule_media 9:30")
               sample_world = (Ret tt, w') /\
    fsm_state (w_fsm w') = Some waiting_for_scheduled_media /\
    fsm_data (w_fsm w') !! "schedule_time_str" = Some (VStr "9:30") /\
    w_out w' = w_out sample_world ++ [handlers.time_accepted "9:30"] /\
    w_sched w' = w_sched sample_world.
Proof.
  apply (accepted_time_is_stored (command 42 (-100) "/schedule_media 9:30") sample_world
           "/schedule_media" "9:30" [] 9 30); reflexivity.
Defined.


Lemma cancel_owned_id_witness :
  exists w', handlers.process_cancel_schedule_id
               (command 42 (-100) "/cancel_schedule abc123") scheduled_world
             = (Ret tt, w') /\
    w_out w' = w_out scheduled_world ++ [handlers.cancelled_ok "abc123"] /\
    (forall d, d ∈ user_docs w' 42 -> md_id d <> "abc123") /\
    Sched.get_job (w_sched w') (send_job_id "abc123") = None /\
    (forall id', id' <> send_job_id "abc123" ->
       Sched.get_job (w_sched w') id' = Sched.get_job (w_sched scheduled_world) id').
Proof.
  apply (cancel_owned_id (command 42 (-100) "/cancel_schedule abc123") scheduled_world
           "/cancel_schedule" "abc123" []).
  - reflexivity.
  - reflexivity.
  - reflexivity.
  - exists (store_of scheduled_world). split; reflexivity.
  - eexists. split; [apply list_elem_of_In; vm_compute; left; reflexivity | reflexivity].
Defined.

(** X18. A message without media, or with an empty file id, while the user
    awaits the media to schedule is answered with the list of supported
    kinds and changes nothing else: the user still awaits the media, the
    schedule time stays pending, no record is created and no job
    registered. *)
Theorem unsupported_media_keeps_waiting message w :
  truthy (fsm_data (w_fsm w) !! "schedule_time_str") = true ->
  truthy (VStr <$> (utils.get_media_file_id message).1) = false ->
  handlers.handle_scheduled_media message w
  = (Ret tt, set_out (w_out w ++ [handlers.unsupported_media]) w).
Proof.
  intros Ht Hm. unfold handlers.handle_scheduled_media, state_get_data, mbind, M_bind.
  rewrite Ht. cbn [negb].
  destruct (utils.get_media_file_id message) as [fid ty]. cbn [fst] in Hm.
  rewrite Hm. reflexivity.
Qed.

Lemma unsupported_media_keeps_waiting_witness :
  let w := after (handlers.schedule_media_command
                    (command 42 (-100) "/schedule_media 08:00")) sample_world in
  handlers.handle_scheduled_media (command 42 (-100) "hello") w
  = (Ret tt, set_out (w_out w ++ [handlers.unsupported_media]) w).
Proof.
  intros w.
  apply (unsupported_media_keeps_waiting (command 42 (-100) "hello") w); reflexivity.
Defined.






(** X21. A command text with no argument after the command word:
    [set_delete_timer] and [schedule_media] answer with their usage text and
    change nothing else, while [process_cancel_schedule_id] raises
    [IndexError] at [split(maxsplit=1)[1]] before it reads anything. *)
Theorem commands_without_argument message w :
  (List.length (Py.split_maxsplit1 (msg_text message)) <= 1)%nat ->
  handlers.set_delete_timer_command message w
  = (Ret tt, set_out (w_out w ++ [handlers.set_delete_timer_usage]) w) /\
  handlers.schedule_media_command message w
  = (Ret tt, set_out (w_out w ++ [handlers.schedule_media_usage]) w) /\
  handlers.process_cancel_schedule_id message w
  = (Raise (Exn IndexError "list index out of range"), w).
Proof.
  intros Hl.
  unfold handlers.set_delete_timer_command, handlers.schedule_media_command,
    handlers.process_cancel_schedule_id.
  destruct (Py.split_maxsplit1 (msg_text message)) as [|a [|b l]];
    cbn in Hl; try lia; repeat split.
Qed.

Lemma commands_without_argument_witness :
  let message := command 42 (-100) "/schedule_media   " in
  handlers.set_delete_timer_command message sample_world
  = (Ret tt, set_out (w_out sample_world ++ [handlers.set_delete_timer_usage])
               sample_world) /\
  handlers.schedule_media_command message sample_world
  = (Ret tt, set_out (w_out sample_world ++ [handlers.schedule_media_usage])
               sample_world) /\
  handlers.process_cancel_schedule_id message sample_world
  = (Raise (Exn IndexError "list index out of range"), sample_world).
Proof.
  intros message. apply (commands_without_argument message sample_world).
  vm_compute. lia.
Defined.

(** ** Reading back a rendered integer *)

Lemma rev_string_rev s : forall a b,
  Py.rev_string b (Py.rev_string a s) = Py.rev_string (s +:+ b) a.
Proof.
  induction s as [|c s IH]; intros a b; cbn; [reflexivity|].
  rewrite IH. reflexivity.
Qed.

Lemma append_empty_r s : s +:+ EmptyString = s.
Proof.
  induction s as [|c s IH]; [reflexivity|].
  change (String c (s +:+ EmptyString) = String c s). f_equal. exact IH.
Qed.

Lemma int_space_is_space c : Py.is_space c = false -> Py.is_int_space c = false.
Proof.
  destruct c as [[] [] [] [] [] [] [] []]; vm_compute; intros H;
    first [reflexivity | discriminate H].
Qed.

Lemma drop_spaces_plain s : plain s = true -> Py.drop_int_spaces s = s.
Proof.
  destruct s as [|c s]; cbn; [reflexivity|]. intros H.
  apply andb_true_iff in H as [H _]. apply negb_true_iff in H.
  rewrite (int_space_is_space c H). reflexivity.
Qed.

Lemma plain_rev s : forall acc,
  plain s = true -> plain acc = true -> plain (Py.rev_string acc s) = true.
Proof.
  induction s as [|c s IH]; intros acc Hs Ha; cbn in *; [exact Ha|].
  apply andb_true_iff in Hs as [Hc Hs]. apply IH; [exact Hs|].
  cbn. rewrite Hc, Ha. reflexivity.
Qed.

Lemma strip_plain s : plain s = true -> Py.int_strip s = s.
Proof.
  intros H. unfold Py.int_strip. rewrite (drop_spaces_plain s H).
  rewrite drop_spaces_plain by (apply plain_rev; [exact H | reflexivity]).
  rewrite rev_string_rev. cbn. apply append_empty_r.
Qed.

Lemma uint_plain d : plain (NilEmpty.string_of_uint d) = true.
Proof. induction d; cbn; auto. Qed.

Lemma str_plain z : plain (Py.str z) = true.
Proof.
  unfold Py.str, NilZero.string_of_int, NilZero.string_of_uint.
  destruct (Z.to_int z) as [d|d]; destruct d; cbn; try reflexivity; apply uint_plain.
Qed.

Ltac next_digit :=
  match goal with
  | |- (if Py.is_digit ?c then Py.int_digits (_ + Py.digit_val ?c) _ else _) = _ =>
      change (Py.is_digit c) with true; cbv iota;
      let v := eval vm_compute in (Py.digit_val c) in
      change (Py.digit_val c) with v
  end;
  match goal with
  | |- Py.int_digits ?x _ = Some (Z.pos (Pos.of_uint_acc _ ?p)) =>
      replace x with (Z.pos p) by lia
  end.

Lemma int_digits_uint_acc d : forall acc,
  Py.int_digits (Z.pos acc) (NilEmpty.string_of_uint d)
  = Some (Z.pos (Pos.of_uint_acc d acc)).
Proof.
  induction d; intros acc; cbn -[Z.mul Z.add Pos.mul Pos.add]; try reflexivity;
    next_digit; apply IHd.
Qed.

Lemma int_digits_uint d :
  Py.int_digits 0 (NilEmpty.string_of_uint d) = Some (Z.of_N (Pos.of_uint d)).
Proof.
  induction d; cbn -[Z.mul Z.add Pos.mul Pos.add]; try reflexivity;
    [exact IHd | next_digit; apply int_digits_uint_acc ..].
Qed.

Lemma int_body_uint d :
  d <> Decimal.Nil ->
  Py.int_body (NilEmpty.string_of_uint d) = Some (Z.of_N (Pos.of_uint d)).
Proof.
  intros Hd. pose proof (int_digits_uint d) as H.
  destruct d; try congruence; cbn -[Z.mul Z.add] in *; exact H.
Qed.

Lemma int_body_pos p :
  Py.int_body (NilEmpty.string_of_uint (Pos.to_uint p)) = Some (Z.pos p).
Proof.
  rewrite int_body_uint by apply DecimalPos.Unsigned.to_uint_nonnil.
  rewrite DecimalPos.Unsigned.of_to. reflexivity.
Qed.

(** An integer rendered by [str] is read back by [int], as long as it stays
    within the digits that [int] accepts. *)
Lemma int_str z :
  (Py.count_digits (Py.str z) <= Py.max_str_digits)%nat ->
  Py.int (Py.str z) = Some z.
Proof.
  intros Hn. unfold Py.int. rewrite (strip_plain _ (str_plain z)).
  cbv zeta. rewrite (proj2 (Nat.ltb_ge _ _) Hn).
  unfold Py.str in *. destruct z as [|p|p]; cbn [Z.to_int]; [reflexivity| |].
  - unfold NilZero.string_of_int, NilZero.string_of_uint.
    destruct (Pos.to_uint p) eqn:Hp;
      try (exfalso; exact (DecimalPos.Unsigned.to_uint_nonnil _ Hp));
      rewrite <- Hp; pose proof (int_body_pos p) as Hb; rewrite Hp in *;
      cbn -[Py.int_body] in *; exact Hb.
  - unfold NilZero.string_of_int, NilZero.string_of_uint.
    destruct (Pos.to_uint p) eqn:Hp;
      try (exfalso; exact (DecimalPos.Unsigned.to_uint_nonnil _ Hp));
      rewrite <- Hp; cbn -[Py.int_body]; rewrite int_body_pos; reflexivity.
Qed.

(** ** Startup reconciliation, further *)

Ltac one_entry := eexists _, _; reflexivity.

(** The loop body writes one log entry and touches nothing else. *)
Lemma reschedule_doc_logs globals bot acc doc w :
  exists lv text,
    main.reschedule_doc globals bot acc doc w
    = (Ret (step globals bot acc doc), set_log (w_log w ++ [(lv, text)]) w).
Proof.
  unfold main.reschedule_doc, step, job_of_doc, try_except, mbind, M_bind, lift_res,
    main.load_global.
  destruct (int_or_raise (md_user doc)) as [u|e]; cbn -[forallb].
  2: { destruct (only ValueError e); cbn; one_entry. }
  destruct (forallb _ _); cbn.
  2: { one_entry. }
  destruct (hour_minute_of _) as [[h m]|e]; cbn.
  2: { destruct (only ValueError e); cbn; one_entry. }
  destruct (bool_decide ("CronTrigger" ∈ globals)); cbn.
  2: { one_entry. }
  destruct (Sched.cron_trigger h m 0) as [trig|e]; cbn.
  2: { destruct (only ValueError e); cbn; one_entry. }
  destruct (bool_decide ("send_scheduled_media_job" ∈ globals)); cbn.
  2: { one_entry. }
  rewrite add_job_replace. cbn. one_entry.
Qed.

Lemma for_each_logs globals bot docs : forall acc w,
  exists entries,
    main.for_each (main.reschedule_doc globals bot) acc docs w
    = (Ret (fold_left (step globals bot) docs acc), set_log (w_log w ++ entries) w)
    /\ List.length entries = List.length docs.
Proof.
  induction docs as [|d docs IH]; intros acc w; cbn.
  - exists []. rewrite app_nil_r. destruct w; split; reflexivity.
  - destruct (reschedule_doc_logs globals bot acc d w) as (lv & text & E).
    unfold mbind, M_bind. rewrite E.
    destruct (IH (step globals bot acc d) (set_log (w_log w ++ [(lv, text)]) w))
      as (entries & E2 & Hl).
    exists ((lv, text) :: entries). rewrite E2. cbn. rewrite <- app_assoc.
    split; [reflexivity | lia].
Qed.

(** X22. Startup reconciliation never raises and writes nothing but the
    log, whatever names main.py binds: stored documents, transport, replies,
    conversational state and the handlers' job table stay as they were.
    When the store client is missing or the scan is refused, the scheduler
    passed in is returned unchanged; when the scan is answered, every stored
    record is visited, each leaving exactly one log entry between the
    opening and the closing one, whatever the records hold. *)
Theorem reconciliation_only_logs globals bot s w :
  exists s' w',
    main.load_and_reschedule_media globals bot s w = (Ret s', w') /\
    media_of w' = media_of w /\ settings_of w' = settings_of w /\
    w_bot w' = w_bot w /\ w_out w' = w_out w /\ w_fsm w' = w_fsm w /\
    w_sched w' = w_sched w /\
    (store_fails w = true -> s' = s) /\
    (store_fails w = false ->
     List.length (w_log w')
     = (List.length (w_log w) + 2 + List.length (default [] (media_of w)))%nat).
Proof.
  unfold main.load_and_reschedule_media, mbind, M_bind, try_except, store_call, log,
    media_of, settings_of, store_fails, pop_fault.
  destruct (w_db w) as [fs|] eqn:Hdb; cbn; rewrite ?Hdb.
  2: { eexists _, _. split; [reflexivity|]. cbn. rewrite ?Hdb.
       repeat split; discriminate. }
  destruct (fs_faults fs) as [|[msg|] fl] eqn:Hf; cbn.
  - match goal with |- context [main.for_each ?b ?a ?l ?w0] =>
      destruct (for_each_logs globals bot l a w0) as (entries & E & Hl) end.
    rewrite E. cbn.
    destruct (fold_left _ _ _) as [s1 n]. cbn.
    eexists _, _. split; [reflexivity|]. cbn. rewrite ?Hdb. cbn.
    repeat split; try discriminate.
    intros _. rewrite !length_app, Hl. cbn. lia.
  - eexists _, _. split; [reflexivity|]. cbn.
    repeat split; discriminate.
  - match goal with |- context [main.for_each ?b ?a ?l ?w0] =>
      destruct (for_each_logs globals bot l a w0) as (entries & E & Hl) end.
    rewrite E. cbn.
    destruct (fold_left _ _ _) as [s1 n]. cbn.
    eexists _, _. split; [reflexivity|]. cbn.
    repeat split; try discriminate.
    intros _. rewrite !length_app, Hl. cbn. lia.
Qed.

Lemma media_fields_lookup u c mid f ty t now :
  let item := to_dict (stored_media_fields u c mid f ty t now) in
  item !! "chat_id" = Some (VInt c) /\ item !! "media_file_id" = Some (VStr f) /\
  item !! "media_type" = Some (VStr ty) /\ item !! "schedule_time" = Some (VStr t) /\
  item !! "user_id" = Some (VInt u) /\ item !! "message_id" = Some (VInt mid) /\
  item !! "created_at" = Some (VTimestamp now).
Proof.
  unfold to_dict, stored_media_fields. cbv zeta. rewrite !fmap_insert. cbn [to_py].
  repeat split;
    repeat (rewrite lookup_insert_ne by discriminate); apply lookup_insert_eq.
Qed.

(** The record that [add_scheduled_media] writes yields, at reconciliation,
    the daily job of its time, chat and file, when the names the loop body
    uses are bound. *)
Lemma job_of_written_doc globals bot path sid u c mid f ty t now h mi :
  (Py.count_digits (Py.str u) <= Py.max_str_digits)%nat ->
  Py.strptime_HM t = Some (h, mi) ->
  job_of_doc globals bot
    {| md_users_path := path; md_user := Py.str u; md_id := sid;
       md_fields := stored_media_fields u c mid f ty t now |}
  = if bool_decide ("CronTrigger" ∈ globals)
       && bool_decide ("send_scheduled_media_job" ∈ globals)
    then Some (send_job_id sid,
               send_job (CronTrigger h mi 0) bot (VInt u) (VInt c) (VStr f) (VStr ty)
                        (VStr sid))
    else None.
Proof.
  intros Hu Ht. destruct (strptime_hour_minute t h mi Ht) as (Hp & Hh & Hm).
  destruct (media_fields_lookup u c mid f ty t now) as (Hc & Hf & Hty & Hst & _).
  unfold job_of_doc, int_or_raise. cbn [md_user md_fields md_id].
  rewrite (int_str u Hu).
  replace (forallb _ main.required_fields) with true.
  2: { symmetry. apply forallb_forall. intros k Hk. apply bool_decide_eq_true_2.
       cbn in Hk. destruct Hk as [<-|[<-|[<-|[<-|[]]]]]; eauto. }
  unfold main.field. rewrite Hc, Hf, Hty, Hst. cbn [default]. unfold id.
  rewrite Hp, (cron_trigger_ok h mi Hh Hm).
  destruct (bool_decide ("CronTrigger" ∈ globals)),
    (bool_decide ("send_scheduled_media_job" ∈ globals)); reflexivity.
Qed.

(** X23. What the scheduling flow stores is what reconciliation reads.  The
    record that [add_scheduled_media] writes, for ids that a document can
    hold, a user id that [int] can read back and a time text that
    [strptime] accepts, passes every check of the reconciliation loop body:
    the user id is read back from the path, the four required fields are
    there and the time splits into an hour and a minute in range.  So the
    body registers, under the job id of the record, the daily job at that
    hour and minute with the stored user, chat, file and type when
    [CronTrigger] and [send_scheduled_media_job] are bound in the module,
    and leaves the table as it is when one of them is not. *)
Theorem written_record_is_read_back globals bot u c mid f ty t h mi w fs :
  w_db w = Some fs -> fs_faults fs = [] -> path_ok w = true ->
  int64 u = true -> int64 c = true -> int64 mid = true ->
  (Py.count_digits (Py.str u) <= Py.max_str_digits)%nat ->
  Py.strptime_HM t = Some (h, mi) ->
  exists w1 d,
    db_manager.add_scheduled_media u c mid f ty (VStr t) w = (Ret EmptyString, w1) /\
    media_of w1 = Some (fs_media fs ++ [d]) /\
    md_id d = fs_auto_id fs (fs_added fs) /\
    forall acc w2, exists lv text,
      main.reschedule_doc globals bot acc d w2
      = (Ret (if bool_decide ("CronTrigger" ∈ globals)
                 && bool_decide ("send_scheduled_media_job" ∈ globals)
              then (upsert (send_job_id (md_id d))
                      (send_job (CronTrigger h mi 0) bot (VInt u) (VInt c) (VStr f)
                                (VStr ty) (VStr (md_id d))) acc.1,
                    acc.2 + 1)
              else acc),
         set_log (w_log w2 ++ [(lv, text)]) w2).
Proof.
  intros Hdb Hfl Hp Hu64 Hc64 Hm64 Hu Ht.
  destruct (add_scheduled_media_step u c mid f ty (VStr t) w fs Hdb Hp)
    as (w1 & E & F & Hdb1).
  destruct (media_fields_encoded u c mid f ty t (fs_time fs (fs_writes fs))
              Hu64 Hc64 Hm64) as (data & Henc & Hcom).
  rewrite Henc, (pop_fault_healthy fs Hfl) in Hdb1. cbn [fst snd] in Hdb1.
  unfold collection_add in Hdb1. rewrite Hcom in Hdb1. cbn [snd] in Hdb1.
  eexists w1, _. split; [exact E|].
  split; [unfold media_of; rewrite Hdb1; reflexivity|].
  split; [reflexivity|].
  intros acc w2. cbn [md_id].
  match goal with |- context [main.reschedule_doc _ _ _ ?d0 _] =>
    destruct (reschedule_doc_logs globals bot acc d0 w2) as (lv & text & E2) end.
  exists lv, text. rewrite E2. unfold step.
  rewrite (job_of_written_doc globals bot _ _ u c mid f ty t _ h mi Hu Ht).
  destruct (_ && _); reflexivity.
Qed.

Lemma written_record_is_read_back_witness :
  exists w1 d,
    db_manager.add_scheduled_media 42 (-100) 8 "FILE1" "sticker" (VStr "08:00")
      sample_world = (Ret EmptyString, w1) /\
    media_of w1 = Some (fs_media sample_store ++ [d]) /\
    md_id d = fs_auto_id sample_store (fs_added sample_store) /\
    forall acc w2, exists lv text,
      main.reschedule_doc repaired_globals VBot acc d w2
      = (Ret (if bool_decide ("CronTrigger" ∈ repaired_globals)
                 && bool_decide ("send_scheduled_media_job" ∈ repaired_globals)
              then (upsert (send_job_id (md_id d))
                      (send_job (CronTrigger 8 0 0) VBot (VInt 42) (VInt (-100))
                                (VStr "FILE1") (VStr "sticker") (VStr (md_id d))) acc.1,
                    acc.2 + 1)
              else acc),
         set_log (w_log w2 ++ [(lv, text)]) w2).
Proof.
  apply (written_record_is_read_back repaired_globals VBot 42 (-100) 8 "FILE1"
           "sticker" "08:00" 8 0 sample_world sample_store).
  - reflexivity.
  - reflexivity.
  - reflexivity.
  - reflexivity.
  - reflexivity.
  - reflexivity.
  - vm_compute. lia.
  - reflexivity.
Defined.

(** ** The start command *)

(** X24. [/start] greets and stops there: the conversational state is
    cleared and the greeting sent, by the username when the user has a
    non-empty one and by the first name otherwise; then the evaluation of
    [firestore.SERVER_TIMESTAMP] raises [NameError], for handlers.py binds
    no name [firestore].  The settings are never written and the message
    with the user id is never sent. *)
Theorem start_greets_then_raises_NameError message from_user w :
  let name := match username from_user with
              | Some n => if bool_decide (n = EmptyString) then first_name from_user
                          else n
              | None => first_name from_user
              end in
  handlers_start.command_start_handler message from_user w
  = (Raise (Exn NameError "name 'firestore' is not defined"),
     set_out (w_out w ++ [handlers_start.greeting name]) (set_fsm idle w)).
Proof.
  unfold handlers_start.command_start_handler, mbind, M_bind, state_clear, reply,
    main.load_global.
  replace (bool_decide ("firestore" ∈ handlers_start.handlers_globals)) with false
    by (vm_compute; reflexivity).
  cbn. destruct (username from_user) as [n|]; cbn; [|reflexivity].
  case_bool_decide; reflexivity.
Qed.

Example start_with_an_empty_username :
  (handlers_start.command_start_handler (command 42 (-100) "/start")
     {| username := Some EmptyString; first_name := "Ada" |} sample_world).2
  = set_out [handlers_start.greeting "Ada"] sample_world.
Proof. reflexivity. Qed.

(** ** Runs of the handlers *)

(** *** The client and the application id stay *)

































(** *** The pending data and the job table *)

Lemma effect_same w w' :
  w_fsm w' = w_fsm w -> w_sched w' = w_sched w -> effect w w'.
Proof. intros Hf Hs. split; [left; rewrite Hf | left; rewrite Hs]; reflexivity. Qed.

Ltac same := apply effect_same; (reflexivity || (cbn; congruence)).
Ltac cleared := split; [right; left; reflexivity | left; cbn; congruence].

Lemma start_effect message from_user w :
  effect w (after (handlers_start.command_start_handler message from_user) w).
Proof.
  unfold after, handlers_start.command_start_handler, mbind, M_bind, state_clear, reply,
    main.load_global.
  replace (bool_decide ("firestore" ∈ handlers_start.handlers_globals)) with false
    by (vm_compute; reflexivity).
  cbn. cleared.
Qed.

Lemma set_delete_timer_effect message w :
  effect w (after (handlers.set_delete_timer_command message) w).
Proof.
  unfold after, handlers.set_delete_timer_command.
  destruct (Py.split_maxsplit1 (msg_text message)) as [|a [|b l]]; try (cbn; same).
  unfold try_except, mbind, M_bind, lift_res, int_or_raise.
  destruct (Py.int b) as [m|]; [|cbn; same].
  destruct (m <=? 0); [cbn; same|].
  destruct (get_user_settings_cases (from_user_id message) w)
    as (r1 & w1 & E1 & F1 & _).
  rewrite E1. pose proof F1 as (_ & Hs1 & Hf1 & _).
  destruct r1 as [v|e]; [|destruct (only ValueError e); cbn; same].
  cbv zeta.
  match goal with |- context [db_manager.update_user_settings ?u ?s w1] =>
    destruct (update_user_settings_cases u s w1) as (r2 & w2 & E2 & F2 & _) end.
  rewrite E2.
  pose proof (frame_trans _ _ _ F1 F2) as (_ & Hs & Hf & _).
  destruct r2 as [[]|e]; [|destruct (only ValueError e); cbn; same].
  unfold state_set_state, reply. cbn.
  split; [left; cbn; rewrite Hf; reflexivity | left; cbn; exact Hs].
Qed.

Lemma cancel_delete_timer_effect message w :
  effect w (after (handlers.cancel_delete_timer_command message) w).
Proof.
  unfold after, handlers.cancel_delete_timer_command, mbind at 1, M_bind at 1.
  destruct (get_user_settings_cases (from_user_id message) w)
    as (r1 & w1 & E1 & F1 & _).
  rewrite E1. pose proof F1 as (_ & Hs1 & Hf1 & _).
  destruct r1 as [v|e]; [|cbn; same].
  case_bool_decide; cbv zeta.
  - unfold mbind, M_bind.
    match goal with |- context [db_manager.update_user_settings ?u ?s w1] =>
      destruct (update_user_settings_cases u s w1) as (r2 & w2 & E2 & F2 & _) end.
    rewrite E2. pose proof (frame_trans _ _ _ F1 F2) as (_ & Hs & Hf & _).
    destruct r2 as [[]|e]; [|cbn; same].
    unfold state_clear, reply. cbn. cleared.
  - unfold reply. cbn. same.
Qed.

Lemma media_for_deletion_effect message w :
  effect w (after (handlers.handle_media_for_deletion message) w).
Proof.
  unfold after, handlers.handle_media_for_deletion, mbind at 1, M_bind at 1.
  destruct (get_user_settings_cases (from_user_id message) w)
    as (r1 & w1 & E1 & F1 & _).
  rewrite E1. pose proof F1 as (_ & Hs1 & Hf1 & _).
  destruct r1 as [v|e]; [|cbn; same].
  cbv zeta.
  destruct (_ || _).
  { unfold mbind, M_bind, reply, state_clear. cbn. cleared. }
  unfold mbind, M_bind, now, lift_res.
  destruct (handlers.timedelta_of _) as [d|e]; [|cbn; same].
  destruct (Py.datetime_add _ d) as [r|e]; [|cbn; same].
  unfold handlers.scheduler_add_job, Sched.add_pending_job. cbn.
  split; [left; cbn; rewrite Hf1; reflexivity|].
  right; left. cbn. rewrite Hs1. eexists _, _. split; [|reflexivity]. reflexivity.
Qed.

Lemma schedule_media_effect message w :
  effect w (after (handlers.schedule_media_command message) w).
Proof.
  unfold after, handlers.schedule_media_command.
  destruct (Py.split_maxsplit1 (msg_text message)) as [|a [|t l]]; try (cbn; same).
  unfold try_except, mbind, M_bind, lift_res, handlers.strptime_or_raise.
  destruct (Py.strptime_HM t) as [[h m]|] eqn:Ht; [|cbn; same].
  cbn. split; [|left; reflexivity].
  right; right. exists t, h, m. split; [exact Ht | reflexivity].
Qed.

Lemma scheduled_media_effect message w :
  effect w (after (handlers.handle_scheduled_media message) w).
Proof.
  unfold after, handlers.handle_scheduled_media, state_get_data, mbind at 1, M_bind at 1.
  destruct (negb (truthy _)).
  { unfold mbind, M_bind, reply, state_clear. cbn. cleared. }
  destruct (utils.get_media_file_id message) as [fid ty].
  destruct (negb (truthy (VStr <$> fid))); [cbn; same|].
  cbv zeta.
  match goal with |- context [db_manager.add_scheduled_media ?u ?c ?m ?f ?y ?t] =>
    destruct (add_scheduled_media_cases u c m f y t w) as (r & w1 & E1 & F1 & _ & H) end.
  unfold mbind at 1, M_bind at 1. unfold mbind at 1, M_bind at 1. rewrite E1.
  pose proof F1 as (_ & Hs1 & Hf1 & _).
  destruct r as [sid|e]; [|cbn; same].
  destruct H as (_ & -> & _).
  change (truthy (Some (VStr EmptyString))) with false. cbv iota.
  unfold mbind, M_bind, reply, state_clear. cbn. cleared.
Qed.

Lemma cancel_schedule_effect message w :
  effect w (after (handlers.process_cancel_schedule_id message) w).
Proof.
  unfold after, handlers.process_cancel_schedule_id.
  destruct (Py.split_maxsplit1 (msg_text message)) as [|a [|id l]]; try (cbn; same).
  destruct (get_all_scheduled_media_cases (from_user_id message) w)
    as (r1 & w1 & E1 & F1 & _).
  unfold mbind at 1, M_bind at 1. rewrite E1. pose proof F1 as (_ & Hs1 & Hf1 & _).
  destruct r1 as [items|e]; [|cbn; same].
  destruct (negb (handlers.found_in items id)); [cbn; same|].
  destruct (delete_scheduled_media_cases (from_user_id message) id w1)
    as (r2 & w2 & E2 & F2 & _).
  pose proof (frame_trans _ _ _ F1 F2) as (_ & Hs & Hf & _).
  unfold try_except, mbind, M_bind. rewrite E2.
  destruct r2 as [[]|e]; [|cbn; same].
  unfold handlers.scheduler_get_job, handlers.scheduler_remove_job, Sched.remove_job.
  cbn -[Sched.get_job].
  destruct (Sched.get_job (w_sched w2) (send_job_id id)) eqn:Hj;
    cbn -[Sched.get_job]; rewrite ?Hj; cbn.
  - split; [left; cbn; rewrite Hf; reflexivity|]. right; right. rewrite Hs.
    eexists. reflexivity.
  - same.
Qed.

Lemma fire_effect j w : effect w (after (jobs.fire j) w).
Proof.
  unfold after, jobs.fire, jobs.delete_message_job, jobs.send_scheduled_media_job.
  destruct (job_func j);
    destruct (job_args j) as [|a1 [|a2 [|a3 [|a4 [|a5 [|a6 [|a7 l]]]]]]];
    try (cbn; same).
  unfold try_except, mbind, M_bind, transport_call, log, raise, any_exception.
  destruct a1; cbn;
    try (destruct (tr_faults (w_bot w)) as [|[msg|] fl]; cbn); same.
Qed.

(** Whatever the handler, the message and the world, a call either leaves
    the pending data or clears it or stores an accepted time, and leaves the
    job table or adds or removes a job that fits its callback. *)
Lemma handle_effect u w : effect w (after (handle u) w).
Proof.
  destruct u; cbn [handle];
    auto using start_effect, set_delete_timer_effect, cancel_delete_timer_effect,
      media_for_deletion_effect, schedule_media_effect, scheduled_media_effect,
      cancel_schedule_effect.
Qed.

Lemma data_step_keeps w w' :
  data_step w w' -> pending_time_accepted w -> pending_time_accepted w'.
Proof.
  unfold pending_time_accepted. intros [E|[E|(t & h & m & Ht & E)]] Hw v; rewrite E.
  - apply Hw.
  - rewrite lookup_empty. discriminate.
  - rewrite lookup_insert_eq. intros [= <-]. eauto.
Qed.

Lemma table_step_keeps s s' : table_step s s' -> table_fits s -> table_fits s'.
Proof.
  unfold table_fits.
  intros [->|[(k & v & Hv & ->)|(k & ->)]] Hs id j Hin.
  - eauto.
  - apply elem_of_app in Hin as [Hin|Hin]; [eauto|].
    apply list_elem_of_singleton in Hin. congruence.
  - apply list_elem_of_In, filter_In in Hin as [Hin _]. apply list_elem_of_In in Hin. eauto.
Qed.

Lemma reachable_keeps w0 w :
  reachable w0 w ->
  (pending_time_accepted w0 -> pending_time_accepted w) /\
  (table_fits (w_sched w0) -> table_fits (w_sched w)).
Proof.
  induction 1 as [|w u _ [IHd IHt]|w id j _ [IHd IHt] _]; [tauto| |].
  - destruct (handle_effect u w) as [Hd Ht].
    split; intros H0.
    + exact (data_step_keeps _ _ Hd (IHd H0)).
    + exact (table_step_keeps _ _ Ht (IHt H0)).
  - destruct (fire_effect j w) as [Hd Ht].
    split; intros H0.
    + exact (data_step_keeps _ _ Hd (IHd H0)).
    + exact (table_step_keeps _ _ Ht (IHt H0)).
Qed.



(** X26. In any run from a table whose jobs fit their callbacks, every job
    in the handlers' table is bound to as many arguments as its callback has
    parameters.  So every deletion job the handlers registered returns when
    it fires, and a send job of the table raises the [TypeError] of the
    three-argument call of [send_media_by_type]. *)
Theorem registered_jobs_fit_their_callbacks w0 w id j :
  table_fits (w_sched w0) ->
  reachable w0 w ->
  (id, j) ∈ w_sched w ->
  match job_func j with
  | cb_delete_message_job => forall w1, exists w2, jobs.fire j w1 = (Ret tt, w2)
  | cb_send_scheduled_media_job =>
      forall w1, jobs.fire j w1
        = (Raise (Exn TypeError
             "send_media_by_type() missing 1 required positional argument: 'bot_instance'"),
           w1)
  end.
Proof.
  intros H0 Hr Hin. apply (reachable_keeps w0 w Hr) in H0.
  specialize (H0 id j Hin). unfold job_fits in H0. unfold jobs.fire.
  destruct (job_func j); intros w1;
    destruct (job_args j) as [|a1 [|a2 [|a3 [|a4 [|a5 [|a6 [|a7 l]]]]]]];
    try discriminate H0.
  - unfold jobs.delete_message_job, try_except, mbind, M_bind, transport_call, log, raise,
      any_exception.
    destruct a1; cbn;
      try (destruct (tr_faults (w_bot w1)) as [|[msg|] fl]; cbn); eauto.
  - reflexivity.
Qed.

(** X26 at work: the timer of five minutes is armed and a sticker arrives;
    the deletion job that the handler registers returns when it fires. *)
Lemma registered_jobs_fit_their_callbacks_witness :
  let w := after (handle (to_media_for_deletion (sticker_message 42 (-100) 8)))
             (after (handle (to_set_delete_timer
                               (command 42 (-100) "/set_delete_timer 5")))
                    sample_world) in
  let j := delete_job (738885 * 86400 * 1000000 + 300000000) (-100) 8 in
  (handlers.delete_job_id (-100) 8 "1704067201.0", j) ∈ w_sched w /\
  exists w2, jobs.fire j w = (Ret tt, w2).
Proof.
  intros w j.
  assert (Hin : (handlers.delete_job_id (-100) 8 "1704067201.0", j) ∈ w_sched w).
  { apply list_elem_of_In. vm_compute. left. reflexivity. }
  split; [exact Hin|].
  refine (registered_jobs_fit_their_callbacks sample_world w
            (handlers.delete_job_id (-100) 8 "1704067201.0") j _ _ Hin w).
  - intros id' j' H. inversion H.
  - apply reach_step, reach_step, reach_start.
Defined.

(** *** Send jobs and records *)




Lemma send_job_id_inj a b : send_job_id a = send_job_id b -> a = b.
Proof. unfold send_job_id. apply append_cancel_l. Qed.











